(** * Reddit Sentiment Intelligence: the analytics pipeline, embedded and verified

    The dashboard's data path is embedded shallowly: a small model of the
    pandas objects the code manipulates (cells, rows, data frames, series,
    boolean masks), Python exceptions as an error monad, and one module per
    source file ([reddit_fetch], [industry_analysis], [morocco_analysis],
    [report_generator], [app]).

    What lies outside the model is taken as a parameter or named where it is
    left out: the Reddit fetch and the CSV reader (their frames are inputs
    of the dashboard; for the fetch itself, what Reddit answers, the
    sentiment analyzer and the local time are parameters), the text-to-date
    parser, scikit-learn's vectorizer, the failures of matplotlib and of the
    file system, the clock, and the text functions of the standard library
    (letter case, word characters, regular expressions: [py.Library]).
    Floats are exact rationals with infinities and NaN.  Text is kept as its
    UTF-8 encoding, on which concatenation, equality, order and substring
    search are those of Python's [str].  [functools.lru_cache] hashes its
    argument; [st.cache_data] has its own hasher for data frames and returns
    what the body returns. *)

From Stdlib Require Import ZArith QArith String Ascii List Sorting.Sorted.
From stdpp Require Import base option list gmap strings.

Local Close Scope Q_scope.
Local Open Scope string_scope.
Local Open Scope list_scope.
Local Open Scope Z_scope.
Local Open Scope stdpp_scope.

(** ** Python exceptions *)

Inductive exn : Type :=
| KeyError (key : string)
| TypeError
| ValueError
| ZeroDivisionError
| OSError
| ReError        (* re.error: the pattern does not compile *)
| NotModelled.   (* the call leaves the fragment of the libraries modelled here *)

Inductive result (A : Type) : Type :=
| Ok (a : A)
| Raise (e : exn).
Arguments Ok {A} a.
Arguments Raise {A} e.

#[global] Instance result_ret : MRet result := @Ok.
#[global] Instance result_bind : MBind result := λ A B k m,
  match m with
  | Ok a => k a
  | Raise e => Raise e
  end.
#[global] Instance result_fmap : FMap result := λ A B f m,
  match m with
  | Ok a => Ok (f a)
  | Raise e => Raise e
  end.

(** ** Python floats

    A float is a finite value, an infinity or NaN.  Finite values are kept as
    rationals and arithmetic on them is exact: rounding to 53 bits is not
    part of the model.  Comparisons follow IEEE 754: every ordered comparison
    with NaN is false. *)

Inductive pyfloat : Type :=
| Fin (q : Q)
| PInf
| NInf
| NaN.

Definition float_le (x y : pyfloat) : bool :=
  match x, y with
  | NaN, _ | _, NaN => false
  | NInf, _ => true
  | _, PInf => true
  | Fin a, Fin b => Qle_bool a b
  | _, _ => false
  end.

Definition float_ge (x y : pyfloat) : bool := float_le y x.

Definition float_eqb (x y : pyfloat) : bool :=
  match x, y with
  | Fin a, Fin b => Qeq_bool a b
  | PInf, PInf | NInf, NInf => true
  | _, _ => false
  end.

Definition float_is_nan (x : pyfloat) : bool :=
  match x with
  | NaN => true
  | _ => false
  end.

Definition float_add (x y : pyfloat) : pyfloat :=
  match x, y with
  | NaN, _ | _, NaN => NaN
  | PInf, NInf | NInf, PInf => NaN
  | PInf, _ | _, PInf => PInf
  | NInf, _ | _, NInf => NInf
  | Fin a, Fin b => Fin (a + b)%Q
  end.

Definition float_of_Z (n : Z) : pyfloat := Fin (inject_Z n).

(** [x / n] for a count [n > 0]. *)
Definition float_div_count (x : pyfloat) (n : nat) : pyfloat :=
  match x with
  | Fin a => Fin (a / inject_Z (Z.of_nat n))%Q
  | other => other
  end.


(** ** Python strings and the standard library *)

Module py.

(** [needle in hay] *)
Fixpoint contains (needle hay : string) : bool :=
  String.prefix needle hay ||
  match hay with
  | EmptyString => false
  | String _ hay' => contains needle hay'
  end.

(** [sep.join(parts)] *)
Fixpoint join (sep : string) (parts : list string) : string :=
  match parts with
  | [] => ""
  | [p] => p
  | p :: rest => p ++ sep ++ join sep rest
  end.

(** Truth value of an optional string ([None] and [""] are false). *)
Definition truthy (s : option string) : bool :=
  match s with
  | Some (String _ _) => true
  | _ => false
  end.

(** [functools.lru_cache]: the arguments are the key of the cache, so they
    are hashed before anything else; the function is called when the key is
    new.  The functions decorated in this program have no effect, so a
    remembered result is the result of a call. *)
Definition lru_cache {A B} (hash : A → result Z) (f : A → result B) (x : A)
  : result B :=
  _ ← hash x; f x.

(** The text functions of the standard library that the program calls.
    What they do with letters outside ASCII, and the language of regular
    expressions, is the library's: the program is verified for every
    library. *)
Record Library : Type := mkLibrary {
  (* re.compile(pat, re.IGNORECASE), as str.contains(pat, case=False) builds
     it: the test [regex.search(s) is not None], or the re.error of a
     pattern that does not compile *)
  re_search_ignorecase : string → result (string → bool);
  (* s.lower() *)
  str_lower : string → string;
  (* len(s): the number of code points *)
  str_len : string → nat;
  (* s.split() *)
  str_split : string → list string;
  (* re.sub(r'[^\w\s]', '', s) *)
  re_sub_punctuation : string → string;
  (* re.findall(r'\w+', s) *)
  re_findall_words : string → list string
}.

End py.

(** ** [re.escape] *)

Module re.

Definition specials : list ascii :=
  list_ascii_of_string "()[]{}?*+-|^$\.&~# " ++
  [ascii_of_nat 9; ascii_of_nat 10; ascii_of_nat 13; ascii_of_nat 11; ascii_of_nat 12].

(** [re.escape]: a backslash before every special character.  The special
    characters are ASCII, so the escape of the encoding is the encoding of
    the escape. *)
Fixpoint escape (s : string) : string :=
  match s with
  | EmptyString => EmptyString
  | String c s' =>
      if bool_decide (c ∈ specials) then String "\" (String c (escape s'))
      else String c (escape s')
  end.

End re.

(** ** A library for ASCII text

    The functions of [py.Library] on text made of ASCII characters, with
    patterns that are alternations of literal terms (what ["|".join(...)]
    builds, with or without [re.escape]); a pattern with another operator
    stops with [NotModelled].  The sample runs are computed with it, on
    ASCII text; no theorem about the program depends on it. *)

Module ascii_text.

Definition lower_char (c : ascii) : ascii :=
  let n := nat_of_ascii c in
  if bool_decide (65 ≤ n ≤ 90)%nat then ascii_of_nat (n + 32) else c.

Fixpoint lower (s : string) : string :=
  match s with
  | EmptyString => EmptyString
  | String c s' => String (lower_char c) (lower s')
  end.

Definition is_word_char (c : ascii) : bool :=
  let n := nat_of_ascii c in
  bool_decide (48 ≤ n ≤ 57)%nat || bool_decide (65 ≤ n ≤ 90)%nat
  || bool_decide (97 ≤ n ≤ 122)%nat || bool_decide (n = 95)%nat.

Definition is_space (c : ascii) : bool :=
  let n := nat_of_ascii c in
  bool_decide (9 ≤ n ≤ 13)%nat || bool_decide (28 ≤ n ≤ 32)%nat.

Definition operators : list ascii := list_ascii_of_string "()[]{}?*+^$.".

Definition push (c : ascii) (alts : list string) : list string :=
  match alts with
  | a :: rest => String c a :: rest
  | [] => [String c EmptyString]
  end.

(** The literal alternatives of a pattern. *)
Fixpoint alternatives (p : string) : result (list string) :=
  match p with
  | EmptyString => Ok [""]
  | String c p' =>
      if bool_decide (c = "|"%char) then alts ← alternatives p'; Ok ("" :: alts)
      else if bool_decide (c = "\"%char) then
        match p' with
        | EmptyString => Raise ReError
        | String d p'' =>
            if is_word_char d then Raise NotModelled
            else alts ← alternatives p''; Ok (push d alts)
        end
      else if bool_decide (c ∈ operators) then Raise NotModelled
      else alts ← alternatives p'; Ok (push c alts)
  end.

Definition search_ignorecase (pat : string) : result (string → bool) :=
  alts ← alternatives pat;
  Ok (λ s, existsb (λ a, py.contains (lower a) (lower s)) alts).

(** [re.sub(r'[^\w\s]', '', text)] *)
Fixpoint strip_punctuation (text : string) : string :=
  match text with
  | EmptyString => EmptyString
  | String c rest =>
      if is_word_char c || is_space c then String c (strip_punctuation rest)
      else strip_punctuation rest
  end.

(** [text.split()]: the maximal runs of non-space characters. *)
Fixpoint split_from (word : string) (text : string) : list string :=
  match text with
  | EmptyString => match word with EmptyString => [] | _ => [word] end
  | String c rest =>
      if is_space c then
        match word with
        | EmptyString => split_from "" rest
        | _ => word :: split_from "" rest
        end
      else split_from (word ++ String c EmptyString) rest
  end.

Definition split (text : string) : list string := split_from "" text.

(** [re.findall(r'\w+', text)]: the maximal runs of word characters. *)
Fixpoint findall_words_from (word : string) (text : string) : list string :=
  match text with
  | EmptyString => match word with EmptyString => [] | _ => [word] end
  | String c rest =>
      if is_word_char c then findall_words_from (word ++ String c EmptyString) rest
      else
        match word with
        | EmptyString => findall_words_from "" rest
        | _ => word :: findall_words_from "" rest
        end
  end.

Definition findall_words (text : string) : list string := findall_words_from "" text.

Definition library : py.Library :=
  py.mkLibrary search_ignorecase lower String.length split strip_punctuation
    findall_words.

End ascii_text.

(** ** The pandas objects the program works on

    A [DataFrame] is its ordered column labels and its rows, each row a
    dictionary from column label to cell; a Series is a list of cells and a
    boolean mask a list of booleans.  Object columns are assumed: a cell
    keeps the Python value it was built from. *)

Module pd.

Inductive cell : Type :=
| VStr (s : string)
| VInt (n : Z)
| VFloat (x : pyfloat)
| VDatetime (day : Z) (second : Z)   (* datetime.datetime / Timestamp *)
| VDate (day : Z)                    (* datetime.date, as its ordinal *)
| VNone.                             (* None / NaT *)

Record DataFrame : Type := mkDataFrame {
  columns : list string;
  rows : list (gmap string cell)
}.

Definition isna (c : cell) : bool :=
  match c with
  | VNone | VFloat NaN => true
  | _ => false
  end.

Definition as_float (c : cell) : option pyfloat :=
  match c with
  | VInt n => Some (float_of_Z n)
  | VFloat x => Some x
  | _ => None
  end.

(** Python's [x <= y] on two values. *)
Definition py_le (x y : cell) : result bool :=
  match x, y with
  | VStr a, VStr b => Ok (String.leb a b)
  | VDate a, VDate b => Ok (a <=? b)
  | VDatetime a s, VDatetime b t => Ok ((a <? b) || ((a =? b) && (s <=? t)))
  | _, _ =>
      match as_float x, as_float y with
      | Some a, Some b => Ok (float_le a b)
      | _, _ => Raise TypeError
      end
  end.

(** Python's [x == y]: never raises, values of different types differ. *)
Definition py_eq (x y : cell) : bool :=
  match x, y with
  | VStr a, VStr b => String.eqb a b
  | VDate a, VDate b => a =? b
  | VDatetime a s, VDatetime b t => (a =? b) && (s =? t)
  | VNone, VNone => true
  | _, _ =>
      match as_float x, as_float y with
      | Some a, Some b => float_eqb a b
      | _, _ => false
      end
  end.

Definition len (df : DataFrame) : nat := length (rows df).

(** [df.empty]: one of the axes has length 0. *)
Definition empty (df : DataFrame) : bool :=
  match rows df, columns df with
  | _ :: _, _ :: _ => false
  | _, _ => true
  end.

(** [df[col]] *)
Definition getitem (df : DataFrame) (col : string) : result (list cell) :=
  if bool_decide (col ∈ columns df)
  then Ok ((λ r, default VNone (r !! col)) <$> rows df)
  else Raise (KeyError col).

(** [series >= v], [series <= v] and [series == v] against a scalar: a
    missing element compares false. *)
Definition series_ge (s : list cell) (v : cell) : result (list bool) :=
  mapM (λ x, if isna x then Ok false else py_le v x) s.

Definition series_le (s : list cell) (v : cell) : result (list bool) :=
  mapM (λ x, if isna x then Ok false else py_le x v) s.

Definition series_eq (s : list cell) (v : cell) : list bool :=
  (λ x, if isna x then false else py_eq x v) <$> s.

(** [m1 & m2] *)
Definition mask_and (m1 m2 : list bool) : list bool := zip_with andb m1 m2.

Fixpoint compress {A} (mask : list bool) (l : list A) : list A :=
  match mask, l with
  | b :: mask', x :: l' =>
      if b then x :: compress mask' l' else compress mask' l'
  | _, _ => []
  end.

(** [df[mask]] *)
Definition loc (df : DataFrame) (mask : list bool) : DataFrame :=
  mkDataFrame (columns df) (compress mask (rows df)).

(** [df[col] = series]: the column is replaced where it stands, or added
    last. *)
Definition setitem (df : DataFrame) (col : string) (s : list cell)
  : result DataFrame :=
  if bool_decide (length s = length (rows df)) then
    Ok (mkDataFrame
          (if bool_decide (col ∈ columns df) then columns df
           else columns df ++ [col])
          (zip_with (λ r v, <[col := v]> r) (rows df) s))
  else Raise ValueError.

(** [series.mean()], with the default [skipna=True]. *)
Definition series_mean (s : list cell) : result pyfloat :=
  xs ← mapM (λ c, match c with
                   | VNone => Ok NaN
                   | _ => match as_float c with
                          | Some x => Ok x
                          | None => Raise TypeError
                          end
                   end) s;
  let present := List.filter (λ x, negb (float_is_nan x)) xs in
  match present with
  | [] => Ok NaN
  | _ => Ok (float_div_count (foldl float_add (Fin 0) present) (length present))
  end.

(** [series.apply(f)] *)
Definition apply {A} (f : cell → result A) (s : list cell) : result (list A) :=
  mapM f s.

(** [df.head(n)] *)
Definition head (n : nat) (df : DataFrame) : DataFrame :=
  mkDataFrame (columns df) (take n (rows df)).

(** *** Sorting *)

Inductive kind : Type := KNum | KStr | KDate | KDatetime.

Definition kind_of (c : cell) : option kind :=
  match c with
  | VStr _ => Some KStr
  | VInt _ | VFloat _ => Some KNum
  | VDate _ => Some KDate
  | VDatetime _ _ => Some KDatetime
  | VNone => None
  end.

Definition kind_eqb (a b : kind) : bool :=
  match a, b with
  | KNum, KNum | KStr, KStr | KDate, KDate | KDatetime, KDatetime => true
  | _, _ => false
  end.

Definition same_kind (x y : cell) : bool :=
  match kind_of x, kind_of y with
  | Some a, Some b => kind_eqb a b
  | _, _ => false
  end.

Definition key_leb (x y : cell) : bool :=
  match py_le x y with
  | Ok b => b
  | Raise _ => false
  end.

Fixpoint insert_sorted {A} (leb : A → A → bool) (x : A) (l : list A) : list A :=
  match l with
  | [] => [x]
  | y :: l' => if leb x y then x :: l else y :: insert_sorted leb x l'
  end.

(** A stable sort: of two rows with equal keys the earlier stays first. *)
Definition stable_sort {A} (leb : A → A → bool) (l : list A) : list A :=
  foldr (insert_sorted leb) [] l.

(** [nargsort]: missing keys last; a descending sort reverses, sorts and
    reverses again.  The order of equal keys under the default
    [kind="quicksort"] is not fixed by pandas; the stable order is taken. *)
Definition nargsort (ascending : bool) (keyed : list (cell * gmap string cell))
  : result (list (gmap string cell)) :=
  let missing := List.filter (λ kr, isna kr.1) keyed in
  let present := List.filter (λ kr, negb (isna kr.1)) keyed in
  let leb := λ a b : cell * gmap string cell, key_leb a.1 b.1 in
  match present with
  | (k, _) :: rest =>
      if forallb (λ kr, same_kind k kr.1) rest then
        Ok (snd <$> ((if ascending then stable_sort leb present
                      else rev (stable_sort leb (rev present))) ++ missing))
      else Raise TypeError
  | [] => Ok (snd <$> missing)
  end.

(** [df.sort_values(by, ascending=ascending)] *)
Definition sort_values (df : DataFrame) (by_ : string) (ascending : bool)
  : result DataFrame :=
  keys ← getitem df by_;
  sorted ← nargsort ascending (zip keys (rows df));
  Ok (mkDataFrame (columns df) sorted).

(** [df.nlargest(n, col)], with the default [keep="first"]: numeric columns
    only.  Integers are taken to fit the 64 bits of a numeric column. *)
Definition nlargest (n : nat) (col : string) (df : DataFrame) : result DataFrame :=
  keys ← getitem df col;
  if forallb (λ k, isna k || match kind_of k with Some KNum => true | _ => false end) keys
  then sorted ← sort_values df col false; Ok (head n sorted)
  else Raise TypeError.

(** [df[[c1, ..., cn]].to_dict(orient="records")] *)
Definition records (cols : list string) (df : DataFrame)
  : result (list (gmap string cell)) :=
  match List.find (λ c, negb (bool_decide (c ∈ columns df))) cols with
  | Some c => Raise (KeyError c)
  | None =>
      Ok ((λ r, list_to_map ((λ c, (c, default VNone (r !! c))) <$> cols)) <$> rows df)
  end.

(** *** Text and dates *)

(** [series.str.contains(pat, case=False, na=False)]: the pattern is
    compiled, then searched in every element that is text; an element that
    is no text gives [na], which is false.  (A column without any text has
    no [.str] accessor in pandas; the properties below that rely on a
    successful search are stated for columns of text.) *)
Definition str_contains (lib : py.Library) (s : list cell) (pat : string)
  : result (list bool) :=
  found ← py.re_search_ignorecase lib pat;
  Ok ((λ c, match c with
            | VStr title => found title
            | _ => false
            end) <$> s).

Section dates.
(** The date parser [pd.to_datetime] applies to text: day and second of
    the day, or nothing when the text is no date. *)
Variable parse_datetime : string → option (Z * Z).

Definition to_datetime_cell (c : cell) : result cell :=
  match c with
  | VDatetime d s => Ok (VDatetime d s)
  | VDate d => Ok (VDatetime d 0)
  | VNone | VFloat NaN => Ok VNone
  | VStr txt =>
      match parse_datetime txt with
      | Some (d, s) => Ok (VDatetime d s)
      | None => Raise ValueError
      end
  | VInt _ | VFloat _ => Raise NotModelled   (* numbers as epoch offsets: left out *)
  end.

(** [pd.to_datetime(series)] *)
Definition to_datetime (s : list cell) : result (list cell) :=
  mapM to_datetime_cell s.
End dates.

(** [hash(df)]: a data frame is mutable and refuses to be hashed. *)
Definition DataFrame_hash (df : DataFrame) : result Z := Raise TypeError.

(** [series.dt.date] of a datetime series *)
Definition dt_date (s : list cell) : list cell :=
  (λ c, match c with
        | VDatetime d _ => VDate d
        | _ => VNone
        end) <$> s.

End pd.

(** ** reddit_fetch.py *)

Module reddit_fetch.

(** [fetch_posts_safely] talks to Reddit; the frame it returns is an input of
    the dashboard.  After a failure it returns [pd.DataFrame()]. *)
Definition empty_frame : pd.DataFrame := pd.mkDataFrame [] [].

Section normalizer.
Variable parse_datetime : string → option (Z * Z).

(** The body of [process_reddit_data]. *)
Definition process_reddit_data_body (df : pd.DataFrame) : result pd.DataFrame :=
  created ← pd.getitem df "created";
  stamps ← pd.to_datetime parse_datetime created;
  pd.setitem df "date" (pd.dt_date stamps).

(** [process_reddit_data] as the module exports it, under
    [@lru_cache(maxsize=1)]: the data frame is the key of the cache. *)
Definition process_reddit_data : pd.DataFrame → result pd.DataFrame :=
  py.lru_cache pd.DataFrame_hash process_reddit_data_body.
End normalizer.

Definition required_columns : list string :=
  ["title"; "sentiment_compound"; "created"].

Definition validate_reddit_data (df : pd.DataFrame) : bool :=
  forallb (λ col, bool_decide (col ∈ pd.columns df)) required_columns.

(** *** The fetch

    What Reddit answers is an input: the posts of the search, or the
    exception that interrupted the request or the loop over its results. *)

Record Submission : Type := mkSubmission {
  title : string;
  selftext : string;
  score : Z;
  num_comments : Z;
  created : Z;            (* seconds since the epoch; 0 when there is none *)
  url : string
}.

Record Scores : Type := mkScores {
  neg : pyfloat;
  neu : pyfloat;
  pos : pyfloat;
  compound : pyfloat
}.

(** tenacity's [retry(stop=stop_after_attempt(n))]: the call is made again
    while it raises, [n] times at most; then [RetryError] carries the last
    exception.  The number of the last attempt is returned too. *)
Inductive retried (A : Type) : Type :=
| Returned (a : A)
| RetryError (last : exn).
Arguments Returned {A} a.
Arguments RetryError {A} last.

Fixpoint retry_from {A} (more : nat) (call : nat → result A) (attempt : nat)
  : retried A * nat :=
  match call attempt with
  | Ok a => (Returned a, attempt)
  | Raise e =>
      match more with
      | O => (RetryError e, attempt)
      | S more' => retry_from more' call (S attempt)
      end
  end.

Definition retry {A} (stop_after_attempt : nat) (call : nat → result A)
  : retried A * nat :=
  retry_from (stop_after_attempt - 1) call 1.

Section fetch.
(** [reddit.subreddit("all").search(keyword, limit=limit)] at an attempt,
    read to its end. *)
Variable search : nat → string → nat → result (list Submission).
(** [analyzer.polarity_scores] *)
Variable polarity_scores : string → Scores.
(** [datetime.datetime.fromtimestamp]: day and second of the day. *)
Variable fromtimestamp : Z → Z * Z.

(** The dictionary appended for one post. *)
Definition post_row (post : Submission) : gmap string pd.cell :=
  let text := (title post ++ " " ++ selftext post)%string in
  let vs := polarity_scores text in
  let created_time :=
    if bool_decide (created post = 0) then pd.VNone
    else pd.VDatetime (fromtimestamp (created post)).1 (fromtimestamp (created post)).2 in
  {[ "title" := pd.VStr (title post);
     "text" := pd.VStr (selftext post);
     "score" := pd.VInt (score post);
     "num_comments" := pd.VInt (num_comments post);
     "created" := created_time;
     "url" := pd.VStr (url post);
     "sentiment_neg" := pd.VFloat (neg vs);
     "sentiment_neu" := pd.VFloat (neu vs);
     "sentiment_pos" := pd.VFloat (pos vs);
     "sentiment_compound" := pd.VFloat (compound vs) ]}.

Definition fetched_columns : list string :=
  [ "title"; "text"; "score"; "num_comments"; "created"; "url";
    "sentiment_neg"; "sentiment_neu"; "sentiment_pos"; "sentiment_compound" ].

(** [pd.DataFrame(data)] for dictionaries with the keys [keys]: without a
    dictionary there is no column. *)
Definition DataFrame_of (keys : list string) (data : list (gmap string pd.cell))
  : pd.DataFrame :=
  match data with
  | [] => pd.mkDataFrame [] []
  | _ :: _ => pd.mkDataFrame keys data
  end.

(** The body of [fetch_posts_safely]: whatever is raised inside the [try]
    ends in [pd.DataFrame()]. *)
Definition fetch_attempt (attempt : nat) (keyword : string) (limit : nat)
  : result pd.DataFrame :=
  match search attempt keyword limit with
  | Ok posts => Ok (DataFrame_of fetched_columns (post_row <$> posts))
  | Raise _ => Ok empty_frame
  end.

Definition fetch_posts_safely (keyword : string) (limit : nat)
  : retried pd.DataFrame * nat :=
  retry 3 (λ attempt, fetch_attempt attempt keyword limit).
End fetch.

End reddit_fetch.

(** ** industry_analysis.py *)

Module industry_analysis.

Definition GLOBAL_INDUSTRIES : list (string * list string) :=
  [ ("Real Estate", ["house"; "property"; "rent"; "buy"; "lease"; "real estate"; "immobilier"]);
    ("Tech", ["AI"; "software"; "app"; "code"; "programming"; "algorithm"]);
    ("Finance", ["bank"; "loan"; "invest"; "stock"; "crypto"; "money"]);
    ("Education", ["school"; "university"; "learn"; "student"; "course"]);
    ("Healthcare", ["hospital"; "doctor"; "medicine"; "health"; "patient"]);
    ("Tourism", ["hotel"; "travel"; "visit"; "tour"; "vacation"]) ].

Record IndustryResult : Type := mkIndustryResult {
  Industry : string;
  Posts : nat;
  Avg_Sentiment : pyfloat
}.

(** What [render_industry_analysis] shows. *)
Inductive IndustryView : Type :=
| NoIndustryPatterns                       (* st.warning *)
| IndustryChart (rows : list IndustryResult).

Section analysis.
Variable lib : py.Library.

(** The posts of one industry: title matches one of the terms and, when a
    search term is given, the search term too. *)
Definition industry_posts (df : pd.DataFrame) (terms : list string)
    (search_term : option string) : result pd.DataFrame :=
  titles ← pd.getitem df "title";
  mask ← pd.str_contains lib titles (py.join "|" terms);
  let industry_posts := pd.loc df mask in
  if py.truthy search_term then
    titles' ← pd.getitem industry_posts "title";
    mask' ← pd.str_contains lib titles' (default "" search_term);
    Ok (pd.loc industry_posts mask')
  else Ok industry_posts.

Fixpoint analyze_loop (industries : list (string * list string))
    (df : pd.DataFrame) (search_term : option string)
  : result (list IndustryResult) :=
  match industries with
  | [] => Ok []
  | (industry, terms) :: rest =>
      posts ← industry_posts df terms search_term;
      here ← (if pd.empty posts then Ok []
              else
                compound ← pd.getitem posts "sentiment_compound";
                avg ← pd.series_mean compound;
                Ok [mkIndustryResult industry (pd.len posts) avg]);
      others ← analyze_loop rest df search_term;
      Ok (here ++ others)
  end.

(** [analyze_industries], for any industry mapping (a dict in insertion
    order). *)
Definition analyze_industries_in (industries : list (string * list string))
    (df : pd.DataFrame) (search_term : option string)
  : result (option (list IndustryResult)) :=
  if pd.empty df then Ok None
  else Some <$> analyze_loop industries df search_term.

Definition analyze_industries : pd.DataFrame → option string →
    result (option (list IndustryResult)) :=
  analyze_industries_in GLOBAL_INDUSTRIES.

Definition render_industry_analysis (df : pd.DataFrame)
    (search_term : option string) : result IndustryView :=
  industry_df ← analyze_industries df search_term;
  match industry_df with
  | None | Some [] => Ok NoIndustryPatterns
  | Some rows => Ok (IndustryChart rows)
  end.
End analysis.

End industry_analysis.

(** ** morocco_analysis.py *)

Module morocco_analysis.

Definition MOROCCO_KEYWORDS : list string :=
  [ "Morocco"; "Maroc"; "المغرب"; "Casablanca"; "Rabat";
    "Tanger"; "OCP"; "Attijariwafa"; "Darija"; "touris";
    "visit"; "immobili"; "property"; "house"; "شقة" ].

Definition STOP_WORDS : list string :=
  [ "the"; "and"; "of"; "to"; "in"; "is"; "it"; "that"; "this";
    "ال"; "في"; "من"; "على"; "أن"; "هذا" ].

(** [Counter(words)]: counts in order of first occurrence. *)
Fixpoint count_word (w : string) (counts : list (string * nat)) : list (string * nat) :=
  match counts with
  | [] => [(w, 1%nat)]
  | (v, n) :: rest =>
      if String.eqb v w then (v, S n) :: rest else (v, n) :: count_word w rest
  end.

Definition Counter (words : list string) : list (string * nat) :=
  foldl (λ counts w, count_word w counts) [] words.

(** [counter.most_common(n)]: by decreasing count, first seen first among
    equal counts. *)
Definition most_common (n : nat) (counts : list (string * nat)) : list (string * nat) :=
  take n (pd.stable_sort (λ a b : string * nat, (b.2 <=? a.2)%nat) counts).

Definition get_top_keywords (lib : py.Library) (posts : list pd.cell) (n : nat)
  : list string :=
  let words :=
    flat_map (λ post,
      match post with
      | pd.VStr text =>
          List.filter
            (λ word, negb (bool_decide (word ∈ STOP_WORDS))
                     && (2 <? py.str_len lib word)%nat)
            (py.str_split lib (py.re_sub_punctuation lib (py.str_lower lib text)))
      | _ => []
      end) posts in
  fst <$> most_common n (Counter words).

Record Metrics : Type := mkMetrics {
  morocco_posts : pd.DataFrame;
  avg_sentiment : pyfloat;
  post_count : nat;
  top_keywords : list string;
  sample_posts : list (gmap string pd.cell)
}.

(** What [render_morocco_analysis] shows. *)
Inductive MoroccoView : Type :=
| NothingRendered
| NoMatchingPosts                        (* st.warning *)
| MoroccoFocus (m : Metrics).

Section metrics.
Variable lib : py.Library.
(** scikit-learn's [CountVectorizer(stop_words="english", max_features=10)]
    fitted on the titles, when the library is installed. *)
Variable vectorizer : option (list pd.cell → result (list string)).

Definition fillna_empty (s : list pd.cell) : list pd.cell :=
  (λ c, if pd.isna c then pd.VStr "" else c) <$> s.

Definition best_top_keywords (posts : pd.DataFrame) : result (list string) :=
  match vectorizer with
  | Some fit =>
      match (titles ← pd.getitem posts "title"; fit (fillna_empty titles)) with
      | Ok names => Ok names
      | Raise _ => titles ← pd.getitem posts "title"; Ok (get_top_keywords lib titles 10)
      end
  | None => titles ← pd.getitem posts "title"; Ok (get_top_keywords lib titles 10)
  end.

Definition get_morocco_metrics (df : pd.DataFrame) (keywords : list string)
    (search_term : option string) : result (option Metrics) :=
  if pd.empty df then Ok None
  else
    df ← (if py.truthy search_term then
            titles ← pd.getitem df "title";
            mask ← pd.str_contains lib titles (default "" search_term);
            Ok (pd.loc df mask)
          else Ok df);
    morocco_posts ← (match keywords with
                     | _ :: _ =>
                         titles ← pd.getitem df "title";
                         mask ← pd.str_contains lib titles
                                  (py.join "|" (re.escape <$> keywords));
                         Ok (pd.loc df mask)
                     | [] => Ok df
                     end);
    if pd.empty morocco_posts then Ok None
    else
      top_keywords ← best_top_keywords morocco_posts;
      compound ← pd.getitem morocco_posts "sentiment_compound";
      avg ← pd.series_mean compound;
      sample ← pd.records ["title"; "sentiment_compound"] (pd.head 3 morocco_posts);
      Ok (Some (mkMetrics morocco_posts avg (pd.len morocco_posts) top_keywords sample)).

Definition render_morocco_analysis (df : pd.DataFrame) (keywords : list string)
    (search_term : option string) : result MoroccoView :=
  match keywords with
  | [] => Ok NothingRendered
  | _ :: _ =>
      if pd.empty df then Ok NothingRendered
      else
        metrics ← get_morocco_metrics df keywords search_term;
        match metrics with
        | None => Ok NoMatchingPosts
        | Some m => Ok (MoroccoFocus m)
        end
  end.
End metrics.

End morocco_analysis.

(** ** industry_analysis.py: the keyword fallback

    [get_top_keywords] of [industry_analysis] counts with the [Counter] of
    the standard library, modelled above. *)

Module industry_keywords.

Definition get_top_keywords (lib : py.Library) (posts : list pd.cell) (n : nat)
  : list string :=
  let words :=
    flat_map (λ post,
      match post with
      | pd.VStr text =>
          py.str_lower lib <$> List.filter (λ word, (3 <? py.str_len lib word)%nat)
                                 (py.re_findall_words lib text)
      | _ => []
      end) posts in
  fst <$> morocco_analysis.most_common n (morocco_analysis.Counter words).

End industry_keywords.

(** ** report_generator.py *)

Module report_generator.

(** *** The temporary directories

    [tempfile.mkdtemp] makes a fresh directory; a directory is known by its
    number and holds a set of file names. *)

Record World : Type := mkWorld {
  next_dir : nat;
  dirs : gmap nat (gset string)
}.

Definition mkdtemp (w : World) : nat * World :=
  (next_dir w, mkWorld (S (next_dir w)) (<[next_dir w := ∅]> (dirs w))).

(** *** The document

    Text keeps the numbers it prints: a format specification is recorded,
    not carried out on the digits. *)

Inductive part : Type :=
| Lit (s : string)
| Int (n : nat)                         (* str(n), f"{n}" *)
| Fixed (digits : nat) (x : pyfloat).   (* f"{x:.<digits>f}" *)

Inductive item : Type :=
| Cell (text : list part)
| MultiCell (text : list part)
| Image (dir : nat) (filename : string).

Record State : Type := mkState {
  world : World;
  page : list item
}.

(** Methods of the generator change the document and the directory, and may
    raise; what was changed before an exception stays changed. *)
Record IO (A : Type) : Type := mkIO { run : State → result A * State }.
Arguments mkIO {A} run.
Arguments run {A} _ _.

#[global] Instance IO_ret : MRet IO := λ A a, mkIO (λ s, (Ok a, s)).
#[global] Instance IO_bind : MBind IO := λ A B k m,
  mkIO (λ s, match run m s with
             | (Ok a, s') => run (k a) s'
             | (Raise e, s') => (Raise e, s')
             end).

Definition lift {A} (r : result A) : IO A := mkIO (λ s, (r, s)).

(** [cell], [multi_cell], [image]: the item is appended to the document.
    fpdf's refusal of text outside latin-1 is left out; the failures of
    [image] are those of [io_call] below. *)
Definition emit (i : item) : IO () :=
  mkIO (λ s, (Ok (), mkState (world s) (page s ++ [i]))).

Inductive io_call : Type :=
| Savefig (filename : string)
| EmbedImage (filename : string)
| Output.

(** [positive / total * 100] on two counts. *)
Definition percent (count total : nat) : result pyfloat :=
  match total with
  | O => Raise ZeroDivisionError
  | S _ => Ok (Fin (inject_Z (Z.of_nat count) / inject_Z (Z.of_nat total) * 100)%Q)
  end.

(** [len(df[df["Sentiment"] == label])] *)
Definition count_label (df : pd.DataFrame) (label : string) : result nat :=
  sentiment ← pd.getitem df "Sentiment";
  Ok (pd.len (pd.loc df (pd.series_eq sentiment (pd.VStr label)))).

Record Generator : Type := mkGenerator {
  df : pd.DataFrame;
  search_term : string;
  analysis_date : string;
  temp_dir : nat
}.

(** [EnhancedPDFGenerator(df, search_term, analysis_date)] *)
Definition init (df : pd.DataFrame) (search_term analysis_date : string)
    (w : World) : Generator * World :=
  let '(dir, w') := mkdtemp w in
  (mkGenerator df search_term analysis_date dir, w').

(** The list [metrics] built by [_add_metrics_section]. *)
Definition metrics (self : Generator) : result (list (string * list part)) :=
  positive ← count_label (df self) "Positive";
  negative ← count_label (df self) "Negative";
  neutral ← count_label (df self) "Neutral";
  compound ← pd.getitem (df self) "sentiment_compound";
  mean ← pd.series_mean compound;
  positive_pct ← percent positive (pd.len (df self));
  negative_pct ← percent negative (pd.len (df self));
  neutral_pct ← percent neutral (pd.len (df self));
  Ok [ ("Search Term", [Lit (search_term self)]);
       ("Total Posts", [Int (pd.len (df self))]);
       ("Avg Sentiment", [Fixed 2 mean]);
       ("Positive Posts", [Int positive; Lit " ("; Fixed 1 positive_pct; Lit "%)"]);
       ("Negative Posts", [Int negative; Lit " ("; Fixed 1 negative_pct; Lit "%)"]);
       ("Neutral Posts", [Int neutral; Lit " ("; Fixed 1 neutral_pct; Lit "%)"]) ].

Record Report : Type := mkReport {
  meta_search_term : string;
  meta_analysis_date : string;
  total_posts : nat;
  average_sentiment : pyfloat;
  distribution_positive : nat;
  distribution_negative : nat;
  distribution_neutral : nat;
  top_posts : list (gmap string pd.cell)
}.

Definition generate_json (self : Generator) : result Report :=
  pos ← count_label (df self) "Positive";
  neg ← count_label (df self) "Negative";
  neu ← count_label (df self) "Neutral";
  compound ← pd.getitem (df self) "sentiment_compound";
  mean ← pd.series_mean compound;
  largest ← pd.nlargest 5 "score" (df self);
  top ← pd.records ["title"; "Sentiment"; "score"; "num_comments"] largest;
  Ok (mkReport (search_term self) (analysis_date self) (pd.len (df self))
        mean pos neg neu top).

Section rendering.
(** Which calls into matplotlib and the file system fail in this run.  What
    a figure draws is not modelled: a chart is known by the file it is saved
    as. *)
Variable fails : io_call → bool.

Definition savefig (self : Generator) (filename : string) : IO () :=
  mkIO (λ s,
    if fails (Savefig filename) then (Raise OSError, s)
    else
      let w := world s in
      let files := default ∅ (dirs w !! temp_dir self) in
      (Ok (), mkState (mkWorld (next_dir w)
                         (<[temp_dir self := {[filename]} ∪ files]> (dirs w)))
                      (page s))).

Definition _save_chart (self : Generator) (filename : string) : IO string :=
  _ ← savefig self filename;
  mret filename.

(** [self.image(chart_path, ...)] *)
Definition image (self : Generator) (filename : string) : IO () :=
  if fails (EmbedImage filename) then lift (Raise OSError)
  else emit (Image (temp_dir self) filename).

Definition _add_header (self : Generator) : IO () :=
  _ ← emit (Cell [Lit "Reddit Analysis Report"]);
  emit (Cell [Lit "Generated on "; Lit (analysis_date self)]).

Fixpoint emit_metrics (ms : list (string * list part)) : IO () :=
  match ms with
  | [] => mret ()
  | (k, v) :: rest =>
      _ ← emit (Cell [Lit k]);
      _ ← emit (Cell v);
      emit_metrics rest
  end.

Definition _add_metrics_section (self : Generator) : IO () :=
  _ ← emit (Cell [Lit "Key Metrics"]);
  ms ← lift (metrics self);
  emit_metrics ms.

Definition _add_visuals_section (self : Generator) : IO () :=
  _ ← (if bool_decide ("Sentiment" ∈ pd.columns (df self)) then
         chart_path ← _save_chart self "sentiment.png";
         image self chart_path
       else mret ());
  _ ← (if bool_decide ("date" ∈ pd.columns (df self)) then
         _ ← lift (pd.getitem (df self) "sentiment_compound");
         chart_path ← _save_chart self "trend.png";
         image self chart_path
       else mret ());
  if bool_decide ("industry" ∈ pd.columns (df self)) then
    _ ← lift (pd.getitem (df self) "sentiment_compound");
    chart_path ← _save_chart self "industry.png";
    image self chart_path
  else mret ().

Definition recommendations : list string :=
  [ "Monitor spikes in negative sentiment to identify potential PR crises early.";
    "Leverage positive discussions by engaging with supportive communities.";
    "Consider deeper analysis by industry or region for targeted strategies.";
    "Export the dataset regularly for offline review and archiving." ].

Fixpoint emit_lines (lines : list string) : IO () :=
  match lines with
  | [] => mret ()
  | line :: rest => _ ← emit (MultiCell [Lit "- "; Lit line]); emit_lines rest
  end.

Definition _add_recommendations (self : Generator) : IO () :=
  _ ← emit (Cell [Lit "Insights & Recommendations"]);
  emit_lines recommendations.

Definition _add_footer (self : Generator) : IO () :=
  emit (Cell [Lit "Generated by Reddit Sentiment Dashboard"]).

Definition _build_pdf_content (self : Generator) : IO () :=
  _ ← _add_header self;
  _ ← _add_metrics_section self;
  _ ← _add_visuals_section self;
  _ ← _add_recommendations self;
  _add_footer self.

(** [self.output(pdf_bytes)] *)
Definition output : IO (list item) :=
  mkIO (λ s, if fails Output then (Raise OSError, s) else (Ok (page s), s)).

(** The cleanup at the end of [generate_pdf]: every file of the directory
    is removed, then the directory.  [os.remove] and [os.rmdir] are taken to
    succeed on the directory the generator made itself. *)
Definition cleanup (self : Generator) : IO () :=
  mkIO (λ s,
    let w := world s in
    (Ok (), mkState (mkWorld (next_dir w) (delete (temp_dir self) (dirs w)))
                    (page s))).

Definition generate_pdf (self : Generator) : IO (list item) :=
  _ ← _build_pdf_content self;
  pdf_bytes ← output;
  _ ← cleanup self;
  mret pdf_bytes.
End rendering.

End report_generator.

(** ** app.py *)

Module app.

(** The literals [0.05] and [-0.05] are the doubles nearest to 1/20 and
    -1/20.  No double lies strictly between 1/20 and the literal, so on
    doubles the comparison with the literal and the comparison with the
    rational 1/20 decide alike. *)
Definition pos_threshold : pyfloat := Fin (5 # 100).
Definition neg_threshold : pyfloat := Fin (- 5 # 100).

Definition classify_sentiment (compound_score : pyfloat) : string :=
  if float_ge compound_score pos_threshold then "Positive"
  else if float_le compound_score neg_threshold then "Negative"
  else "Neutral".

(** [classify_sentiment] applied to a cell of the compound column. *)
Definition classify_cell (c : pd.cell) : result pd.cell :=
  match pd.as_float c with
  | Some score => Ok (pd.VStr (classify_sentiment score))
  | None => Raise TypeError
  end.

(** *** Session state and widgets *)

Record SessionState : Type := mkSession {
  original_df : option pd.DataFrame;
  raw_count : nat;
  temp_dates : Z * Z;
  applied_dates : Z * Z;
  min_score : Z;
  current_keyword : string;
  fetch_clicked : bool;
  data_ready : bool
}.

(** [datetime.date(2018, 3, 14).toordinal()] *)
Definition default_start : Z := 736767.

Definition initial_state (today : Z) : SessionState :=
  mkSession None 0 (default_start, today) (default_start, today) 0 "" false false.

Inductive Mode : Type := FetchRedditData | UploadCSVFile.

Inductive SortBy : Type := HighestScore | MostComments | MostRecent | MostPositive.

(** What made the script run again. *)
Inductive Event : Type :=
| Rerun
| SliderMoved (value : Z)     (* on_change of the minimum-score slider *)
| ApplyPressed                (* on_click=apply_date_range *)
| FetchPressed.               (* "Fetch & Analyze Data" *)

Record Widgets : Type := mkWidgets {
  mode : Mode;
  keyword : string;
  reddit : pd.DataFrame;                          (* fetch_posts_safely(keyword, limit) *)
  uploaded_file : option (result pd.DataFrame);   (* pd.read_csv(uploaded_file) *)
  selected_dates : list Z;                        (* the date picker *)
  morocco_keywords : list string;
  sort_by : SortBy;
  show_count : nat;
  event : Event
}.

Inductive Message : Type :=
| StartBeforeEnd            (* "Start date must be before end date" *)
| Fetched (n : nat)         (* "Successfully fetched {n} posts from Reddit!" *)
| InvalidRedditFormat       (* "Invalid data format received from Reddit" *)
| CsvLoaded (n : nat)       (* "CSV loaded successfully with {n} posts!" *)
| CsvMissingColumns         (* "CSV missing required columns ..." *)
| UploadFirst               (* "Please upload a CSV file first" *)
| ErrorOccurred (e : exn)   (* "An error occurred: {e}" *)
| NoPostsMatch              (* "No posts match the selected filters. ..." *)
| NotEnoughPosts            (* "Not enough posts to display detailed analysis. ..." *)
| DisplayError (e : exn).   (* "Error displaying analysis: {e}" *)

Inductive status_type : Type := success | warning | error | info.

(** *** Functions *)

Definition validate_inputs (s : SessionState) : list Message :=
  if (temp_dates s).2 <? (temp_dates s).1 then [StartBeforeEnd] else [].

Definition apply_date_range (s : SessionState) : SessionState :=
  mkSession (original_df s) (raw_count s) (temp_dates s) (temp_dates s)
    (min_score s) (current_keyword s) (fetch_clicked s) (data_ready s).

Definition set_min_score (value : Z) (s : SessionState) : SessionState :=
  mkSession (original_df s) (raw_count s) (temp_dates s) (applied_dates s)
    value (current_keyword s) (fetch_clicked s) (data_ready s).

Definition set_temp_dates (dates : Z * Z) (s : SessionState) : SessionState :=
  mkSession (original_df s) (raw_count s) dates (applied_dates s)
    (min_score s) (current_keyword s) (fetch_clicked s) (data_ready s).

Definition set_fetch_clicked (s : SessionState) : SessionState :=
  mkSession (original_df s) (raw_count s) (temp_dates s) (applied_dates s)
    (min_score s) (current_keyword s) true (data_ready s).

Definition set_data_ready (b : bool) (s : SessionState) : SessionState :=
  mkSession (original_df s) (raw_count s) (temp_dates s) (applied_dates s)
    (min_score s) (current_keyword s) (fetch_clicked s) b.

Definition load (processed : pd.DataFrame) (count : nat) (kw : string)
    (s : SessionState) : SessionState :=
  mkSession (Some processed) count (temp_dates s) (applied_dates s)
    (min_score s) kw (fetch_clicked s) true.

(** The filter at the top of the main content. *)
Definition filtered_df (original : pd.DataFrame) (applied : Z * Z) (min_score : Z)
  : result pd.DataFrame :=
  date ← pd.getitem original "date";
  from_start ← pd.series_ge date (pd.VDate applied.1);
  date' ← pd.getitem original "date";
  to_end ← pd.series_le date' (pd.VDate applied.2);
  score ← pd.getitem original "score";
  above ← pd.series_ge score (pd.VInt min_score);
  Ok (pd.loc original (pd.mask_and (pd.mask_and from_start to_end) above)).

Definition sort_options (sort_by : SortBy) : string :=
  match sort_by with
  | HighestScore => "score"
  | MostComments => "num_comments"
  | MostRecent => "date"
  | MostPositive => "sentiment_compound"
  end.

(** The "Top Performing Posts" tab. *)
Definition top_posts (filtered : pd.DataFrame) (sort_by : SortBy) (show_count : nat)
  : result pd.DataFrame :=
  let sort_column := sort_options sort_by in
  let ascending :=
    match sort_by with
    | MostRecent => bool_decide (sort_column = "date")
    | _ => false
    end in
  sorted ← pd.sort_values filtered sort_column ascending;
  Ok (pd.head show_count sorted).

(** [render_post_card(row.to_dict())] reads four keys of the row. *)
Definition render_post_card (columns : list string) : result () :=
  match List.find (λ c, negb (bool_decide (c ∈ columns)))
          ["title"; "num_comments"; "score"; "date"] with
  | Some c => Raise (KeyError c)
  | None => Ok ()
  end.

Record Kpis : Type := mkKpis {
  kpi_total : nat;
  kpi_positive_pct : option pyfloat;
  kpi_negative_pct : option pyfloat;
  kpi_avg_score : pyfloat
}.

(** [(filtered_df['Sentiment'] == label).mean() * 100] on a frame with rows. *)
Definition label_pct (filtered : pd.DataFrame) (label : string) : option pyfloat :=
  match pd.getitem filtered "Sentiment" with
  | Ok sentiment =>
      let hits := length (List.filter id (pd.series_eq sentiment (pd.VStr label))) in
      Some (Fin (inject_Z (Z.of_nat hits) / inject_Z (Z.of_nat (pd.len filtered)) * 100)%Q)
  | Raise _ => None
  end.

Definition kpis (filtered : pd.DataFrame) : result Kpis :=
  score ← pd.getitem filtered "score";
  avg_score ← pd.series_mean score;
  Ok (mkKpis (pd.len filtered) (label_pct filtered "Positive")
        (label_pct filtered "Negative") avg_score).

Record Exports : Type := mkExports {
  csv : pd.DataFrame;
  pdf : result (list report_generator.item);    (* or "PDF generation error" *)
  json : result report_generator.Report         (* or "JSON generation error" *)
}.

Record Tabs : Type := mkTabs {
  tab_top_posts : pd.DataFrame;
  tab_morocco : morocco_analysis.MoroccoView;
  tab_industry : industry_analysis.IndustryView
}.

Inductive Body : Type :=
| Warned (m : Message)                           (* empty filter result *)
| KpisOnly (k : Kpis) (m : Message)              (* a single post *)
| Analysis (k : Kpis) (t : Tabs) (e : Exports)
| AnalysisFailed (k : Kpis) (m : Message).

Inductive Main : Type :=
| Welcome
| Uncaught (e : exn)
| Dashboard (filtered : pd.DataFrame) (body : Body).

Section dashboard.
Variable lib : py.Library.
Variable parse_datetime : string → option (Z * Z).
Variable vectorizer : option (list pd.cell → result (list string)).
Variable fails : report_generator.io_call → bool.
(** [datetime.now().strftime("%Y-%m-%d %H:%M")] *)
Variable now : string.

(** [cached_processing]: [st.cache_data] hashes a data frame with its own
    hasher and returns what the body returns; the body starts with the call
    of the decorated [process_reddit_data]. *)
Definition cached_processing (df : pd.DataFrame) : result pd.DataFrame :=
  processed_df ← reddit_fetch.process_reddit_data parse_datetime df;
  if bool_decide ("sentiment_compound" ∈ pd.columns processed_df) then
    compound ← pd.getitem processed_df "sentiment_compound";
    labels ← pd.apply classify_cell compound;
    pd.setitem processed_df "Sentiment" labels
  else Ok processed_df.

(** Validated data is processed and stored. *)
Definition ingest (df : pd.DataFrame) (kw : string) (loaded : nat → Message)
    (invalid : Message) (s : SessionState)
  : SessionState * list (status_type * Message) :=
  if reddit_fetch.validate_reddit_data df then
    match cached_processing df with
    | Ok processed => (load processed (pd.len df) kw s, [(success, loaded (pd.len df))])
    | Raise e => (set_data_ready false s, [(error, ErrorOccurred e)])
    end
  else (set_data_ready false s, [(error, invalid)]).

(** The handler of the "Fetch & Analyze Data" button. *)
Definition fetch_button (w : Widgets) (s : SessionState)
  : SessionState * list (status_type * Message) :=
  let s := set_fetch_clicked s in
  match validate_inputs s with
  | (_ :: _) as validation_errors =>
      (set_data_ready false s, (λ e, (error, e)) <$> validation_errors)
  | [] =>
      match mode w, uploaded_file w with
      | FetchRedditData, _ =>
          ingest (reddit w) (keyword w) Fetched InvalidRedditFormat s
      | UploadCSVFile, Some (Ok df) =>
          ingest df "uploaded" CsvLoaded CsvMissingColumns s
      | UploadCSVFile, Some (Raise e) =>
          (set_data_ready false s, [(error, ErrorOccurred e)])
      | UploadCSVFile, None =>
          (set_data_ready false s, [(warning, UploadFirst)])
      end
  end.

(** The sidebar of one run: callbacks first, then the widgets in order. *)
Definition sidebar (w : Widgets) (s : SessionState)
  : SessionState * list (status_type * Message) :=
  let s := match event w with
           | ApplyPressed => apply_date_range s
           | SliderMoved value => set_min_score value s
           | _ => s
           end in
  let s := match selected_dates w with
           | [d0; d1] => set_temp_dates (d0, d1) s
           | _ => s
           end in
  match event w with
  | FetchPressed => fetch_button w s
  | _ => (s, [])
  end.

(** The three tabs that compute on the data, in the order of the script;
    the two chart tabs before them only draw. *)
Definition tabs (filtered : pd.DataFrame) (w : Widgets) (kw : string)
  : result Tabs :=
  top ← top_posts filtered (sort_by w) (show_count w);
  _ ← (match pd.rows top with
       | [] => Ok ()
       | _ :: _ => render_post_card (pd.columns top)
       end);
  morocco ← morocco_analysis.render_morocco_analysis lib vectorizer filtered
               (morocco_keywords w) (Some kw);
  industry ← industry_analysis.render_industry_analysis lib filtered (Some kw);
  Ok (mkTabs top morocco industry).

(** The export section: each generator is built and used inside its own
    [try]. *)
Definition export_section (filtered : pd.DataFrame) (kw : string)
    (world : report_generator.World) : Exports * report_generator.World :=
  let '(pdf_generator, world1) := report_generator.init filtered kw now world in
  let '(pdf_bytes, after_pdf) :=
    report_generator.run (report_generator.generate_pdf fails pdf_generator)
      (report_generator.mkState world1 []) in
  let '(json_generator, world2) :=
    report_generator.init filtered kw now (report_generator.world after_pdf) in
  (mkExports filtered pdf_bytes (report_generator.generate_json json_generator),
   world2).

Definition main_content (w : Widgets) (s : SessionState)
    (world : report_generator.World) : Main * report_generator.World :=
  match fetch_clicked s && data_ready s, original_df s with
  | true, Some original =>
      match filtered_df original (applied_dates s) (min_score s) with
      | Raise e => (Uncaught e, world)
      | Ok filtered =>
          if pd.empty filtered then (Dashboard filtered (Warned NoPostsMatch), world)
          else
            match kpis filtered with
            | Raise e => (Uncaught e, world)
            | Ok k =>
                if (1 <? pd.len filtered)%nat then
                  match tabs filtered w (current_keyword s) with
                  | Ok t =>
                      let '(e, world') :=
                        export_section filtered (current_keyword s) world in
                      (Dashboard filtered (Analysis k t e), world')
                  | Raise e =>
                      (Dashboard filtered (AnalysisFailed k (DisplayError e)), world)
                  end
                else (Dashboard filtered (KpisOnly k NotEnoughPosts), world)
            end
      end
  | _, _ => (Welcome, world)
  end.

Record Page : Type := mkPage {
  indicators : list (status_type * Message);
  main : Main
}.

(** One run of the script. *)
Definition script (w : Widgets) (s : SessionState) (world : report_generator.World)
  : Page * SessionState * report_generator.World :=
  let '(s', shown) := sidebar w s in
  let '(m, world') := main_content w s' world in
  (mkPage shown m, s', world').
End dashboard.

End app.

(** ** Vocabulary of the properties *)

Module spec.

Definition row_date (r : gmap string pd.cell) : option Z :=
  match r !! "date" with
  | Some (pd.VDate d) => Some d
  | _ => None
  end.

Definition row_score (r : gmap string pd.cell) : option Z :=
  match r !! "score" with
  | Some (pd.VInt n) => Some n
  | _ => None
  end.

(** The filter as the specification words it: the date lies in
    [[start, end]], both ends included, and the score reaches the
    threshold. *)
Definition retained (start end_ threshold : Z) (r : gmap string pd.cell) : bool :=
  match row_date r, row_score r with
  | Some d, Some sc => (start <=? d) && (d <=? end_) && (threshold <=? sc)
  | _, _ => false
  end.

(** A row of a normalized collection: the date is a calendar date, or
    missing when the post had no timestamp, and the score is an integer. *)
Definition normalized_row (r : gmap string pd.cell) : bool :=
  match r !! "date", r !! "score" with
  | Some (pd.VDate _), Some (pd.VInt _) => true
  | Some pd.VNone, Some (pd.VInt _) => true
  | _, _ => false
  end.

(** The calendar day of the creation timestamp. *)
Definition created_day (r : gmap string pd.cell) : option pd.cell :=
  match r !! "created" with
  | Some (pd.VDatetime d _) => Some (pd.VDate d)
  | _ => None
  end.

(** The percentage of a count in a total that is not zero. *)
Definition share (count total : nat) : pyfloat :=
  Fin (inject_Z (Z.of_nat count) / inject_Z (Z.of_nat total) * 100)%Q.

(** The key metrics as a rendering of the structured record: the document
    prints the numbers of the record and nothing else. *)
Definition rendered_metrics (r : report_generator.Report)
  : list (string * list report_generator.part) :=
  let count_line (n : nat) :=
    [ report_generator.Int n; report_generator.Lit " (";
      report_generator.Fixed 1 (share n (report_generator.total_posts r));
      report_generator.Lit "%)" ] in
  [ ("Search Term", [report_generator.Lit (report_generator.meta_search_term r)]);
    ("Total Posts", [report_generator.Int (report_generator.total_posts r)]);
    ("Avg Sentiment", [report_generator.Fixed 2 (report_generator.average_sentiment r)]);
    ("Positive Posts", count_line (report_generator.distribution_positive r));
    ("Negative Posts", count_line (report_generator.distribution_negative r));
    ("Neutral Posts", count_line (report_generator.distribution_neutral r)) ].

(** The cells that print a list of metrics: label, then value. *)
Definition metric_cells (ms : list (string * list report_generator.part))
  : list report_generator.item :=
  flat_map (λ kv, [ report_generator.Cell [report_generator.Lit kv.1];
                    report_generator.Cell kv.2 ]) ms.

(** The head of the document: title, generation time, heading of the
    metrics. *)
Definition document_head (self : report_generator.Generator)
  : list report_generator.item :=
  [ report_generator.Cell [report_generator.Lit "Reddit Analysis Report"];
    report_generator.Cell [ report_generator.Lit "Generated on ";
                            report_generator.Lit (report_generator.analysis_date self) ];
    report_generator.Cell [report_generator.Lit "Key Metrics"] ].

(** *** Keyword tagging *)

Definition title_of (r : gmap string pd.cell) : option string :=
  match r !! "title" with
  | Some (pd.VStr title) => Some title
  | _ => None
  end.

Section tagging.
Variable lib : py.Library.

(** The title of the post is text in which the pattern is found, letter
    case ignored. *)
Definition matches (pat : string) (r : gmap string pd.cell) : bool :=
  match py.re_search_ignorecase lib pat, title_of r with
  | Ok found, Some title => found title
  | _, _ => false
  end.

(** The title of the post matches the search term, when one is given. *)
Definition passes_search (search_term : option string) (r : gmap string pd.cell)
  : bool :=
  if py.truthy search_term then matches (default "" search_term) r else true.

(** The posts [analyze_industries] counts for a category: the title
    matches one of the terms, joined into one pattern, and the search
    term. *)
Definition industry_selects (terms : list string) (search_term : option string)
    (r : gmap string pd.cell) : bool :=
  matches (py.join "|" terms) r && passes_search search_term r.

(** The posts [get_morocco_metrics] keeps: the title matches the search
    term and one of the keywords, taken literally; an empty keyword list
    selects every post. *)
Definition morocco_selects (keywords : list string) (search_term : option string)
    (r : gmap string pd.cell) : bool :=
  passes_search search_term r &&
  (match keywords with
   | [] => true
   | _ :: _ => matches (py.join "|" (re.escape <$> keywords)) r
   end).

(** The collection after the search-term filter: all of it without a search
    term, else the posts whose title matches the term, or the error of a
    term that is no pattern. *)
Definition searched (search_term : option string) (df : pd.DataFrame)
  : result pd.DataFrame :=
  if py.truthy search_term then
    found ← py.re_search_ignorecase lib (default "" search_term);
    Ok (pd.mkDataFrame (pd.columns df)
          (List.filter (λ r, match title_of r with
                             | Some title => found title
                             | None => false
                             end) (pd.rows df)))
  else Ok df.
End tagging.

(** A collection of posts as the taggers expect it: every title is text
    and every compound score a number, or missing. *)
Definition analysable (df : pd.DataFrame) : bool :=
  bool_decide ("title" ∈ pd.columns df)
  && bool_decide ("sentiment_compound" ∈ pd.columns df)
  && forallb (λ r, match title_of r with Some _ => true | None => false end
                   && match default pd.VNone (r !! "sentiment_compound") with
                      | pd.VInt _ | pd.VFloat _ | pd.VNone => true
                      | _ => false
                      end) (pd.rows df).

(** *** The generator's state *)

(** The document only grows at its end. *)
Definition extends (s s' : report_generator.State) : Prop :=
  ∃ extra, report_generator.page s' = report_generator.page s ++ extra.

(** The files of directory [d] are kept, and may grow. *)
Definition keeps (d : nat) (s s' : report_generator.State) : Prop :=
  ∀ files,
    report_generator.dirs (report_generator.world s) !! d = Some files →
    ∃ files',
      report_generator.dirs (report_generator.world s') !! d = Some files' ∧
      files ⊆ files'.

(** A method moves the state along [R] and raises only exceptions in
    [E]. *)
Definition respects (R : report_generator.State → report_generator.State → Prop)
    (E : exn → Prop) {A} (m : report_generator.IO A) : Prop :=
  ∀ s r s', report_generator.run m s = (r, s') → R s s' ∧ ∀ e, r = Raise e → E e.

(** Every post of the collection has a calendar date. *)
Definition dated (df : pd.DataFrame) : bool :=
  bool_decide ("date" ∈ pd.columns df)
  && forallb (λ r, match row_date r with Some _ => true | None => false end)
       (pd.rows df).

Definition normalized (df : pd.DataFrame) : bool :=
  bool_decide ("date" ∈ pd.columns df) && bool_decide ("score" ∈ pd.columns df)
  && forallb normalized_row (pd.rows df).

(** The cell of a row in a column; a missing key reads as [None]. *)
Definition cell_of (col : string) (r : gmap string pd.cell) : pd.cell :=
  default pd.VNone (r !! col).

(** The metrics describe the collection [posts]: they hold it, its size,
    the mean of its compound scores, the keywords computed from its titles,
    and title and compound score of its first three posts. *)
Definition metrics_over (lib : py.Library)
    (vectorizer : option (list pd.cell → result (list string)))
    (posts : pd.DataFrame) (m : morocco_analysis.Metrics) : Prop :=
  morocco_analysis.morocco_posts m = posts ∧
  morocco_analysis.post_count m = pd.len posts ∧
  (compound ← pd.getitem posts "sentiment_compound"; pd.series_mean compound)
    = Ok (morocco_analysis.avg_sentiment m) ∧
  morocco_analysis.best_top_keywords lib vectorizer posts
    = Ok (morocco_analysis.top_keywords m) ∧
  morocco_analysis.sample_posts m
  = (λ r, {[ "title" := cell_of "title" r;
             "sentiment_compound" := cell_of "sentiment_compound" r ]})
      <$> take 3 (pd.rows posts).

(** *** The filter *)

Definition date_cell (c : pd.cell) : bool :=
  match c with
  | pd.VDate _ | pd.VNone | pd.VFloat NaN => true
  | _ => false
  end.

Definition score_cell (c : pd.cell) : bool :=
  match c with
  | pd.VInt _ | pd.VFloat _ | pd.VNone => true
  | _ => false
  end.

(** A collection the filter accepts: dates are calendar dates or missing,
    scores are numbers or missing. *)
Definition filterable (df : pd.DataFrame) : bool :=
  bool_decide ("date" ∈ pd.columns df) && bool_decide ("score" ∈ pd.columns df)
  && forallb (λ r, date_cell (cell_of "date" r) && score_cell (cell_of "score" r))
       (pd.rows df).

(** The posts the filter keeps: a post without a date or without a score
    is dropped. *)
Definition kept (start end_ threshold : Z) (r : gmap string pd.cell) : bool :=
  match cell_of "date" r, pd.as_float (cell_of "score" r) with
  | pd.VDate d, Some x =>
      (start <=? d) && (d <=? end_) && float_le (float_of_Z threshold) x
  | _, _ => false
  end.

(** *** Sorting and ranking *)

(** The post has no value in the column. *)
Definition missing (col : string) (r : gmap string pd.cell) : bool :=
  pd.isna (cell_of col r).

(** A column of numbers, some of which may be missing. *)
Definition numeric (col : string) (df : pd.DataFrame) : bool :=
  bool_decide (col ∈ pd.columns df)
  && forallb (λ r, score_cell (cell_of col r)) (pd.rows df).

Definition key_float (col : string) (r : gmap string pd.cell) : pyfloat :=
  default NaN (pd.as_float (cell_of col r)).

(** In a descending order on [col], [r] may stand before [r']: when [r']
    has a value, [r] has one too and it is not smaller. *)
Definition ranks_before (col : string) (r r' : gmap string pd.cell) : Prop :=
  missing col r' = false →
  missing col r = false ∧ float_le (key_float col r') (key_float col r) = true.

(** *** The structured report *)

Definition json_fields : list string := ["title"; "Sentiment"; "score"; "num_comments"].

(** The record of a post in the structured report. *)
Definition json_record (r : gmap string pd.cell) : gmap string pd.cell :=
  list_to_map ((λ c, (c, cell_of c r)) <$> json_fields).

Definition labels : list string := ["Positive"; "Negative"; "Neutral"].

(** Every post carries one of the three labels. *)
Definition labelled (df : pd.DataFrame) : bool :=
  bool_decide ("Sentiment" ∈ pd.columns df)
  && forallb (λ r, match cell_of "Sentiment" r with
                   | pd.VStr label => bool_decide (label ∈ labels)
                   | _ => false
                   end) (pd.rows df).

(** *** The rendered report *)

(** The chart files of a collection, in the order they are drawn. *)
Definition chart_files (df : pd.DataFrame) : list string :=
  (if bool_decide ("Sentiment" ∈ pd.columns df) then ["sentiment.png"] else [])
  ++ (if bool_decide ("date" ∈ pd.columns df) then ["trend.png"] else [])
  ++ (if bool_decide ("industry" ∈ pd.columns df) then ["industry.png"] else []).

(** The end of the document: recommendations and footer. *)
Definition closing_items : list report_generator.item :=
  report_generator.Cell [report_generator.Lit "Insights & Recommendations"]
  :: ((λ line, report_generator.MultiCell
                 [report_generator.Lit "- "; report_generator.Lit line])
        <$> report_generator.recommendations)
  ++ [report_generator.Cell
        [report_generator.Lit "Generated by Reddit Sentiment Dashboard"]].

(** The state after the charts [files] were saved and embedded: one image
    each, and nothing changed outside the generator's directory. *)
Definition charted (self : report_generator.Generator) (files : list string)
    (s s' : report_generator.State) : Prop :=
  report_generator.page s'
  = report_generator.page s
    ++ (report_generator.Image (report_generator.temp_dir self) <$> files) ∧
  report_generator.next_dir (report_generator.world s')
  = report_generator.next_dir (report_generator.world s) ∧
  delete (report_generator.temp_dir self)
    (report_generator.dirs (report_generator.world s'))
  = delete (report_generator.temp_dir self)
      (report_generator.dirs (report_generator.world s)).

(** *** Keywords *)

(** The words [get_top_keywords] of [morocco_analysis] counts. *)
Definition content_words (lib : py.Library) (posts : list pd.cell) : list string :=
  flat_map (λ post,
    match post with
    | pd.VStr text =>
        List.filter
          (λ word, negb (bool_decide (word ∈ morocco_analysis.STOP_WORDS))
                   && (2 <? py.str_len lib word)%nat)
          (py.str_split lib (py.re_sub_punctuation lib (py.str_lower lib text)))
    | _ => []
    end) posts.

(** The words [get_top_keywords] of [industry_analysis] counts. *)
Definition long_words (lib : py.Library) (posts : list pd.cell) : list string :=
  flat_map (λ post,
    match post with
    | pd.VStr text =>
        py.str_lower lib <$> List.filter (λ word, (3 <? py.str_len lib word)%nat)
                               (py.re_findall_words lib text)
    | _ => []
    end) posts.

(** How often a word occurs in a list of words. *)
Definition occurrences (word : string) (words : list string) : nat :=
  length (List.filter (String.eqb word) words).

(** The count a counter holds for a word, 0 when it has none. *)
Definition tally (counts : list (string * nat)) (word : string) : nat :=
  match List.find (λ wc, String.eqb wc.1 word) counts with
  | Some wc => wc.2
  | None => 0
  end.

(** [top] are the [n] most frequent of [words]: each word once, with its
    number of occurrences, and no word left out occurs more often than a
    word of [top]. *)
Definition most_frequent (n : nat) (words : list string) (top : list (string * nat))
  : Prop :=
  NoDup (top.*1) ∧
  (length top ≤ n)%nat ∧
  Forall (λ wc, wc.1 ∈ words ∧ wc.2 = occurrences wc.1 words) top ∧
  ∀ word, word ∈ words → word ∉ top.*1 →
          length top = n ∧ Forall (λ wc, (occurrences word words ≤ wc.2)%nat) top.

(** The session states the script can be in: it starts in the initial state
    and every run goes through the sidebar. *)
Inductive reachable (parse_datetime : string → option (Z * Z)) (today : Z)
  : app.SessionState → Prop :=
| reachable_initial : reachable parse_datetime today (app.initial_state today)
| reachable_run (w : app.Widgets) (s : app.SessionState) :
    reachable parse_datetime today s →
    reachable parse_datetime today (app.sidebar parse_datetime w s).1.

End spec.

(** ** Sample collections *)

Module sample.

Definition post (title : string) (score comments day second : Z) (compound : Q)
  : gmap string pd.cell :=
  {[ "title" := pd.VStr title;
     "score" := pd.VInt score;
     "num_comments" := pd.VInt comments;
     "created" := pd.VDatetime day second;
     "sentiment_compound" := pd.VFloat (Fin compound) ]}.

Definition raw_columns : list string :=
  ["title"; "score"; "num_comments"; "created"; "sentiment_compound"].

(** Three fetched posts: compound scores 0.2, -0.3, 0.0 and scores 10, 5,
    50. *)
Definition fetched : pd.DataFrame :=
  pd.mkDataFrame raw_columns
    [ post "AI is great" 10 3 738000 3600 (2 # 10);
      post "I like cats" 5 1 738001 0 (- 3 # 10);
      post "New software released" 50 7 738002 100 (0 # 1) ].

Definition normalized_post (title : string) (score comments day second : Z)
    (compound : Q) (label : string) : gmap string pd.cell :=
  <["Sentiment" := pd.VStr label]>
    (<["date" := pd.VDate day]> (post title score comments day second compound)).

Definition normalized_columns : list string := raw_columns ++ ["date"; "Sentiment"].

(** The same posts with the columns of a normalized collection: the day of
    the creation time and the label of the compound score. *)
Definition processed : pd.DataFrame :=
  pd.mkDataFrame normalized_columns
    [ normalized_post "AI is great" 10 3 738000 3600 (2 # 10) "Positive";
      normalized_post "I like cats" 5 1 738001 0 (- 3 # 10) "Negative";
      normalized_post "New software released" 50 7 738002 100 (0 # 1) "Neutral" ].

(** A filtered collection from which every post was filtered out. *)
Definition nothing_left : pd.DataFrame := pd.mkDataFrame normalized_columns [].

(** Six posts on six successive days. *)
Definition six_days : pd.DataFrame :=
  pd.mkDataFrame normalized_columns
    [ normalized_post "day one" 1 0 738001 0 (0 # 1) "Neutral";
      normalized_post "day two" 2 0 738002 0 (0 # 1) "Neutral";
      normalized_post "day three" 3 0 738003 0 (0 # 1) "Neutral";
      normalized_post "day four" 4 0 738004 0 (0 # 1) "Neutral";
      normalized_post "day five" 5 0 738005 0 (0 # 1) "Neutral";
      normalized_post "day six" 6 0 738006 0 (0 # 1) "Neutral" ].

Definition no_parser : string → option (Z * Z) := λ _, None.

Definition no_faults : report_generator.io_call → bool := λ _, false.

Definition fresh_world : report_generator.World := report_generator.mkWorld 0 ∅.

(** A generator on the three normalized posts, its directory just made. *)
Definition generator : report_generator.Generator :=
  (report_generator.init processed "python" "2024-01-01 00:00" fresh_world).1.

Definition blank_document : report_generator.State :=
  report_generator.mkState
    (report_generator.init processed "python" "2024-01-01 00:00" fresh_world).2 [].

(** A generator on the collection with no post left. *)
Definition generator_nothing_left : report_generator.Generator :=
  (report_generator.init nothing_left "python" "2024-01-01 00:00" fresh_world).1.

(** The disk fills up while the trend chart is written. *)
Definition disk_full_at_trend (call : report_generator.io_call) : bool :=
  match call with
  | report_generator.Savefig filename => String.eqb filename "trend.png"
  | _ => false
  end.

Definition widgets (e : app.Event) (picked : list Z) : app.Widgets :=
  app.mkWidgets app.FetchRedditData "python" fetched None picked
    ["Maroc"; "Casablanca"] app.HighestScore 10 e.

(** [datetime.date.today()] in the sample runs. *)
Definition today : Z := 739000.

(** A session that holds the three normalized posts, with a date range and
    a minimum score applied. *)
Definition loaded (applied : Z * Z) (min_score : Z) : app.SessionState :=
  app.mkSession (Some processed) 3 applied applied min_score "python" true true.

(** Two submissions as Reddit returns them; the second has no creation
    time. *)
Definition submissions : list reddit_fetch.Submission :=
  [ reddit_fetch.mkSubmission "AI is great" "so it is" 10 3 1700000000 "https://redd.it/1";
    reddit_fetch.mkSubmission "I like cats" "" 5 1 0 "https://redd.it/2" ].

(** Reddit answers the first attempt and is down afterwards. *)
Definition search_once (attempt : nat) (keyword : string) (limit : nat)
  : result (list reddit_fetch.Submission) :=
  match attempt with
  | 1%nat => Ok (take limit submissions)
  | _ => Raise OSError
  end.

(** Reddit is down. *)
Definition search_down (attempt : nat) (keyword : string) (limit : nat)
  : result (list reddit_fetch.Submission) := Raise OSError.

(** An analyzer that likes the texts that start with AI. *)
Definition polarity (text : string) : reddit_fetch.Scores :=
  if String.prefix "AI" text
  then reddit_fetch.mkScores (Fin 0) (Fin (5 # 10)) (Fin (5 # 10)) (Fin (6 # 10))
  else reddit_fetch.mkScores (Fin 0) (Fin 1) (Fin 0) (Fin 0).

(** The fetch button pressed in upload mode, with a file that was read. *)
Definition upload (file : pd.DataFrame) : app.Widgets :=
  app.mkWidgets app.UploadCSVFile "python" reddit_fetch.empty_frame (Some (Ok file))
    [app.default_start; today] [] app.HighestScore 10 app.FetchPressed.

(** [fromtimestamp] in UTC: the ordinal of the day, the second of the day. *)
Definition utc (seconds : Z) : Z * Z := (719163 + seconds / 86400, seconds mod 86400).

End sample.

(** * Verification *)

(** ** The error monad and boolean masks *)

Lemma bind_Ok {A B} (a : A) (k : A → result B) : (Ok a ≫= k) = k a.
Proof. reflexivity. Qed.

Lemma bind_Raise {A B} (e : exn) (k : A → result B) : (Raise e ≫= k) = Raise e.
Proof. reflexivity. Qed.

Ltac step_ok := rewrite ?bind_Ok; cbv beta; cbn [fst snd].

Lemma mapM_Ok {A B} (f : A → result B) (g : A → B) (l : list A) :
  Forall (λ x, f x = Ok (g x)) l → mapM f l = Ok (g <$> l).
Proof.
  induction 1 as [|x l Hx _ IH]; [reflexivity|].
  cbn. rewrite Hx. cbn. rewrite IH. reflexivity.
Qed.

Lemma series_ge_Ok (s : list pd.cell) (v : pd.cell) (g : pd.cell → bool) :
  Forall (λ x, (if pd.isna x then Ok false else pd.py_le v x) = Ok (g x)) s →
  pd.series_ge s v = Ok (g <$> s).
Proof. apply mapM_Ok. Qed.

Lemma series_le_Ok (s : list pd.cell) (v : pd.cell) (g : pd.cell → bool) :
  Forall (λ x, (if pd.isna x then Ok false else pd.py_le x v) = Ok (g x)) s →
  pd.series_le s v = Ok (g <$> s).
Proof. apply mapM_Ok. Qed.

Lemma compress_fmap {A} (f : A → bool) (l : list A) :
  pd.compress (f <$> l) l = List.filter f l.
Proof.
  induction l as [|x l IH]; [reflexivity|].
  cbn. rewrite IH. reflexivity.
Qed.

Lemma mask_and_fmap {A} (f g : A → bool) (l : list A) :
  pd.mask_and (f <$> l) (g <$> l) = (λ x, f x && g x) <$> l.
Proof.
  unfold pd.mask_and. induction l as [|x l IH]; [reflexivity|].
  cbn. f_equal. exact IH.
Qed.

Lemma stdlib_filter_sublist {A} (f : A → bool) (l : list A) :
  sublist (List.filter f l) l.
Proof.
  induction l as [|x l IH]; cbn; [constructor|].
  destruct (f x); by constructor.
Qed.

(** ** C1: the classification thresholds *)

Lemma float_ge_neg_not_pos (c : pyfloat) :
  float_le c app.neg_threshold = true → float_ge c app.pos_threshold = false.
Proof.
  destruct c as [q| | |]; cbn; try done.
  intros Hle. apply Qle_bool_iff in Hle.
  destruct (Qle_bool (5 # 100) q) eqn:Hge; [|done].
  apply Qle_bool_iff in Hge.
  pose proof (Qle_trans _ _ _ Hge Hle) as Habs.
  by vm_compute in Habs.
Qed.

(** C1. For every compound score [c], [classify_sentiment] answers
    "Positive" exactly when [c >= 0.05], "Negative" exactly when
    [c <= -0.05] and "Neutral" exactly when neither holds; it answers one of
    the three labels on every input, and on a real number [q] the two tests
    are the order of the rationals. *)
Theorem classify_sentiment_thresholds (c : pyfloat) :
  (app.classify_sentiment c = "Positive" ↔ float_ge c app.pos_threshold = true) ∧
  (app.classify_sentiment c = "Negative" ↔ float_le c app.neg_threshold = true) ∧
  (app.classify_sentiment c = "Neutral" ↔
     float_ge c app.pos_threshold = false ∧ float_le c app.neg_threshold = false) ∧
  (app.classify_sentiment c = "Positive" ∨ app.classify_sentiment c = "Negative" ∨
     app.classify_sentiment c = "Neutral") ∧
  (∀ q : Q, c = Fin q →
     (app.classify_sentiment c = "Positive" ↔ (5 # 100 <= q)%Q) ∧
     (app.classify_sentiment c = "Negative" ↔ (q <= - 5 # 100)%Q) ∧
     (app.classify_sentiment c = "Neutral" ↔ (- 5 # 100 < q)%Q ∧ (q < 5 # 100)%Q)).
Proof.
  pose proof (float_ge_neg_not_pos c) as Hexcl.
  assert (Hq : ∀ q, c = Fin q →
            (float_ge c app.pos_threshold = true ↔ (5 # 100 <= q)%Q) ∧
            (float_le c app.neg_threshold = true ↔ (q <= - 5 # 100)%Q)).
  { intros q ->. cbn. split; apply Qle_bool_iff. }
  unfold app.classify_sentiment.
  destruct (float_ge c app.pos_threshold) eqn:Hpos;
    destruct (float_le c app.neg_threshold) eqn:Hneg;
    try (specialize (Hexcl eq_refl); discriminate);
    refine (conj _ (conj _ (conj _ (conj _ _)))); try done;
    try (by intros [? ?]); try (by intuition);
    intros q Hc; destruct (Hq q Hc) as [Hp Hn];
    refine (conj _ (conj _ _)).
  - split; [intros _; by apply Hp|done].
  - split; [done|]. intros Hle. apply Hn in Hle. discriminate.
  - split; [done|]. intros [_ Hlt]. apply Qlt_not_le in Hlt. destruct Hlt. by apply Hp.
  - split; [done|]. intros Hle. apply Hp in Hle. discriminate.
  - split; [intros _; by apply Hn|done].
  - split; [done|]. intros [Hlt _]. apply Qlt_not_le in Hlt. destruct Hlt. by apply Hn.
  - split; [done|]. intros Hle. apply Hp in Hle. discriminate.
  - split; [done|]. intros Hle. apply Hn in Hle. discriminate.
  - split; [intros _|done].
    split; apply Qnot_le_lt; intros Hle; [apply Hn in Hle|apply Hp in Hle]; discriminate.
Qed.


(** ** C2: the date and score filter *)

Lemma getitem_Ok (df : pd.DataFrame) (col : string) :
  col ∈ pd.columns df →
  pd.getitem df col = Ok ((λ r, default pd.VNone (r !! col)) <$> pd.rows df).
Proof. intros Hcol. unfold pd.getitem. by rewrite bool_decide_eq_true_2. Qed.

Lemma getitem_KeyError (df : pd.DataFrame) (col : string) :
  col ∉ pd.columns df → pd.getitem df col = Raise (KeyError col).
Proof. intros Hcol. unfold pd.getitem. by rewrite bool_decide_eq_false_2. Qed.

Lemma float_le_of_Z (a b : Z) : float_le (float_of_Z a) (float_of_Z b) = (a <=? b).
Proof. cbn. unfold Qle_bool. cbn. by rewrite !Z.mul_1_r. Qed.

Lemma normalized_row_cells (r : gmap string pd.cell) :
  spec.normalized_row r = true →
  (∃ d, r !! "date" = Some (pd.VDate d) ∨ r !! "date" = Some pd.VNone) ∧
  (∃ sc, r !! "score" = Some (pd.VInt sc)).
Proof.
  unfold spec.normalized_row.
  destruct (r !! "date") as [[| | | |d|]|]; try done;
    destruct (r !! "score") as [[|sc| | | |]|]; try done; intros _.
  - split; [exists d; by left|by exists sc].
  - split; [exists 0; by right|by exists sc].
Qed.

(** C2. On a normalized collection the filter succeeds and returns exactly
    the rows whose date lies in [[start, end]] (both ends included) and whose
    score is at least the threshold: the columns are unchanged, the result is
    a subsequence of the input in its order, every retained row satisfies
    both predicates, and every row that satisfies them is retained. *)
Theorem filtered_df_exact (df : pd.DataFrame) (start end_ threshold : Z) :
  spec.normalized df = true →
  ∃ out,
    app.filtered_df df (start, end_) threshold = Ok out ∧
    pd.columns out = pd.columns df ∧
    pd.rows out = List.filter (spec.retained start end_ threshold) (pd.rows df) ∧
    sublist (pd.rows out) (pd.rows df) ∧
    Forall (λ r, ∃ d sc, r !! "date" = Some (pd.VDate d) ∧
                         r !! "score" = Some (pd.VInt sc) ∧
                         start ≤ d ≤ end_ ∧ threshold ≤ sc) (pd.rows out) ∧
    (∀ r d sc, r ∈ pd.rows df →
               r !! "date" = Some (pd.VDate d) → r !! "score" = Some (pd.VInt sc) →
               start ≤ d ≤ end_ → threshold ≤ sc → r ∈ pd.rows out).
Proof.
  unfold spec.normalized. rewrite !andb_true_iff, !bool_decide_eq_true, forallb_forall.
  intros [[Hdate Hscore] Hrows].
  assert (Hfilter :
    app.filtered_df df (start, end_) threshold
    = Ok (pd.mkDataFrame (pd.columns df)
            (List.filter (spec.retained start end_ threshold) (pd.rows df)))).
  { unfold app.filtered_df.
    rewrite !(getitem_Ok _ _ Hdate), (getitem_Ok _ _ Hscore). step_ok.
    rewrite (series_ge_Ok _ (pd.VDate start)
               (λ c, match c with pd.VDate d => start <=? d | _ => false end)).
    2:{ apply Forall_fmap, Forall_forall. intros r Hr. unfold compose.
        apply list_elem_of_In, Hrows in Hr.
        destruct (normalized_row_cells r Hr) as [[d [-> | ->]] _]; reflexivity. }
    step_ok.
    rewrite (series_le_Ok _ (pd.VDate end_)
               (λ c, match c with pd.VDate d => d <=? end_ | _ => false end)).
    2:{ apply Forall_fmap, Forall_forall. intros r Hr. unfold compose.
        apply list_elem_of_In, Hrows in Hr.
        destruct (normalized_row_cells r Hr) as [[d [-> | ->]] _]; reflexivity. }
    step_ok.
    rewrite (series_ge_Ok _ (pd.VInt threshold)
               (λ c, match c with pd.VInt sc => threshold <=? sc | _ => false end)).
    2:{ apply Forall_fmap, Forall_forall. intros r Hr. unfold compose.
        apply list_elem_of_In, Hrows in Hr.
        destruct (normalized_row_cells r Hr) as [_ [sc ->]]. cbn -[float_le float_of_Z].
        by rewrite float_le_of_Z. }
    step_ok. unfold pd.loc. do 2 f_equal.
    rewrite <- !list_fmap_compose, !mask_and_fmap, compress_fmap.
    apply List.filter_ext_in. intros r Hr. apply Hrows in Hr. unfold compose.
    unfold spec.normalized_row in Hr. unfold spec.retained, spec.row_date, spec.row_score.
    destruct (r !! "date") as [[| | | |d|]|]; try done;
      destruct (r !! "score") as [[|sc| | | |]|]; done. }
  eexists. split; [exact Hfilter|]. cbn.
  split; [done|]. split; [done|]. split; [apply stdlib_filter_sublist|].
  split.
  - apply Forall_forall. intros r Hr. apply list_elem_of_In, filter_In in Hr.
    destruct Hr as [_ Hr]. unfold spec.retained, spec.row_date, spec.row_score in Hr.
    destruct (r !! "date") as [[| | | |d|]|]; try done.
    destruct (r !! "score") as [[|sc| | | |]|]; try done.
    exists d, sc. apply andb_true_iff in Hr as [Hr Hth]. apply andb_true_iff in Hr as [Hlo Hhi].
    apply Z.leb_le in Hth, Hlo, Hhi. auto.
  - intros r d sc Hr Hd Hs Hwin Hth. apply list_elem_of_In, filter_In.
    split; [by apply list_elem_of_In|].
    unfold spec.retained, spec.row_date, spec.row_score. rewrite Hd, Hs.
    rewrite !andb_true_iff, !Z.leb_le. lia.
Qed.

Lemma filtered_df_exact_sample :
  spec.normalized sample.processed = true ∧
  ∃ out,
    app.filtered_df sample.processed (738000, 738002) 6 = Ok out ∧
    pd.columns out = pd.columns sample.processed ∧
    pd.rows out = List.filter (spec.retained 738000 738002 6) (pd.rows sample.processed) ∧
    sublist (pd.rows out) (pd.rows sample.processed) ∧
    Forall (λ r, ∃ d sc, r !! "date" = Some (pd.VDate d) ∧
                         r !! "score" = Some (pd.VInt sc) ∧
                         738000 ≤ d ≤ 738002 ∧ 6 ≤ sc) (pd.rows out) ∧
    (∀ r d sc, r ∈ pd.rows sample.processed →
               r !! "date" = Some (pd.VDate d) → r !! "score" = Some (pd.VInt sc) →
               738000 ≤ d ≤ 738002 → 6 ≤ sc → r ∈ pd.rows out).
Proof.
  split; [vm_compute; reflexivity|].
  apply (filtered_df_exact sample.processed 738000 738002 6).
  vm_compute; reflexivity.
Defined.

(** Scores 10, 5, 50 under a minimum score of 6: the posts of score 10 and
    50 remain, labelled Positive and Neutral. *)
Example filtered_scenario :
  ∃ out, app.filtered_df sample.processed (0, 800000) 6 = Ok out ∧
         pd.getitem out "score" = Ok [pd.VInt 10; pd.VInt 50] ∧
         pd.getitem out "Sentiment" = Ok [pd.VStr "Positive"; pd.VStr "Neutral"].
Proof. eexists. split; [vm_compute; reflexivity|]. split; vm_compute; reflexivity. Qed.

(** ** C8: the normalizer *)

Lemma mapM_result_length {A B} (f : A → result B) (l : list A) (l' : list B) :
  mapM f l = Ok l' → length l' = length l.
Proof.
  revert l'. induction l as [|x l IH]; intros l'; cbn.
  - by intros [= <-].
  - destruct (f x) as [y|e]; cbn; [|done].
    destruct (mapM f l) as [ys|e]; cbn; [|done].
    intros [= <-]. cbn. f_equal. by apply IH.
Qed.

Lemma set_column_twice (col : string) (vs : list pd.cell) (rows : list (gmap string pd.cell)) :
  zip_with (λ r v, <[col := v]> r) (zip_with (λ r v, <[col := v]> r) rows vs) vs
  = zip_with (λ r v, <[col := v]> r) rows vs.
Proof.
  revert vs. induction rows as [|r rows IH]; intros [|v vs]; cbn; try done.
  by rewrite insert_insert_eq, IH.
Qed.

Lemma set_column_absorb (c c' : string) (vs ws : list pd.cell)
    (rows : list (gmap string pd.cell)) :
  c ≠ c' →
  zip_with (λ r v, <[c := v]> r)
    (zip_with (λ r v, <[c' := v]> r) (zip_with (λ r v, <[c := v]> r) rows vs) ws) vs
  = zip_with (λ r v, <[c' := v]> r) (zip_with (λ r v, <[c := v]> r) rows vs) ws.
Proof.
  intros Hne. revert vs ws.
  induction rows as [|r rows IH]; intros [|v vs] [|w ws]; cbn; try done.
  rewrite IH. f_equal.
  rewrite (insert_insert_ne _ c c') by done. by rewrite insert_insert_eq.
Qed.

Lemma read_column_after_set (c c' : string) (vs : list pd.cell)
    (rows : list (gmap string pd.cell)) :
  c ≠ c' → length vs = length rows →
  (λ r, default pd.VNone (r !! c')) <$> zip_with (λ r v, <[c := v]> r) rows vs
  = (λ r, default pd.VNone (r !! c')) <$> rows.
Proof.
  intros Hne. revert vs.
  induction rows as [|r rows IH]; intros [|v vs]; cbn; try done.
  intros [= Hlen]. rewrite IH by done. by rewrite lookup_insert_ne.
Qed.

Lemma setitem_Ok (df : pd.DataFrame) (col : string) (s : list pd.cell) :
  length s = length (pd.rows df) →
  pd.setitem df col s
  = Ok (pd.mkDataFrame
          (if bool_decide (col ∈ pd.columns df) then pd.columns df
           else pd.columns df ++ [col])
          (zip_with (λ r v, <[col := v]> r) (pd.rows df) s)).
Proof. intros Hlen. unfold pd.setitem. by rewrite bool_decide_eq_true_2. Qed.

Lemma setitem_inv (df out : pd.DataFrame) (col : string) (s : list pd.cell) :
  pd.setitem df col s = Ok out →
  length s = length (pd.rows df) ∧
  col ∈ pd.columns out ∧
  (∀ c, c ∈ pd.columns df → c ∈ pd.columns out) ∧
  pd.rows out = zip_with (λ r v, <[col := v]> r) (pd.rows df) s ∧
  pd.columns out = (if bool_decide (col ∈ pd.columns df) then pd.columns df
                    else pd.columns df ++ [col]).
Proof.
  unfold pd.setitem. case_bool_decide as Hlen; [|done]. intros [= <-]. cbn.
  split; [done|]. case_bool_decide as Hcol; repeat split; try done.
  - set_solver.
  - intros c Hc. set_solver.
Qed.

Lemma getitem_inv (df : pd.DataFrame) (col : string) (s : list pd.cell) :
  pd.getitem df col = Ok s →
  col ∈ pd.columns df ∧ s = (λ r, default pd.VNone (r !! col)) <$> pd.rows df.
Proof. unfold pd.getitem. case_bool_decide; [|done]. by intros [= <-]. Qed.

Lemma length_dt_date (s : list pd.cell) : length (pd.dt_date s) = length s.
Proof. unfold pd.dt_date. by rewrite length_fmap. Qed.

Section normalizer_facts.
Variable parse_datetime : string → option (Z * Z).

Lemma process_reddit_data_body_inv (df out : pd.DataFrame) :
  reddit_fetch.process_reddit_data_body parse_datetime df = Ok out →
  ∃ stamps,
    "created" ∈ pd.columns df ∧
    pd.to_datetime parse_datetime
      ((λ r, default pd.VNone (r !! "created")) <$> pd.rows df) = Ok stamps ∧
    length (pd.dt_date stamps) = length (pd.rows df) ∧
    pd.setitem df "date" (pd.dt_date stamps) = Ok out.
Proof.
  unfold reddit_fetch.process_reddit_data_body.
  destruct (pd.getitem df "created") as [created|e] eqn:Hget; [|done].
  apply getitem_inv in Hget as [Hcol ->]. step_ok.
  destruct (pd.to_datetime parse_datetime _) as [stamps|e] eqn:Hstamps; [|done].
  step_ok. intros Hset. exists stamps. repeat split; try done.
  by apply setitem_inv in Hset as (? & _).
Qed.

(** The body of the normalizer reads the creation times and writes the
    dates: a second pass over its result writes the same dates again. *)
Lemma process_reddit_data_body_fixed (df out : pd.DataFrame) :
  reddit_fetch.process_reddit_data_body parse_datetime df = Ok out →
  reddit_fetch.process_reddit_data_body parse_datetime out = Ok out.
Proof.
  intros Hrun.
  apply process_reddit_data_body_inv in Hrun as (stamps & Hcol & Hstamps & Hlen & Hset).
  apply setitem_inv in Hset as (_ & Hdate & Hkeep & Hrows & _).
  destruct out as [cols rows]. cbn in Hdate, Hkeep, Hrows. subst rows.
  unfold reddit_fetch.process_reddit_data_body.
  rewrite getitem_Ok by auto. step_ok. cbn [pd.rows].
  rewrite read_column_after_set, Hstamps by done. step_ok.
  rewrite setitem_Ok by (cbn [pd.rows]; by rewrite length_zip_with_l_eq).
  cbn [pd.rows pd.columns].
  by rewrite bool_decide_eq_true_2, set_column_twice.
Qed.

(** The decorated function never reaches its body: the cache asks for the
    hash of the data frame first. *)
Lemma process_reddit_data_Raise (df : pd.DataFrame) :
  reddit_fetch.process_reddit_data parse_datetime df = Raise TypeError.
Proof. reflexivity. Qed.

Lemma cached_processing_Raise (df : pd.DataFrame) :
  app.cached_processing parse_datetime df = Raise TypeError.
Proof. unfold app.cached_processing. by rewrite process_reddit_data_Raise. Qed.

End normalizer_facts.

(** C8, as the code has it.  [process_reddit_data] is exported under
    [functools.lru_cache], which hashes the data frame it is given: the call
    raises [TypeError] on every collection, and so does [cached_processing],
    which starts with that call.  No collection is accepted by the
    normalizer, neither once nor twice.  The body under the decorator is
    idempotent: on a collection it accepts, a second pass returns the
    result of the first. *)
Theorem normalizer_rejects_every_collection (parse_datetime : string → option (Z * Z))
    (df : pd.DataFrame) :
  reddit_fetch.process_reddit_data parse_datetime df = Raise TypeError ∧
  app.cached_processing parse_datetime df = Raise TypeError ∧
  (∀ once,
     reddit_fetch.process_reddit_data_body parse_datetime df = Ok once →
     reddit_fetch.process_reddit_data_body parse_datetime once = Ok once).
Proof.
  split; [apply process_reddit_data_Raise|].
  split; [apply cached_processing_Raise|].
  intros once. apply process_reddit_data_body_fixed.
Qed.

(** The three fetched posts: the body alone derives their dates, the
    function as exported raises. *)
Example normalizer_on_fetched_posts :
  reddit_fetch.process_reddit_data_body sample.no_parser sample.fetched
    = Ok (pd.mkDataFrame (sample.raw_columns ++ ["date"])
            ((λ r, <["date" := default pd.VNone (spec.created_day r)]> r)
               <$> pd.rows sample.fetched)) ∧
  reddit_fetch.process_reddit_data sample.no_parser sample.fetched = Raise TypeError ∧
  app.cached_processing sample.no_parser sample.fetched = Raise TypeError.
Proof. repeat split; vm_compute; reflexivity. Qed.

(** ** The generator: how its methods change the document *)

Import report_generator.

Lemma run_bind {A B} (m : IO A) (k : A → IO B) (s : State) :
  run (m ≫= k) s
  = match run m s with
    | (Ok a, s') => run (k a) s'
    | (Raise e, s') => (Raise e, s')
    end.
Proof. reflexivity. Qed.

Lemma run_bind_Ok_inv {A B} (m : IO A) (k : A → IO B) (s s' : State) (b : B) :
  run (m ≫= k) s = (Ok b, s') →
  ∃ a s1, run m s = (Ok a, s1) ∧ run (k a) s1 = (Ok b, s').
Proof.
  rewrite run_bind. destruct (run m s) as [[a|e] s1]; [|done].
  intros Hk. by exists a, s1.
Qed.

Lemma run_bind_Raise_inv {A B} (m : IO A) (k : A → IO B) (s s' : State) (e : exn) :
  run (m ≫= k) s = (Raise e, s') →
  run m s = (Raise e, s') ∨
  ∃ a s1, run m s = (Ok a, s1) ∧ run (k a) s1 = (Raise e, s').
Proof.
  rewrite run_bind. destruct (run m s) as [[a|e'] s1].
  - intros Hk. right. by exists a, s1.
  - intros [= <- <-]. by left.
Qed.

(** Every method before the cleanup moves the state along a relation [R]
    and raises only exceptions in [E], for any [R] that adding a cell to the
    document and adding a file to a directory respect. *)
Section respects.
Variable R : State → State → Prop.
Variable E : exn → Prop.
Hypothesis R_refl : ∀ s, R s s.
Hypothesis R_trans : ∀ s1 s2 s3, R s1 s2 → R s2 s3 → R s1 s3.
Hypothesis R_emit : ∀ s i, R s (mkState (world s) (page s ++ [i])).
Hypothesis R_save : ∀ s d f,
  R s (mkState
         (mkWorld (next_dir (world s))
            (<[d := {[f]} ∪ default ∅ (dirs (world s) !! d)]> (dirs (world s))))
         (page s)).
Hypothesis E_os : E OSError.
Hypothesis E_key : ∀ k, E (KeyError k).
Variable fails : io_call → bool.

Abbreviation respects := (spec.respects R E).

Lemma respects_ret {A} (a : A) : respects (mret a).
Proof. intros s r s' [= <- <-]. by split. Qed.

Lemma respects_lift {A} (x : result A) :
  (∀ e, x = Raise e → E e) → respects (lift x).
Proof. intros Hx s r s' [= <- <-]. by split. Qed.

Lemma respects_emit (i : item) : respects (emit i).
Proof. intros s r s' [= <- <-]. by split. Qed.

Lemma respects_bind {A B} (m : IO A) (k : A → IO B) :
  respects m → (∀ a, respects (k a)) → respects (m ≫= k).
Proof.
  intros Hm Hk s r s'. rewrite run_bind.
  destruct (run m s) as [[a|e] s1] eqn:Hrun.
  - intros Hk'. destruct (Hm _ _ _ Hrun) as [H1 _].
    destruct (Hk a _ _ _ Hk') as [H2 He]. eauto.
  - intros [= <- <-]. destruct (Hm _ _ _ Hrun) as [H1 He].
    split; [done|]. intros e' [= <-]. by apply He.
Qed.

Lemma respects_savefig self filename : respects (savefig fails self filename).
Proof.
  intros s r s'. unfold savefig. cbn.
  destruct (fails _); intros [= <- <-]; split; try done.
  by intros e [= <-].
Qed.

Lemma respects_image self filename : respects (image fails self filename).
Proof.
  unfold image. destruct (fails _); [|apply respects_emit].
  apply respects_lift. by intros e [= <-].
Qed.

Lemma respects_save_chart self filename : respects (_save_chart fails self filename).
Proof.
  apply respects_bind; [apply respects_savefig|intros; apply respects_ret].
Qed.

Lemma respects_getitem (frame : pd.DataFrame) (col : string) :
  respects (lift (pd.getitem frame col)).
Proof.
  apply respects_lift. unfold pd.getitem. case_bool_decide; [done|].
  by intros e [= <-].
Qed.

Lemma respects_emit_lines lines : respects (emit_lines lines).
Proof.
  induction lines as [|l lines IH]; [apply respects_ret|].
  apply respects_bind; [apply respects_emit|by intros].
Qed.

Lemma respects_emit_metrics ms : respects (emit_metrics ms).
Proof.
  induction ms as [|[k v] ms IH]; [apply respects_ret|].
  repeat (apply respects_bind; [apply respects_emit|intros _]). exact IH.
Qed.

Lemma respects_visuals self : respects (_add_visuals_section fails self).
Proof.
  unfold _add_visuals_section.
  repeat first
    [ apply respects_save_chart | apply respects_image
    | apply respects_getitem | apply respects_ret
    | case_bool_decide
    | (apply respects_bind; [|intros ?]) ].
Qed.

Lemma respects_build self :
  (∀ e, metrics self = Raise e → E e) →
  respects (_build_pdf_content fails self).
Proof.
  intros Hmetrics.
  unfold _build_pdf_content, _add_header, _add_metrics_section,
    _add_recommendations, _add_footer.
  repeat first
    [ apply respects_visuals | apply respects_emit | apply respects_emit_lines
    | apply respects_emit_metrics | by apply respects_lift
    | (apply respects_bind; [|intros ?]) ].
Qed.

(** An error exit of [generate_pdf] is an error of the assembly or of the
    output: the cleanup has not run. *)
Lemma generate_pdf_Raise self s e s' :
  (∀ e, metrics self = Raise e → E e) →
  run (generate_pdf fails self) s = (Raise e, s') → R s s' ∧ E e.
Proof.
  intros Hmetrics. unfold generate_pdf. intros H.
  apply run_bind_Raise_inv in H as [H|([] & s1 & Hbuild & H)].
  { destruct (respects_build self Hmetrics _ _ _ H) as [HR HE]. auto. }
  destruct (respects_build self Hmetrics _ _ _ Hbuild) as [HR _].
  apply run_bind_Raise_inv in H as [H|(bytes & s2 & Hout & H)].
  { unfold output in H. cbn in H. destruct (fails Output); [|done].
    by injection H as <- <-. }
  apply run_bind_Raise_inv in H as [H|([] & s3 & _ & H)]; done.
Qed.

End respects.

Abbreviation extends := spec.extends.

Lemma extends_refl s : extends s s.
Proof. exists []. by rewrite app_nil_r. Qed.

Lemma extends_trans s1 s2 s3 : extends s1 s2 → extends s2 s3 → extends s1 s3.
Proof. intros [x1 H1] [x2 H2]. exists (x1 ++ x2). by rewrite H2, H1, app_assoc. Qed.

Lemma extends_emit s i : extends s (mkState (world s) (page s ++ [i])).
Proof. by exists [i]. Qed.

Lemma extends_save s d f :
  extends s (mkState
               (mkWorld (next_dir (world s))
                  (<[d := {[f]} ∪ default ∅ (dirs (world s) !! d)]> (dirs (world s))))
               (page s)).
Proof. exists []. cbn. by rewrite app_nil_r. Qed.

Ltac extends_side :=
  first [ exact extends_refl | exact extends_trans | exact extends_emit
        | exact extends_save | done ].

Lemma appends_visuals fails self s r s' :
  run (_add_visuals_section fails self) s = (r, s') → extends s s'.
Proof.
  intros H.
  assert (Hr : spec.respects extends (λ _, True) (_add_visuals_section fails self)).
  { apply respects_visuals; extends_side. }
  by destruct (Hr _ _ _ H).
Qed.

Lemma appends_recommendations self s r s' :
  run (_add_recommendations self) s = (r, s') → extends s s'.
Proof.
  intros H.
  assert (Hr : spec.respects extends (λ _, True) (_add_recommendations self)).
  { apply respects_bind; [extends_side| |intros _].
    - apply respects_emit; extends_side.
    - apply respects_emit_lines; extends_side. }
  by destruct (Hr _ _ _ H).
Qed.

Lemma run_emit_metrics (ms : list (string * list part)) (s : State) :
  run (emit_metrics ms) s
  = (Ok (), mkState (world s) (page s ++ spec.metric_cells ms)).
Proof.
  revert s. induction ms as [|[k v] ms IH]; intros s.
  - cbn. rewrite app_nil_r. by destruct s.
  - cbn [emit_metrics]. repeat (rewrite run_bind; cbn [emit run]).
    rewrite IH. cbn. by rewrite <- !app_assoc.
Qed.

(** The document a successful [generate_pdf] returns opens with the head
    and the cells of the metrics list. *)
Lemma generate_pdf_Ok fails self s doc s' :
  run (generate_pdf fails self) s = (Ok doc, s') →
  ∃ ms rest,
    metrics self = Ok ms ∧
    doc = page s ++ spec.document_head self ++ spec.metric_cells ms ++ rest.
Proof.
  unfold generate_pdf. intros H.
  apply run_bind_Ok_inv in H as ([] & s1 & Hbuild & H).
  apply run_bind_Ok_inv in H as (bytes & s2 & Hout & H).
  apply run_bind_Ok_inv in H as ([] & s3 & _ & [= <- _]).
  assert (bytes = page s1) as ->.
  { unfold output in Hout. cbn in Hout. destruct (fails Output); [done|]. by injection Hout as <- _. }
  clear Hout. unfold _build_pdf_content in Hbuild.
  apply run_bind_Ok_inv in Hbuild as ([] & sa & Hhead & Hbuild).
  apply run_bind_Ok_inv in Hbuild as ([] & sb & Hmetrics & Hbuild).
  apply run_bind_Ok_inv in Hbuild as ([] & sc & Hvis & Hbuild).
  apply run_bind_Ok_inv in Hbuild as ([] & sd & Hrec & Hfoot).
  injection Hhead as <-.
  unfold _add_metrics_section in Hmetrics.
  apply run_bind_Ok_inv in Hmetrics as ([] & sa' & [= <-] & Hmetrics).
  apply run_bind_Ok_inv in Hmetrics as (ms & sa'' & Hms & Hmetrics).
  unfold lift in Hms. cbn in Hms. injection Hms as Hms <-.
  rewrite run_emit_metrics in Hmetrics. injection Hmetrics as <-.
  destruct (appends_visuals _ _ _ _ _ Hvis) as [x1 H1]. cbn in H1.
  destruct (appends_recommendations _ _ _ _ Hrec) as [x2 H2].
  injection Hfoot as <-. cbn.
  exists ms, (x1 ++ x2 ++ [Cell [Lit "Generated by Reddit Sentiment Dashboard"]]).
  split; [done|]. rewrite H2, H1. by rewrite <- !app_assoc.
Qed.

(** ** C4: the two exports print the same numbers *)

Lemma percent_Ok (count total : nat) (p : pyfloat) :
  percent count total = Ok p → (0 < total)%nat ∧ p = spec.share count total.
Proof. destruct total; [done|]. intros [= <-]. split; [lia|done]. Qed.

Lemma metrics_Ok (self : Generator) (ms : list (string * list part)) :
  metrics self = Ok ms →
  ∃ pos neg neu compound mean,
    count_label (df self) "Positive" = Ok pos ∧
    count_label (df self) "Negative" = Ok neg ∧
    count_label (df self) "Neutral" = Ok neu ∧
    pd.getitem (df self) "sentiment_compound" = Ok compound ∧
    pd.series_mean compound = Ok mean ∧
    (0 < pd.len (df self))%nat ∧
    ms = spec.rendered_metrics
           (mkReport (search_term self) (analysis_date self) (pd.len (df self))
              mean pos neg neu []).
Proof.
  unfold metrics.
  destruct (count_label (df self) "Positive") as [pos|e]; [|done]. step_ok.
  destruct (count_label (df self) "Negative") as [neg|e]; [|done]. step_ok.
  destruct (count_label (df self) "Neutral") as [neu|e]; [|done]. step_ok.
  destruct (pd.getitem (df self) "sentiment_compound") as [compound|e]; [|done]. step_ok.
  destruct (pd.series_mean compound) as [mean|e] eqn:Hmean; [|done]. step_ok.
  destruct (percent pos _) as [ppos|e] eqn:Hpos; [|done]. step_ok.
  destruct (percent neg _) as [pneg|e] eqn:Hneg; [|done]. step_ok.
  destruct (percent neu _) as [pneu|e] eqn:Hneu; [|done]. step_ok.
  apply percent_Ok in Hpos as [Hlen ->].
  apply percent_Ok in Hneg as [_ ->]. apply percent_Ok in Hneu as [_ ->].
  intros [= <-]. by exists pos, neg, neu, compound, mean.
Qed.

Lemma generate_json_Ok (self : Generator) (r : Report) :
  generate_json self = Ok r →
  ∃ pos neg neu compound mean top,
    count_label (df self) "Positive" = Ok pos ∧
    count_label (df self) "Negative" = Ok neg ∧
    count_label (df self) "Neutral" = Ok neu ∧
    pd.getitem (df self) "sentiment_compound" = Ok compound ∧
    pd.series_mean compound = Ok mean ∧
    r = mkReport (search_term self) (analysis_date self) (pd.len (df self))
          mean pos neg neu top.
Proof.
  unfold generate_json.
  destruct (count_label (df self) "Positive") as [pos|e]; [|done]. step_ok.
  destruct (count_label (df self) "Negative") as [neg|e]; [|done]. step_ok.
  destruct (count_label (df self) "Neutral") as [neu|e]; [|done]. step_ok.
  destruct (pd.getitem (df self) "sentiment_compound") as [compound|e]; [|done]. step_ok.
  destruct (pd.series_mean compound) as [mean|e] eqn:Hmean; [|done]. step_ok.
  destruct (pd.nlargest 5 "score" (df self)) as [largest|e]; [|done]. step_ok.
  destruct (pd.records _ largest) as [top|e]; [|done]. step_ok.
  intros [= <-]. by exists pos, neg, neu, compound, mean, top.
Qed.

(** C4. When the rendered document and the structured record are both
    produced from one collection, the document's key metrics are the
    rendering of the record: the total, the mean compound sentiment and the
    count of each label printed in the document are the numbers of the
    record, the mean to two decimals and each count with its share of the
    total to one decimal. *)
Theorem exports_print_same_numbers (fails : io_call → bool) (self : Generator)
    (s s' : State) (doc : list item) (report : Report) :
  run (generate_pdf fails self) s = (Ok doc, s') →
  generate_json self = Ok report →
  total_posts report = pd.len (df self) ∧
  ∃ rest, doc = page s ++ spec.document_head self
                  ++ spec.metric_cells (spec.rendered_metrics report) ++ rest.
Proof.
  intros Hpdf Hjson.
  apply generate_pdf_Ok in Hpdf as (ms & rest & Hms & ->).
  apply metrics_Ok in Hms as (pos & neg & neu & compound & mean & Hp & Hn & Hu & Hc & Hm & _ & ->).
  apply generate_json_Ok in Hjson
    as (pos' & neg' & neu' & compound' & mean' & top & Hp' & Hn' & Hu' & Hc' & Hm' & ->).
  rewrite Hp in Hp'. rewrite Hn in Hn'. rewrite Hu in Hu'. rewrite Hc in Hc'.
  injection Hp' as <-. injection Hn' as <-. injection Hu' as <-. injection Hc' as <-.
  rewrite Hm in Hm'. injection Hm' as <-.
  split; [done|]. by exists rest.
Qed.

Lemma exports_print_same_numbers_sample :
  ∃ doc s' report,
    run (generate_pdf sample.no_faults sample.generator) sample.blank_document
      = (Ok doc, s') ∧
    generate_json sample.generator = Ok report ∧
    total_posts report = 3%nat ∧
    ∃ rest, doc = [] ++ spec.document_head sample.generator
                    ++ spec.metric_cells (spec.rendered_metrics report) ++ rest.
Proof.
  eexists _, _, _.
  split; [vm_compute; reflexivity|].
  split; [vm_compute; reflexivity|].
  eapply (exports_print_same_numbers sample.no_faults sample.generator
            sample.blank_document);
    vm_compute; reflexivity.
Defined.

(** ** C9: the temporary chart files *)

Abbreviation keeps := spec.keeps.

Lemma keeps_refl d s : keeps d s s.
Proof. intros files H. by exists files. Qed.

Lemma keeps_trans d s1 s2 s3 : keeps d s1 s2 → keeps d s2 s3 → keeps d s1 s3.
Proof.
  intros H1 H2 files H. destruct (H1 _ H) as (f1 & Hf1 & Hsub1).
  destruct (H2 _ Hf1) as (f2 & Hf2 & Hsub2). exists f2. split; [done|set_solver].
Qed.

Lemma keeps_emit d s i : keeps d s (mkState (world s) (page s ++ [i])).
Proof. intros files H. by exists files. Qed.

Lemma keeps_save d s d' f :
  keeps d s (mkState
               (mkWorld (next_dir (world s))
                  (<[d' := {[f]} ∪ default ∅ (dirs (world s) !! d')]> (dirs (world s))))
               (page s)).
Proof.
  intros files H. cbn. destruct (decide (d' = d)) as [->|Hne].
  - rewrite lookup_insert_eq, H. cbn. eexists. split; [done|set_solver].
  - rewrite lookup_insert_ne by done. by exists files.
Qed.

(** No error exit of [generate_pdf] deletes a file of the temporary
    directory: what was saved before the error is still there. *)
Lemma generate_pdf_error_keeps_files fails self s e s' :
  run (generate_pdf fails self) s = (Raise e, s') → keeps (temp_dir self) s s'.
Proof.
  intros H.
  refine (proj1 (generate_pdf_Raise (keeps (temp_dir self)) (λ _, True)
                   _ _ _ _ _ _ fails self s e s' _ H));
    first [ exact (keeps_refl _) | exact (keeps_trans _) | exact (keeps_emit _)
          | exact (keeps_save _) | done ].
Qed.

(** A successful [generate_pdf] removes the temporary directory. *)
Lemma generate_pdf_success_cleans fails self s doc s' :
  run (generate_pdf fails self) s = (Ok doc, s') →
  dirs (world s') !! temp_dir self = None.
Proof.
  unfold generate_pdf. intros H.
  apply run_bind_Ok_inv in H as ([] & s1 & _ & H).
  apply run_bind_Ok_inv in H as (bytes & s2 & _ & H).
  apply run_bind_Ok_inv in H as ([] & s3 & Hclean & [= _ <-]).
  injection Hclean as <-. cbn. apply lookup_delete_eq.
Qed.

(** C9, at an error exit. The disk fills up while [generate_pdf] writes the
    second chart of the three sample posts: the call ends with [OSError],
    and the temporary directory still exists and still holds
    [sentiment.png]. *)
Theorem chart_file_left_after_error :
  ∃ s',
    run (generate_pdf sample.disk_full_at_trend sample.generator) sample.blank_document
      = (Raise OSError, s') ∧
    dirs (world s') !! temp_dir sample.generator = Some {["sentiment.png"]}.
Proof. eexists. split; vm_compute; reflexivity. Qed.

(** ** C3: a collection of size 0 *)

Lemma getitem_Raise (frame : pd.DataFrame) (col : string) (e : exn) :
  pd.getitem frame col = Raise e → e = KeyError col.
Proof. unfold pd.getitem. case_bool_decide; [done|]. by intros [= <-]. Qed.

Lemma mapM_Raise {A B} (f : A → result B) (l : list A) (e : exn) :
  mapM f l = Raise e → ∃ x, x ∈ l ∧ f x = Raise e.
Proof.
  induction l as [|x l IH]; cbn; [done|].
  destruct (f x) as [y|e'] eqn:Hx; cbn.
  - destruct (mapM f l) as [ys|e'']; cbn; [done|].
    intros [= <-]. destruct (IH eq_refl) as (x' & Hin & Hx').
    exists x'. split; [by right|done].
  - intros [= <-]. exists x. split; [by left|done].
Qed.

Lemma count_label_Raise (frame : pd.DataFrame) (label : string) (e : exn) :
  count_label frame label = Raise e → e = KeyError "Sentiment".
Proof.
  unfold count_label.
  destruct (pd.getitem frame "Sentiment") as [x|e'] eqn:Hget; [done|].
  intros [= <-]. by apply getitem_Raise in Hget.
Qed.

Lemma series_mean_Raise (s : list pd.cell) (e : exn) :
  pd.series_mean s = Raise e → e = TypeError.
Proof.
  unfold pd.series_mean.
  destruct (mapM _ s) as [xs|e'] eqn:Hxs.
  - step_ok. by destruct (List.filter _ xs).
  - intros [= <-]. apply mapM_Raise in Hxs as (c & _ & Hc).
    destruct c as [| |x| | |]; cbn in Hc; congruence.
Qed.

Lemma metrics_Raise (self : Generator) (e : exn) :
  metrics self = Raise e → e = ZeroDivisionError → pd.len (df self) = 0%nat.
Proof.
  unfold metrics.
  destruct (count_label (df self) "Positive") as [pos|e1] eqn:H1;
    [step_ok|intros [= <-]; by apply count_label_Raise in H1 as ->].
  destruct (count_label (df self) "Negative") as [neg|e2] eqn:H2;
    [step_ok|intros [= <-]; by apply count_label_Raise in H2 as ->].
  destruct (count_label (df self) "Neutral") as [neu|e3] eqn:H3;
    [step_ok|intros [= <-]; by apply count_label_Raise in H3 as ->].
  destruct (pd.getitem (df self) "sentiment_compound") as [compound|e4] eqn:H4;
    [step_ok|intros [= <-]; by apply getitem_Raise in H4 as ->].
  destruct (pd.series_mean compound) as [mean|e5] eqn:H5;
    [step_ok|intros [= <-]; by apply series_mean_Raise in H5 as ->].
  destruct (pd.len (df self)); [done|]. cbn. done.
Qed.

(** With at least one post, [generate_pdf] never ends in a division by
    zero. *)
Lemma generate_pdf_no_zero_division fails self s s' :
  (0 < pd.len (df self))%nat →
  run (generate_pdf fails self) s ≠ (Raise ZeroDivisionError, s').
Proof.
  intros Hlen H.
  refine (proj2 (generate_pdf_Raise (λ _ _, True) (λ e, e ≠ ZeroDivisionError)
                   _ _ _ _ _ _ fails self s _ s' _ H) eq_refl); try done.
  intros e He ->. apply metrics_Raise in He; [lia|done].
Qed.

Lemma export_section_pdf fails now filtered kw world :
  app.pdf (app.export_section fails now filtered kw world).1
  = (run (generate_pdf fails (init filtered kw now world).1)
       (mkState (init filtered kw now world).2 [])).1.
Proof.
  unfold app.export_section, init, mkdtemp. cbv beta iota zeta. cbn [fst snd].
  by destruct (run _ _).
Qed.

(** The structured record and the rendered document of a collection of
    size 0: the document assembly ends in [ZeroDivisionError], the record is
    returned with a total of 0 and a mean that is NaN; neither reports an
    insufficient-data condition. *)
Lemma report_builder_size_0_unguarded :
  pd.len sample.nothing_left = 0%nat ∧
  (∃ s', run (generate_pdf sample.no_faults sample.generator_nothing_left)
           sample.blank_document = (Raise ZeroDivisionError, s')) ∧
  generate_json sample.generator_nothing_left
    = Ok (mkReport "python" "2024-01-01 00:00" 0 NaN 0 0 0 []).
Proof.
  split; [reflexivity|]. split; [eexists|]; vm_compute; reflexivity.
Qed.

(** C3, as the code has it. A filtered collection of size 0 is stopped by
    the dashboard: it shows the warning that no post matches the filters and
    builds no export.  The exports are built only from a collection of at
    least 2 posts, on which the document assembly never divides by zero and
    every percentage of the total is defined. *)
Theorem size_0_stops_at_dashboard (lib : py.Library)
    (vectorizer : option (list pd.cell → result (list string)))
    (fails : io_call → bool) (now : string)
    (w : app.Widgets) (s : app.SessionState) (world : World) :
  (∀ original filtered,
     app.fetch_clicked s = true → app.data_ready s = true →
     app.original_df s = Some original →
     app.filtered_df original (app.applied_dates s) (app.min_score s) = Ok filtered →
     pd.len filtered = 0%nat →
     app.main_content lib vectorizer fails now w s world
       = (app.Dashboard filtered (app.Warned app.NoPostsMatch), world)) ∧
  (∀ filtered k t e world',
     app.main_content lib vectorizer fails now w s world
       = (app.Dashboard filtered (app.Analysis k t e), world') →
     (2 ≤ pd.len filtered)%nat ∧
     (e, world') = app.export_section fails now filtered (app.current_keyword s) world ∧
     app.pdf e ≠ Raise ZeroDivisionError ∧
     ∀ count, percent count (pd.len filtered)
              = Ok (spec.share count (pd.len filtered))).
Proof.
  split.
  - intros original filtered Hclicked Hready Horiginal Hfilter Hlen.
    unfold app.main_content. rewrite Hclicked, Hready, Horiginal, Hfilter. cbn [andb].
    assert (pd.empty filtered = true) as ->; [|done].
    unfold pd.empty. unfold pd.len in Hlen. by destruct (pd.rows filtered).
  - intros filtered k t e world'. unfold app.main_content.
    destruct (app.fetch_clicked s && app.data_ready s); [|done].
    destruct (app.original_df s) as [original|]; [|done].
    destruct (app.filtered_df _ _ _) as [filtered'|e0]; [|done].
    destruct (pd.empty filtered'); [done|].
    destruct (app.kpis filtered') as [k'|e1]; [|done].
    destruct (1 <? pd.len filtered')%nat eqn:Hlen; [|done].
    destruct (app.tabs _ _ _ _ _) as [t'|e2]; [|done].
    destruct (app.export_section _ _ _ _ _) as [e' world''] eqn:Hexport.
    intros [= -> -> -> -> ->]. apply Nat.ltb_lt in Hlen.
    split; [lia|]. split; [done|]. split.
    + pose proof (export_section_pdf fails now filtered (app.current_keyword s) world)
        as Hpdf.
      rewrite Hexport in Hpdf. cbn [fst] in Hpdf. rewrite Hpdf.
      destruct (run _ _) as [bytes after] eqn:Hrun. cbn [fst]. intros ->.
      apply generate_pdf_no_zero_division in Hrun; [done|].
      unfold init, mkdtemp. cbn. lia.
    + intros count. unfold percent. destruct (pd.len filtered); [lia|done].
Qed.

Lemma size_0_stops_at_dashboard_sample :
  (∃ filtered,
     app.filtered_df sample.processed (738003, 738003) 0 = Ok filtered ∧
     pd.len filtered = 0%nat ∧
     app.main_content ascii_text.library None sample.no_faults "2024-01-01 00:00"
       (sample.widgets app.Rerun []) (sample.loaded (738003, 738003) 0) sample.fresh_world
       = (app.Dashboard filtered (app.Warned app.NoPostsMatch), sample.fresh_world)) ∧
  (∃ filtered k t e world',
     app.main_content ascii_text.library None sample.no_faults "2024-01-01 00:00"
       (sample.widgets app.Rerun []) (sample.loaded (1, 800000) 0) sample.fresh_world
       = (app.Dashboard filtered (app.Analysis k t e), world') ∧
     (2 ≤ pd.len filtered)%nat ∧
     app.pdf e ≠ Raise ZeroDivisionError).
Proof.
  split.
  - eexists. split; [vm_compute; reflexivity|]. split; [reflexivity|].
    apply (proj1 (size_0_stops_at_dashboard ascii_text.library None sample.no_faults "2024-01-01 00:00"
                    (sample.widgets app.Rerun []) (sample.loaded (738003, 738003) 0)
                    sample.fresh_world) sample.processed);
      vm_compute; reflexivity.
  - eexists _, _, _, _, _. split; [vm_compute; reflexivity|].
    edestruct (proj2 (size_0_stops_at_dashboard ascii_text.library None sample.no_faults "2024-01-01 00:00"
                        (sample.widgets app.Rerun []) (sample.loaded (1, 800000) 0)
                        sample.fresh_world)) as (Hlen & _ & Hpdf & _);
      [vm_compute; reflexivity|].
    split; [exact Hlen|exact Hpdf].
Defined.

(** ** C7: the top posts *)

Example top_posts_highest_score :
  ∃ top, app.top_posts sample.six_days app.HighestScore 5 = Ok top ∧
         pd.getitem top "score"
         = Ok [pd.VInt 6; pd.VInt 5; pd.VInt 4; pd.VInt 3; pd.VInt 2].
Proof. eexists. split; vm_compute; reflexivity. Qed.

(** The sort direction of the "Most Recent" option. *)
Lemma most_recent_sorts_ascending (filtered : pd.DataFrame) (show_count : nat) :
  app.top_posts filtered app.MostRecent show_count
  = (sorted ← pd.sort_values filtered "date" true; Ok (pd.head show_count sorted)).
Proof. reflexivity. Qed.

(** C7, for the recency criterion. Of six posts dated on six successive
    days (738001 to 738006), the top 5 by "Most Recent" are the five oldest,
    oldest first; the most recent post, of day 738006, is not among them. *)
Theorem most_recent_returns_oldest :
  ∃ top, app.top_posts sample.six_days app.MostRecent 5 = Ok top ∧
         pd.getitem top "date"
         = Ok [pd.VDate 738001; pd.VDate 738002; pd.VDate 738003;
               pd.VDate 738004; pd.VDate 738005].
Proof. eexists. split; vm_compute; reflexivity. Qed.

(** ** C7, for every collection: the sort of [sort_values] *)

Section stable_sort.
Context {A : Type}.
Variable leb : A → A → bool.
Variable P : A → Prop.
Hypothesis leb_total : ∀ x y, P x → P y → leb x y = true ∨ leb y x = true.
Hypothesis leb_trans :
  ∀ x y z, P x → P y → P z → leb x y = true → leb y z = true → leb x z = true.

Lemma insert_sorted_perm (x : A) (l : list A) : pd.insert_sorted leb x l ≡ₚ x :: l.
Proof.
  induction l as [|y l IH]; [done|]. cbn. destruct (leb x y); [done|].
  rewrite IH. apply Permutation_swap.
Qed.

Lemma stable_sort_perm (l : list A) : pd.stable_sort leb l ≡ₚ l.
Proof.
  induction l as [|x l IH]; [done|].
  change (pd.stable_sort leb (x :: l))
    with (pd.insert_sorted leb x (pd.stable_sort leb l)).
  by rewrite insert_sorted_perm, IH.
Qed.

Lemma insert_sorted_sorted (x : A) (l : list A) :
  P x → Forall P l →
  StronglySorted (λ a b, leb a b = true) l →
  StronglySorted (λ a b, leb a b = true) (pd.insert_sorted leb x l).
Proof.
  intros Hx Hl Hsorted. induction Hsorted as [|y l Hsorted IH Hy]; cbn.
  { repeat constructor. }
  apply Forall_cons in Hl as [Py Hl].
  destruct (leb x y) eqn:Hxy.
  - constructor; [by constructor|]. constructor; [done|].
    rewrite Forall_forall in Hy, Hl. apply Forall_forall. intros z Hz.
    apply (leb_trans x y z); auto.
  - constructor; [by apply IH|].
    rewrite (insert_sorted_perm x l). constructor; [|done].
    by destruct (leb_total x y Hx Py) as [H|H]; [congruence|].
Qed.

Lemma stable_sort_sorted (l : list A) :
  Forall P l → StronglySorted (λ a b, leb a b = true) (pd.stable_sort leb l).
Proof.
  induction 1 as [|x l Hx Hl IH]; [constructor|].
  change (pd.stable_sort leb (x :: l))
    with (pd.insert_sorted leb x (pd.stable_sort leb l)).
  apply insert_sorted_sorted; [done| |done].
  by rewrite stable_sort_perm.
Qed.
End stable_sort.

Lemma StronglySorted_app_order {A} (R : A → A → Prop) (l1 l2 : list A) (x y : A) :
  StronglySorted R (l1 ++ l2) → x ∈ l1 → y ∈ l2 → R x y.
Proof.
  induction l1 as [|z l1 IH]; cbn; [by intros _ ?%elem_of_nil|].
  intros Hsorted [->|Hx]%elem_of_cons Hy.
  - apply StronglySorted_inv in Hsorted as [_ Hz].
    rewrite Forall_forall in Hz. apply Hz. set_solver.
  - apply StronglySorted_inv in Hsorted as [Hsorted _]. by apply IH.
Qed.

Lemma zip_fmap_self {A B} (f : A → B) (l : list A) :
  zip (f <$> l) l = (λ x, (f x, x)) <$> l.
Proof. induction l as [|x l IH]; [done|]. cbn. by rewrite IH. Qed.

Lemma stdlib_filter_all {A} (f : A → bool) (l : list A) :
  Forall (λ x, f x = true) l → List.filter f l = l.
Proof. induction 1 as [|x l Hx _ IH]; [done|]. cbn. by rewrite Hx, IH. Qed.

Lemma stdlib_filter_none {A} (f : A → bool) (l : list A) :
  Forall (λ x, f x = false) l → List.filter f l = [].
Proof. induction 1 as [|x l Hx _ IH]; [done|]. cbn. by rewrite Hx. Qed.

(** An ascending sort by date of a dated collection: the rows are permuted
    and the dates ascend. *)
Lemma sort_values_date_ascending (frame sorted : pd.DataFrame) :
  spec.dated frame = true →
  pd.sort_values frame "date" true = Ok sorted →
  pd.columns sorted = pd.columns frame ∧
  pd.rows sorted ≡ₚ pd.rows frame ∧
  ∀ before after r r' d d',
    pd.rows sorted = before ++ after → r ∈ before → r' ∈ after →
    spec.row_date r = Some d → spec.row_date r' = Some d' → d ≤ d'.
Proof.
  unfold spec.dated. rewrite andb_true_iff, bool_decide_eq_true, forallb_forall.
  intros [Hcol Hrows]. unfold pd.sort_values.
  rewrite getitem_Ok by done. step_ok. rewrite zip_fmap_self.
  set (keyed := (λ r, (default pd.VNone (r !! "date"), r)) <$> pd.rows frame).
  set (P := λ kr : pd.cell * gmap string pd.cell,
              ∃ d, kr.1 = pd.VDate d ∧ spec.row_date kr.2 = Some d).
  set (leb := λ a b : pd.cell * gmap string pd.cell, pd.key_leb a.1 b.1).
  assert (HP : Forall P keyed).
  { apply Forall_fmap, Forall_forall. intros r Hr. unfold compose, P. cbn.
    apply list_elem_of_In, Hrows in Hr. unfold spec.row_date in *.
    destruct (r !! "date") as [[| | | |d|]|]; try done. by exists d. }
  assert (Htotal : ∀ x y, P x → P y → leb x y = true ∨ leb y x = true).
  { intros [k r] [k' r'] (d & Hk & _) (d' & Hk' & _). cbn in Hk, Hk'. subst.
    unfold leb, pd.key_leb. cbn. rewrite !Z.leb_le. lia. }
  assert (Htrans : ∀ x y z, P x → P y → P z →
            leb x y = true → leb y z = true → leb x z = true).
  { intros [k1 r1] [k2 r2] [k3 r3] (d1 & H1 & _) (d2 & H2 & _) (d3 & H3 & _).
    cbn in H1, H2, H3. subst. unfold leb, pd.key_leb. cbn. rewrite !Z.leb_le. lia. }
  assert (Hsorted : pd.nargsort true keyed = Ok (snd <$> pd.stable_sort leb keyed)).
  { unfold pd.nargsort.
    rewrite (stdlib_filter_none (λ kr, pd.isna kr.1)).
    2:{ eapply Forall_impl; [exact HP|]. intros [k r] (d & Hk & _). cbn in *. by subst. }
    rewrite (stdlib_filter_all (λ kr, negb (pd.isna kr.1))).
    2:{ eapply Forall_impl; [exact HP|]. intros [k r] (d & Hk & _). cbn in *. by subst. }
    destruct keyed as [|[k r] rest] eqn:Hkeyed; [done|].
    assert (forallb (λ kr, pd.same_kind k kr.1) rest = true) as ->.
    { apply Forall_cons in HP as [(d & Hk & _) Hrest]. cbn in Hk. subst k.
      apply forallb_forall. intros [k' r'] Hin.
      rewrite Forall_forall in Hrest. apply list_elem_of_In, Hrest in Hin.
      destruct Hin as (d' & Hk' & _). cbn in *. by subst. }
    by rewrite app_nil_r. }
  rewrite Hsorted. step_ok. intros [= <-]. cbn [pd.columns pd.rows].
  split; [done|]. split.
  { rewrite (stable_sort_perm leb keyed). unfold keyed.
    rewrite <- list_fmap_compose. by rewrite list_fmap_id. }
  intros before after r r' d d' Hsplit Hr Hr' Hd Hd'.
  pose proof (stable_sort_sorted leb P Htotal Htrans keyed HP) as Hstrong.
  assert (HPs : Forall P (pd.stable_sort leb keyed)).
  { by rewrite (stable_sort_perm leb keyed). }
  revert Hsplit Hstrong HPs. generalize (pd.stable_sort leb keyed) as sorted_keyed.
  intros sorted_keyed Hsplit Hstrong HPs.
  apply fmap_app_inv in Hsplit as (kb & ka & -> & -> & ->).
  apply list_elem_of_fmap in Hr as ([k0 r0] & -> & Hin).
  apply list_elem_of_fmap in Hr' as ([k1 r1] & -> & Hin').
  pose proof (StronglySorted_app_order _ _ _ _ _ Hstrong Hin Hin') as Hle.
  rewrite Forall_forall in HPs.
  destruct (HPs (k0, r0)) as (e0 & Hk0 & He0); [set_solver|].
  destruct (HPs (k1, r1)) as (e1 & Hk1 & He1); [set_solver|].
  cbn in *. subst k0 k1. rewrite Hd in He0. rewrite Hd' in He1.
  injection He0 as <-. injection He1 as <-.
  unfold pd.key_leb in Hle. cbn in Hle. by apply Z.leb_le.
Qed.

(** For the recency criterion the top posts are the oldest: whatever the
    dated collection and the count, no post left out is older than a post
    shown. *)
Lemma most_recent_keeps_oldest (frame top : pd.DataFrame) (show_count : nat) :
  spec.dated frame = true →
  app.top_posts frame app.MostRecent show_count = Ok top →
  ∃ left_out,
    pd.rows top ++ left_out ≡ₚ pd.rows frame ∧
    ∀ r r' d d', r ∈ pd.rows top → r' ∈ left_out →
                 spec.row_date r = Some d → spec.row_date r' = Some d' → d ≤ d'.
Proof.
  intros Hdated. rewrite most_recent_sorts_ascending.
  destruct (pd.sort_values frame "date" true) as [sorted|e] eqn:Hsort; [|done].
  step_ok. intros [= <-]. cbn [pd.head pd.rows].
  destruct (sort_values_date_ascending _ _ Hdated Hsort) as (_ & Hperm & Horder).
  exists (drop show_count (pd.rows sorted)). rewrite take_drop. split; [done|].
  intros r r' d d'. apply Horder. by rewrite take_drop.
Qed.

(** ** Lists and frames *)

Ltac by_decide := apply (bool_decide_unpack _); vm_compute; exact I.

Lemma stdlib_filter_filter {A} (f g : A → bool) (l : list A) :
  List.filter g (List.filter f l) = List.filter (λ x, f x && g x) l.
Proof.
  induction l as [|x l IH]; [done|]. cbn.
  destruct (f x); cbn; [destruct (g x)|]; by rewrite IH.
Qed.

Lemma stdlib_filter_nonempty {A} (f : A → bool) (l : list A) :
  List.filter f l ≠ [] ↔ ∃ x, x ∈ l ∧ f x = true.
Proof.
  split.
  - destruct (List.filter f l) as [|x xs] eqn:Hf; [done|]. intros _.
    assert (Hx : In x (List.filter f l)) by (rewrite Hf; by left).
    apply filter_In in Hx as [Hx Hfx]. exists x. by rewrite list_elem_of_In.
  - intros (x & Hx & Hfx) Hnil.
    assert (Hin : In x (List.filter f l)).
    { apply filter_In. by rewrite <- list_elem_of_In. }
    by rewrite Hnil in Hin.
Qed.

Lemma loc_fmap (frame : pd.DataFrame) (f : gmap string pd.cell → bool) :
  pd.loc frame (f <$> pd.rows frame)
  = pd.mkDataFrame (pd.columns frame) (List.filter f (pd.rows frame)).
Proof. unfold pd.loc. by rewrite compress_fmap. Qed.

Lemma NoDup_fst_unique {A B} (l : list (A * B)) (k : A) (v v' : B) :
  NoDup (l.*1) → (k, v) ∈ l → (k, v') ∈ l → v = v'.
Proof.
  induction l as [|[k0 v0] l IH]; cbn; [by intros _ ?%elem_of_nil|].
  intros [Hk0 Hl]%NoDup_cons [Hv|Hv]%elem_of_cons [Hv'|Hv']%elem_of_cons.
  - congruence.
  - injection Hv as -> ->. destruct Hk0. apply list_elem_of_fmap. by exists (k0, v').
  - injection Hv' as -> ->. destruct Hk0. apply list_elem_of_fmap. by exists (k0, v).
  - by apply IH.
Qed.

Lemma nonempty_frame_not_empty (cols : list string) (rows : list (gmap string pd.cell)) :
  "title" ∈ cols → pd.empty (pd.mkDataFrame cols rows) = match rows with [] => true | _ => false end.
Proof.
  intros Htitle. unfold pd.empty. cbn. destruct rows; [done|].
  destruct cols; [by apply elem_of_nil in Htitle|done].
Qed.

Lemma stdlib_filter_true {A} (f : A → bool) (l : list A) :
  (∀ x, f x = true) → List.filter f l = l.
Proof. intros Hf. induction l as [|x l IH]; [done|]. cbn. by rewrite Hf, IH. Qed.

Lemma records_Ok_inv (cols : list string) (df : pd.DataFrame)
    (out : list (gmap string pd.cell)) :
  pd.records cols df = Ok out →
  Forall (λ c, c ∈ pd.columns df) cols ∧
  out = (λ r, list_to_map ((λ c, (c, spec.cell_of c r)) <$> cols)) <$> pd.rows df.
Proof.
  unfold pd.records.
  destruct (List.find _ cols) as [c|] eqn:Hfind; [done|]. intros [= <-]. split; [|done].
  apply Forall_forall. intros c Hc%list_elem_of_In.
  apply (find_none _ _ Hfind) in Hc. by apply negb_false_iff, bool_decide_eq_true in Hc.
Qed.

(** ** The filter on any collection *)

Lemma mapM_Forall2 {A B} (f : A → result B) (l : list A) (l' : list B) :
  mapM f l = Ok l' → Forall2 (λ x y, f x = Ok y) l l'.
Proof.
  revert l'. induction l as [|x l IH]; intros l'; cbn.
  - intros [= <-]. constructor.
  - destruct (f x) as [y|e] eqn:Hx; cbn; [|done].
    destruct (mapM f l) as [ys|e]; cbn; [|done].
    intros [= <-]. constructor; [done|]. by apply IH.
Qed.

Lemma series_ge_inv (s : list pd.cell) (v : pd.cell) (mask : list bool) :
  pd.series_ge s v = Ok mask →
  Forall2 (λ x b, (if pd.isna x then Ok false else pd.py_le v x) = Ok b) s mask.
Proof. apply mapM_Forall2. Qed.

Lemma series_le_inv (s : list pd.cell) (v : pd.cell) (mask : list bool) :
  pd.series_le s v = Ok mask →
  Forall2 (λ x b, (if pd.isna x then Ok false else pd.py_le x v) = Ok b) s mask.
Proof. apply mapM_Forall2. Qed.

Lemma date_le_Ok (d : Z) (x : pd.cell) (b : bool) :
  (if pd.isna x then Ok false else pd.py_le (pd.VDate d) x) = Ok b →
  spec.date_cell x = true ∧
  b = match x with pd.VDate d' => d <=? d' | _ => false end.
Proof. destruct x as [| |[]| | |]; cbn; try done; by intros [= <-]. Qed.

Lemma date_ge_Ok (d : Z) (x : pd.cell) (b : bool) :
  (if pd.isna x then Ok false else pd.py_le x (pd.VDate d)) = Ok b →
  b = match x with pd.VDate d' => d' <=? d | _ => false end.
Proof. destruct x as [| |[]| | |]; cbn; try done; by intros [= <-]. Qed.

Lemma score_le_Ok (t : Z) (x : pd.cell) (b : bool) :
  (if pd.isna x then Ok false else pd.py_le (pd.VInt t) x) = Ok b →
  spec.score_cell x = true ∧
  b = match pd.as_float x with Some y => float_le (float_of_Z t) y | None => false end.
Proof. destruct x as [| |[]| | |]; cbn; try done; by intros [= <-]. Qed.

Lemma Forall2_fmap_mask {A} (f : A → pd.cell) (g : pd.cell → bool) (l : list A)
    (mask : list bool) :
  Forall2 (λ x b, b = g x) (f <$> l) mask → mask = (g ∘ f) <$> l.
Proof.
  revert mask. induction l as [|a l IH]; intros mask Hmask; cbn in *.
  - by inversion Hmask.
  - inversion Hmask as [|? b ? mask' -> Hrest]; subst. f_equal. by apply IH.
Qed.

Lemma Forall2_left {A B C} (f : A → B) (R : B → C → Prop) (P : B → Prop)
    (l : list A) (k : list C) :
  Forall2 R (f <$> l) k → (∀ x y, R x y → P x) → Forall (λ a, P (f a)) l.
Proof.
  revert k. induction l as [|a l IH]; intros k Hk HP; cbn in *; [constructor|].
  inversion Hk; subst. constructor; eauto.
Qed.

Lemma filtered_df_Ok_inv (df out : pd.DataFrame) (start end_ threshold : Z) :
  app.filtered_df df (start, end_) threshold = Ok out →
  spec.filterable df = true ∧
  out = pd.mkDataFrame (pd.columns df)
          (List.filter (spec.kept start end_ threshold) (pd.rows df)).
Proof.
  unfold app.filtered_df.
  destruct (pd.getitem df "date") as [date|e] eqn:Hdate; [|done].
  apply getitem_inv in Hdate as [Hdate ->]. step_ok.
  destruct (pd.series_ge _ (pd.VDate start)) as [from_start|e] eqn:Hfrom; [|done].
  step_ok.
  destruct (pd.series_le _ (pd.VDate end_)) as [to_end|e] eqn:Hto; [|done].
  step_ok.
  destruct (pd.getitem df "score") as [score|e] eqn:Hscore; [|done].
  apply getitem_inv in Hscore as [Hscore ->]. step_ok.
  destruct (pd.series_ge _ (pd.VInt threshold)) as [above|e] eqn:Habove; [|done].
  step_ok. intros [= <-].
  apply series_ge_inv in Hfrom. apply series_le_inv in Hto. apply series_ge_inv in Habove.
  assert (Hdates : Forall (λ r, spec.date_cell (spec.cell_of "date" r) = true) (pd.rows df)).
  { apply (Forall2_left _ _ (λ c, spec.date_cell c = true) _ _ Hfrom). intros x b Hb. by apply date_le_Ok in Hb as [? _]. }
  assert (Hscores : Forall (λ r, spec.score_cell (spec.cell_of "score" r) = true) (pd.rows df)).
  { apply (Forall2_left _ _ (λ c, spec.score_cell c = true) _ _ Habove). intros x b Hb. by apply score_le_Ok in Hb as [? _]. }
  split.
  - unfold spec.filterable. rewrite !andb_true_iff, !bool_decide_eq_true, forallb_forall.
    split; [done|]. intros r Hr%list_elem_of_In.
    rewrite Forall_forall in Hdates, Hscores. rewrite andb_true_iff. auto.
  - unfold pd.loc. f_equal.
    rewrite (Forall2_fmap_mask (spec.cell_of "date")
               (λ c, match c with pd.VDate d => start <=? d | _ => false end)
               (pd.rows df) from_start).
    2:{ eapply Forall2_impl; [exact Hfrom|]. intros x b Hb. by apply date_le_Ok in Hb as [_ ?]. }
    rewrite (Forall2_fmap_mask (spec.cell_of "date")
               (λ c, match c with pd.VDate d => d <=? end_ | _ => false end)
               (pd.rows df) to_end).
    2:{ eapply Forall2_impl; [exact Hto|]. intros x b Hb. by apply date_ge_Ok in Hb. }
    rewrite (Forall2_fmap_mask (spec.cell_of "score")
               (λ c, match pd.as_float c with
                     | Some y => float_le (float_of_Z threshold) y
                     | None => false
                     end) (pd.rows df) above).
    2:{ eapply Forall2_impl; [exact Habove|]. intros x b Hb. by apply score_le_Ok in Hb as [_ ?]. }
    rewrite !mask_and_fmap, compress_fmap.
    apply List.filter_ext_in. intros r Hr%list_elem_of_In. unfold compose.
    rewrite Forall_forall in Hdates, Hscores.
    specialize (Hdates r Hr). specialize (Hscores r Hr).
    unfold spec.kept, spec.cell_of in *.
    destruct (default pd.VNone (r !! "date")) as [| |[]| | |]; try done;
      destruct (default pd.VNone (r !! "score")) as [| |[]| | |]; try done;
      cbn; by rewrite ?andb_false_r.
Qed.

Lemma filtered_df_filterable (df : pd.DataFrame) (start end_ threshold : Z) :
  spec.filterable df = true →
  ∃ out, app.filtered_df df (start, end_) threshold = Ok out.
Proof.
  unfold spec.filterable. rewrite !andb_true_iff, !bool_decide_eq_true, forallb_forall.
  intros [[Hdate Hscore] Hrows].
  unfold app.filtered_df.
  rewrite !(getitem_Ok _ _ Hdate), (getitem_Ok _ _ Hscore). step_ok.
  rewrite (series_ge_Ok _ (pd.VDate start)
             (λ c, match c with pd.VDate d => start <=? d | _ => false end)).
  2:{ apply Forall_fmap, Forall_forall. intros r Hr%list_elem_of_In. unfold compose.
      apply Hrows in Hr as [Hr _]%andb_true_iff. unfold spec.cell_of in Hr.
      by destruct (default pd.VNone (r !! "date")) as [| |[]| | |]. }
  step_ok.
  rewrite (series_le_Ok _ (pd.VDate end_)
             (λ c, match c with pd.VDate d => d <=? end_ | _ => false end)).
  2:{ apply Forall_fmap, Forall_forall. intros r Hr%list_elem_of_In. unfold compose.
      apply Hrows in Hr as [Hr _]%andb_true_iff. unfold spec.cell_of in Hr.
      by destruct (default pd.VNone (r !! "date")) as [| |[]| | |]. }
  step_ok.
  rewrite (series_ge_Ok _ (pd.VInt threshold)
             (λ c, match pd.as_float c with
                   | Some y => float_le (float_of_Z threshold) y
                   | None => false
                   end)).
  2:{ apply Forall_fmap, Forall_forall. intros r Hr%list_elem_of_In. unfold compose.
      apply Hrows in Hr as [_ Hr]%andb_true_iff. unfold spec.cell_of in Hr.
      by destruct (default pd.VNone (r !! "score")) as [| |[]| | |]. }
  step_ok. by eexists.
Qed.

(** X9 (the filter of the main content).  On any collection, the filter
    succeeds exactly when the collection has the two columns with dates that
    are calendar dates or missing and scores that are numbers or missing; it
    then returns, in their order, the posts with a date in the range (both
    ends included) and a score that reaches the minimum.  A post without a
    date or without a score is never returned. *)
Theorem filtered_df_characterised (df out : pd.DataFrame) (start end_ threshold : Z) :
  app.filtered_df df (start, end_) threshold = Ok out ↔
  spec.filterable df = true ∧
  out = pd.mkDataFrame (pd.columns df)
          (List.filter (spec.kept start end_ threshold) (pd.rows df)).
Proof.
  split; [apply filtered_df_Ok_inv|].
  intros [Hfilterable ->].
  destruct (filtered_df_filterable df start end_ threshold Hfilterable) as [out Hout].
  by destruct (filtered_df_Ok_inv _ _ _ _ _ Hout) as [_ <-].
Qed.

Lemma inverted_range_kept (start end_ threshold : Z) (rows : list (gmap string pd.cell)) :
  end_ < start → List.filter (spec.kept start end_ threshold) rows = [].
Proof.
  intros Hinverted. apply stdlib_filter_none, Forall_forall. intros r _.
  unfold spec.kept.
  destruct (spec.cell_of "date" r); try done.
  destruct (pd.as_float _); [|done].
  destruct (start <=? day) eqn:Hlo; [|done]. destruct (day <=? end_) eqn:Hhi; [|done].
  apply Z.leb_le in Hlo, Hhi. lia.
Qed.

(** X10 (the filter, [apply_date_range]).  With a start date after the end
    date the filter, when it succeeds, returns no post at all, whatever the
    collection and the minimum score. *)
Theorem inverted_range_keeps_nothing (df out : pd.DataFrame) (start end_ threshold : Z) :
  end_ < start →
  app.filtered_df df (start, end_) threshold = Ok out →
  pd.rows out = [] ∧ pd.empty out = true.
Proof.
  intros Hinverted [_ ->]%filtered_df_Ok_inv.
  assert (Hnone : List.filter (spec.kept start end_ threshold) (pd.rows df) = []).
  { apply stdlib_filter_none, Forall_forall. intros r _. unfold spec.kept.
    destruct (spec.cell_of "date" r); try done.
    destruct (pd.as_float _); [|done].
    destruct (start <=? day) eqn:Hlo; [|done]. destruct (day <=? end_) eqn:Hhi; [|done].
    apply Z.leb_le in Hlo, Hhi. lia. }
  cbn. rewrite Hnone. by unfold pd.empty.
Qed.

Lemma inverted_range_keeps_nothing_sample :
  738000 < 738002 ∧
  ∃ out, app.filtered_df sample.processed (738002, 738000) 0 = Ok out ∧
         pd.rows out = [] ∧ pd.empty out = true.
Proof.
  split; [lia|]. eexists. split; [vm_compute; reflexivity|].
  apply (inverted_range_keeps_nothing sample.processed _ 738002 738000 0).
  - lia.
  - vm_compute; reflexivity.
Defined.

Lemma filterable_filter (df : pd.DataFrame) (f : gmap string pd.cell → bool) :
  spec.filterable df = true →
  spec.filterable (pd.mkDataFrame (pd.columns df) (List.filter f (pd.rows df))) = true.
Proof.
  unfold spec.filterable. rewrite !andb_true_iff, !forallb_forall. cbn.
  intros [Hcols Hrows]. split; [done|]. intros r [Hr _]%filter_In. auto.
Qed.

(** X11 (the filter).  Filtering what a filter returned, with a range inside
    the first range and a minimum score at least as high, gives what the
    narrower filter gives on the whole collection; with the same range and
    minimum it changes nothing. *)
Theorem filter_of_filtered (df wide : pd.DataFrame)
    (start end_ threshold start' end_' threshold' : Z) :
  start ≤ start' → end_' ≤ end_ → threshold ≤ threshold' →
  app.filtered_df df (start, end_) threshold = Ok wide →
  app.filtered_df wide (start', end_') threshold'
  = app.filtered_df df (start', end_') threshold' ∧
  app.filtered_df wide (start, end_) threshold = Ok wide.
Proof.
  intros Hstart Hend Hthreshold [Hfilterable ->]%filtered_df_Ok_inv.
  assert (Hnarrow : ∀ s e t, start ≤ s → e ≤ end_ → threshold ≤ t →
            app.filtered_df
              (pd.mkDataFrame (pd.columns df)
                 (List.filter (spec.kept start end_ threshold) (pd.rows df))) (s, e) t
            = app.filtered_df df (s, e) t).
  { intros s e t Hs He Ht.
    destruct (filtered_df_filterable _ s e t
                (filterable_filter df (spec.kept start end_ threshold) Hfilterable))
      as [narrow Hnarrow].
    destruct (filtered_df_filterable df s e t Hfilterable) as [narrow' Hnarrow'].
    rewrite Hnarrow, Hnarrow'. f_equal.
    apply filtered_df_Ok_inv in Hnarrow as [_ ->].
    apply filtered_df_Ok_inv in Hnarrow' as [_ ->]. cbn. f_equal.
    rewrite stdlib_filter_filter. apply List.filter_ext. intros r.
    unfold spec.kept.
    destruct (spec.cell_of "date" r) as [| | | |d|]; try done.
    destruct (pd.as_float _) as [x|]; [|done].
    destruct ((s <=? d) && (d <=? e) && float_le (float_of_Z t) x) eqn:Hin;
      [|by rewrite andb_false_r].
    rewrite andb_true_r.
    apply andb_true_iff in Hin as [[Hlo%Z.leb_le Hhi%Z.leb_le]%andb_true_iff Hscore].
    rewrite !andb_true_iff, !Z.leb_le. split; [lia|].
    destruct x as [q| | |]; try done. cbn in *.
    apply Qle_bool_iff. apply Qle_bool_iff in Hscore.
    eapply Qle_trans; [|exact Hscore]. unfold Qle. cbn. lia. }
  split; [by apply Hnarrow|].
  rewrite Hnarrow by lia.
  destruct (filtered_df_filterable df start end_ threshold Hfilterable) as [out Hout].
  rewrite Hout. by apply filtered_df_Ok_inv in Hout as [_ ->].
Qed.

Lemma filter_of_filtered_sample :
  0 ≤ 738001 ∧ 738002 ≤ 800000 ∧ 0 ≤ 6 ∧
  ∃ wide,
    app.filtered_df sample.processed (0, 800000) 0 = Ok wide ∧
    app.filtered_df wide (738001, 738002) 6
    = app.filtered_df sample.processed (738001, 738002) 6 ∧
    app.filtered_df wide (0, 800000) 0 = Ok wide.
Proof.
  split; [lia|]. split; [lia|]. split; [lia|].
  eexists. split; [vm_compute; reflexivity|].
  apply (filter_of_filtered sample.processed _ 0 800000 0 738001 738002 6); try lia.
  vm_compute; reflexivity.
Defined.

(** ** C5: a start date after the end date *)

(** The fetch button validates the picked range: with the start after the
    end it shows the validation error, loads nothing and the main content
    shows no filtered result. *)
Lemma fetch_button_rejects_inverted_range (lib : py.Library)
    (parse_datetime : string → option (Z * Z))
    (vectorizer : option (list pd.cell → result (list string)))
    (fails : io_call → bool) (now : string)
    (w : app.Widgets) (s : app.SessionState) (world : World) (d0 d1 : Z) :
  app.event w = app.FetchPressed → app.selected_dates w = [d0; d1] → d1 < d0 →
  ∃ s',
    app.script lib parse_datetime vectorizer fails now w s world
      = (app.mkPage [(app.error, app.StartBeforeEnd)] app.Welcome, s', world) ∧
    app.data_ready s' = false.
Proof.
  intros Hevent Hpicked Hlt.
  unfold app.script, app.sidebar, app.fetch_button, app.validate_inputs.
  rewrite Hevent, Hpicked. cbn.
  apply Z.ltb_lt in Hlt. rewrite Hlt. cbn.
  eexists. split; reflexivity.
Qed.

(** The Apply button takes whatever range the picker holds: the run shows no
    message, and the applied range is the picked one, whatever its order. *)
Lemma apply_never_validates (lib : py.Library)
    (parse_datetime : string → option (Z * Z))
    (vectorizer : option (list pd.cell → result (list string)))
    (fails : io_call → bool) (now : string)
    (w : app.Widgets) (s : app.SessionState) (world : World) :
  app.event w = app.ApplyPressed →
  app.indicators (app.script lib parse_datetime vectorizer fails now w s world).1.1 = [] ∧
  app.applied_dates (app.script lib parse_datetime vectorizer fails now w s world).1.2
    = app.temp_dates s.
Proof.
  intros Hevent. unfold app.script, app.sidebar. rewrite Hevent.
  destruct (app.main_content _ _ _ _ _ _ _) as [m world'] eqn:Hmain.
  destruct (app.selected_dates w) as [|d0 [|d1 [|d2 picked]]]; cbn; by split.
Qed.

(** A failed fetch returns the frame without columns, which the fetch
    button reports as invalid data. *)
Example failed_fetch_reported :
  ∃ s',
    app.script ascii_text.library sample.no_parser None sample.no_faults "2024-01-01 00:00"
      (app.mkWidgets app.FetchRedditData "python" reddit_fetch.empty_frame None
         [app.default_start; sample.today] [] app.HighestScore 10 app.FetchPressed)
      (app.initial_state sample.today) sample.fresh_world
    = (app.mkPage [(app.error, app.InvalidRedditFormat)] app.Welcome, s',
       sample.fresh_world).
Proof. eexists. vm_compute. reflexivity. Qed.

(** C5, on the Apply path.  The date picker left a range whose start is
    after its end in the session, and Apply is pressed.  [validate_inputs]
    would reject this very range, but the callback does not call it: the run
    shows no message and the inverted range becomes the applied range as it
    is, neither refused nor swapped.  The main content then is what the
    filter makes of that range: without loaded data the welcome page, with
    loaded data a filtered result without any post under the no-posts-match
    warning (or the exception of a collection the filter cannot read). *)
Theorem apply_accepts_inverted_range (lib : py.Library)
    (parse_datetime : string → option (Z * Z))
    (vectorizer : option (list pd.cell → result (list string)))
    (fails : io_call → bool) (now : string)
    (w : app.Widgets) (s : app.SessionState) (world : World) :
  app.event w = app.ApplyPressed →
  (app.temp_dates s).2 < (app.temp_dates s).1 →
  ∃ page s',
    app.script lib parse_datetime vectorizer fails now w s world = (page, s', world) ∧
    app.validate_inputs s = [app.StartBeforeEnd] ∧
    app.indicators page = [] ∧
    app.applied_dates s' = app.temp_dates s ∧
    match app.fetch_clicked s && app.data_ready s, app.original_df s with
    | true, Some original =>
        match app.filtered_df original (app.temp_dates s) (app.min_score s) with
        | Ok filtered =>
            app.main page = app.Dashboard filtered (app.Warned app.NoPostsMatch) ∧
            pd.rows filtered = []
        | Raise e => app.main page = app.Uncaught e
        end
    | _, _ => app.main page = app.Welcome
    end.
Proof.
  intros Hevent Hinverted.
  assert (Hvalidate : app.validate_inputs s = [app.StartBeforeEnd]).
  { unfold app.validate_inputs. by apply Z.ltb_lt in Hinverted as ->. }
  set (s' := (app.sidebar parse_datetime w s).1).
  assert (Hside : app.sidebar parse_datetime w s = (s', [])).
  { subst s'. unfold app.sidebar. rewrite Hevent.
    by destruct (app.selected_dates w) as [|d0 [|d1 [|d2 picked]]]. }
  assert (Hs' : app.applied_dates s' = app.temp_dates s ∧
                app.fetch_clicked s' = app.fetch_clicked s ∧
                app.data_ready s' = app.data_ready s ∧
                app.original_df s' = app.original_df s ∧
                app.min_score s' = app.min_score s).
  { subst s'. unfold app.sidebar. rewrite Hevent.
    by destruct (app.selected_dates w) as [|d0 [|d1 [|d2 picked]]]. }
  destruct Hs' as (Happlied & Hclicked & Hready & Horiginal & Hmin).
  unfold app.script. rewrite Hside. unfold app.main_content.
  rewrite Hclicked, Hready, Horiginal, Happlied, Hmin.
  destruct (app.fetch_clicked s && app.data_ready s);
    [|by eexists _, _].
  destruct (app.original_df s) as [original|]; [|by eexists _, _].
  destruct (app.temp_dates s) as [start end_] eqn:Htemp. cbn [fst snd] in Hinverted.
  destruct (app.filtered_df original (start, end_) (app.min_score s))
    as [filtered|e] eqn:Hfilter; [|by eexists _, _].
  apply filtered_df_Ok_inv in Hfilter as [_ ->].
  rewrite inverted_range_kept by done.
  assert (Hempty : pd.empty (pd.mkDataFrame (pd.columns original) []) = true)
    by by unfold pd.empty.
  rewrite Hempty. by eexists _, _.
Qed.

(** Two runs from the initial state: the picker is set to the days 738002
    and 738000, in this order, then Apply is pressed. *)
Lemma apply_accepts_inverted_range_sample :
  let picked :=
    (app.sidebar sample.no_parser (sample.widgets app.Rerun [738002; 738000])
       (app.initial_state sample.today)).1 in
  app.temp_dates picked = (738002, 738000) ∧
  ∃ page s',
    app.script ascii_text.library sample.no_parser None sample.no_faults
      "2024-01-01 00:00" (sample.widgets app.ApplyPressed [738002; 738000])
      picked sample.fresh_world = (page, s', sample.fresh_world) ∧
    app.validate_inputs picked = [app.StartBeforeEnd] ∧
    app.indicators page = [] ∧
    app.applied_dates s' = (738002, 738000) ∧
    app.main page = app.Welcome.
Proof.
  intros picked. split; [reflexivity|].
  destruct (apply_accepts_inverted_range ascii_text.library sample.no_parser None
              sample.no_faults "2024-01-01 00:00"
              (sample.widgets app.ApplyPressed [738002; 738000]) picked
              sample.fresh_world)
    as (page & s' & Hrun & Hvalidate & Hshown & Happlied & Hmain);
    [reflexivity|vm_compute; reflexivity|].
  exists page, s'. repeat split; assumption.
Defined.

(** The same press on a session that holds the three sample posts: the
    filter runs on the inverted range and keeps nothing. *)
Example apply_on_loaded_session :
  ∃ filtered s',
    app.script ascii_text.library sample.no_parser None sample.no_faults
      "2024-01-01 00:00" (sample.widgets app.ApplyPressed [738002; 738000])
      (sample.loaded (738002, 738000) 0) sample.fresh_world
    = (app.mkPage [] (app.Dashboard filtered (app.Warned app.NoPostsMatch)), s',
       sample.fresh_world) ∧
    pd.rows filtered = [].
Proof. eexists _, _. split; vm_compute; reflexivity. Qed.

(** ** C6 and C10: which posts a keyword list selects *)

Lemma existsb_filter {A} (f : A → bool) (l : list A) :
  existsb f l = match List.filter f l with [] => false | _ => true end.
Proof. induction l as [|x l IH]; [done|]. cbn. by destruct (f x). Qed.

Lemma series_mean_Ok (s : list pd.cell) :
  Forall (λ c, match c with
               | pd.VInt _ | pd.VFloat _ | pd.VNone => True
               | _ => False
               end) s →
  ∃ mean, pd.series_mean s = Ok mean.
Proof.
  intros Hs. unfold pd.series_mean.
  rewrite (mapM_Ok _ (λ c, match c with
                           | pd.VInt n => float_of_Z n
                           | pd.VFloat x => x
                           | _ => NaN
                           end)).
  - step_ok. destruct (List.filter _ _); by eexists.
  - eapply Forall_impl; [exact Hs|]. by intros [].
Qed.

Lemma sample_records_Ok (posts : pd.DataFrame) :
  "title" ∈ pd.columns posts → "sentiment_compound" ∈ pd.columns posts →
  ∃ sample, pd.records ["title"; "sentiment_compound"] (pd.head 3 posts) = Ok sample.
Proof.
  intros Htitle Hcompound. unfold pd.records. cbn [pd.head pd.columns List.find].
  rewrite !bool_decide_eq_true_2 by done. cbn. by eexists.
Qed.

Lemma analysable_filter (frame : pd.DataFrame) (f : gmap string pd.cell → bool) :
  spec.analysable frame = true →
  spec.analysable (pd.mkDataFrame (pd.columns frame) (List.filter f (pd.rows frame)))
  = true.
Proof.
  unfold spec.analysable. rewrite !andb_true_iff, !forallb_forall. cbn [pd.columns pd.rows].
  intros [Hcols Hrows]. split; [done|]. intros r [Hr _]%filter_In. auto.
Qed.

Section taggers.
Variable lib : py.Library.

(** [df[df["title"].str.contains(pat, case=False, na=False)]]: the posts
    whose title matches, or the error of the pattern. *)
Lemma title_filter (frame : pd.DataFrame) (pat : string) :
  "title" ∈ pd.columns frame →
  (titles ← pd.getitem frame "title";
   mask ← pd.str_contains lib titles pat;
   Ok (pd.loc frame mask))
  = (found ← py.re_search_ignorecase lib pat;
     Ok (pd.mkDataFrame (pd.columns frame)
           (List.filter (spec.matches lib pat) (pd.rows frame)))).
Proof.
  intros Htitle. rewrite getitem_Ok by done. step_ok. unfold pd.str_contains.
  destruct (py.re_search_ignorecase lib pat) as [found|e] eqn:Hfound; [|done].
  step_ok. rewrite <- list_fmap_compose, loc_fmap. do 2 f_equal.
  apply List.filter_ext. intros r. unfold compose, spec.matches, spec.title_of.
  rewrite Hfound. by destruct (r !! "title") as [[]|].
Qed.

Lemma title_filter_inv (frame out : pd.DataFrame) (pat : string) :
  (titles ← pd.getitem frame "title";
   mask ← pd.str_contains lib titles pat;
   Ok (pd.loc frame mask)) = Ok out →
  "title" ∈ pd.columns frame ∧
  out = pd.mkDataFrame (pd.columns frame)
          (List.filter (spec.matches lib pat) (pd.rows frame)).
Proof.
  intros H. destruct (decide ("title" ∈ pd.columns frame)) as [Htitle|Htitle].
  - split; [done|]. rewrite title_filter in H by done.
    destruct (py.re_search_ignorecase lib pat); [|done]. by injection H as <-.
  - by rewrite (getitem_KeyError _ _ Htitle) in H.
Qed.

(** The search-term filter of [get_morocco_metrics]. *)
Lemma search_stage (frame : pd.DataFrame) (search_term : option string) :
  "title" ∈ pd.columns frame →
  (if py.truthy search_term then
     titles ← pd.getitem frame "title";
     mask ← pd.str_contains lib titles (default "" search_term);
     Ok (pd.loc frame mask)
   else Ok frame)
  = spec.searched lib search_term frame.
Proof.
  intros Htitle. unfold spec.searched. destruct (py.truthy search_term); [|done].
  rewrite title_filter by done.
  destruct (py.re_search_ignorecase lib (default "" search_term)) as [found|e] eqn:Hfound;
    [|done].
  step_ok. do 2 f_equal. apply List.filter_ext. intros r.
  unfold spec.matches. by rewrite Hfound.
Qed.

Lemma searched_inv (frame posts : pd.DataFrame) (search_term : option string) :
  spec.searched lib search_term frame = Ok posts →
  posts = pd.mkDataFrame (pd.columns frame)
            (List.filter (spec.passes_search lib search_term) (pd.rows frame)).
Proof.
  unfold spec.searched, spec.passes_search.
  destruct (py.truthy search_term).
  - destruct (py.re_search_ignorecase lib (default "" search_term)) as [found|e] eqn:Hfound;
      [|done].
    step_ok. intros [= <-]. f_equal. apply List.filter_ext. intros r.
    unfold spec.matches. by rewrite Hfound.
  - intros [= <-]. rewrite stdlib_filter_true by done. by destruct frame.
Qed.

(** *** [analyze_industries] *)

Lemma industry_posts_inv (frame posts : pd.DataFrame) (terms : list string)
    (search_term : option string) :
  industry_analysis.industry_posts lib frame terms search_term = Ok posts →
  "title" ∈ pd.columns frame ∧
  posts = pd.mkDataFrame (pd.columns frame)
            (List.filter (spec.industry_selects lib terms search_term) (pd.rows frame)).
Proof.
  unfold industry_analysis.industry_posts. intros H.
  destruct (decide ("title" ∈ pd.columns frame)) as [Htitle|Htitle];
    [|by rewrite (getitem_KeyError _ _ Htitle) in H].
  split; [done|].
  pose proof (title_filter frame (py.join "|" terms) Htitle) as Hfirst.
  destruct (pd.getitem frame "title") as [titles|e]; [|done].
  rewrite bind_Ok in Hfirst, H. cbv beta in Hfirst, H.
  destruct (pd.str_contains lib titles _) as [mask|e]; [|done].
  rewrite bind_Ok in Hfirst, H. cbv beta zeta in Hfirst, H.
  destruct (py.re_search_ignorecase lib (py.join "|" terms)) as [found|e]; [|done].
  rewrite bind_Ok in Hfirst. cbv beta in Hfirst.
  assert (Hloc : pd.loc frame mask
                 = pd.mkDataFrame (pd.columns frame)
                     (List.filter (spec.matches lib (py.join "|" terms)) (pd.rows frame)))
    by congruence.
  rewrite !Hloc in H. clear Hfirst Hloc.
  destruct (py.truthy search_term) eqn:Htruthy.
  - apply title_filter_inv in H as [_ ->]. cbn [pd.rows pd.columns].
    rewrite stdlib_filter_filter. f_equal. apply List.filter_ext. intros r.
    unfold spec.industry_selects, spec.passes_search. by rewrite Htruthy.
  - injection H as <-. f_equal. apply List.filter_ext. intros r.
    unfold spec.industry_selects, spec.passes_search. by rewrite Htruthy, andb_true_r.
Qed.

(** The loop over the mapping: one result for every category that selects
    a post, in the order of the mapping. *)
Lemma analyze_loop_results (industries : list (string * list string))
    (frame : pd.DataFrame) (search_term : option string)
    (results : list industry_analysis.IndustryResult) :
  industry_analysis.analyze_loop lib industries frame search_term = Ok results →
  Forall2
    (λ it res,
       let selected := List.filter (spec.industry_selects lib it.2 search_term)
                         (pd.rows frame) in
       industry_analysis.Industry res = it.1 ∧
       industry_analysis.Posts res = length selected ∧
       (0 < industry_analysis.Posts res ≤ pd.len frame)%nat ∧
       (compound ← pd.getitem (pd.mkDataFrame (pd.columns frame) selected)
                     "sentiment_compound";
        pd.series_mean compound) = Ok (industry_analysis.Avg_Sentiment res))
    (List.filter
       (λ it, existsb (spec.industry_selects lib it.2 search_term) (pd.rows frame))
       industries)
    results.
Proof.
  revert results. induction industries as [|[ind terms] rest IH]; intros results.
  { intros [= <-]. constructor. }
  cbn [industry_analysis.analyze_loop List.filter].
  destruct (industry_analysis.industry_posts lib frame terms search_term)
    as [posts|e] eqn:Hposts; [|done].
  apply industry_posts_inv in Hposts as [Htitle ->]. step_ok.
  rewrite nonempty_frame_not_empty by done.
  cbn [snd]. rewrite existsb_filter.
  destruct (List.filter _ (pd.rows frame)) as [|r0 selected] eqn:Hselected.
  - step_ok.
    destruct (industry_analysis.analyze_loop lib rest frame search_term) as [others|e];
      [|done].
    step_ok. intros [= <-]. by apply IH.
  - destruct (pd.getitem _ "sentiment_compound") as [compound|e] eqn:Hget; [|done]. step_ok.
    destruct (pd.series_mean compound) as [avg|e] eqn:Hmean; [|done]. step_ok.
    destruct (industry_analysis.analyze_loop lib rest frame search_term) as [others|e];
      [|done].
    step_ok. intros [= <-]. cbn [app]. constructor; [|by apply IH].
    cbv zeta. cbn [fst snd industry_analysis.Industry industry_analysis.Posts
                   industry_analysis.Avg_Sentiment].
    rewrite Hselected. split; [done|]. split; [done|]. split.
    + unfold pd.len at 1. cbn [pd.rows]. split; [cbn; lia|].
      rewrite <- Hselected. unfold pd.len. apply filter_length_le.
    + by rewrite Hget, bind_Ok.
Qed.

(** The categories in the result of the loop are those that select one post
    at least. *)
Lemma analyze_loop_names (industries : list (string * list string))
    (frame : pd.DataFrame) (search_term : option string)
    (results : list industry_analysis.IndustryResult) :
  industry_analysis.analyze_loop lib industries frame search_term = Ok results →
  ∀ industry,
    (∃ res, res ∈ results ∧ industry_analysis.Industry res = industry) ↔
    (∃ terms, (industry, terms) ∈ industries ∧
              ∃ r, r ∈ pd.rows frame ∧
                   spec.industry_selects lib terms search_term r = true).
Proof.
  intros Hloop%analyze_loop_results industry. split.
  - intros (res & [i Hi]%list_elem_of_lookup & Hname).
    destruct (Forall2_lookup_r _ _ _ _ _ Hloop Hi) as ([ind terms] & Hit & Hind & _).
    cbn in Hind.
    apply list_elem_of_lookup_2, list_elem_of_In, filter_In in Hit as [Hin Hsel].
    cbn in Hsel. apply existsb_exists in Hsel as (r & Hr & Hsel).
    exists terms. split; [apply list_elem_of_In; congruence|].
    exists r. by rewrite list_elem_of_In.
  - intros (terms & Hin & r & Hr & Hsel).
    assert (Hkept : (industry, terms)
                    ∈ List.filter
                        (λ it, existsb (spec.industry_selects lib it.2 search_term)
                                 (pd.rows frame)) industries).
    { apply list_elem_of_In, filter_In. split; [by apply list_elem_of_In|].
      cbn. apply existsb_exists. exists r. by rewrite <- list_elem_of_In. }
    apply list_elem_of_lookup in Hkept as [i Hi].
    destruct (Forall2_lookup_l _ _ _ _ _ Hloop Hi) as (res & Hres & Hind & _).
    exists res. split; [by apply list_elem_of_lookup_2 in Hres|done].
Qed.

(** *** [get_morocco_metrics] *)

Lemma best_top_keywords_Ok (vectorizer : option (list pd.cell → result (list string)))
    (posts : pd.DataFrame) :
  "title" ∈ pd.columns posts →
  ∃ names, morocco_analysis.best_top_keywords lib vectorizer posts = Ok names.
Proof.
  intros Htitle. unfold morocco_analysis.best_top_keywords.
  rewrite getitem_Ok by done.
  destruct vectorizer as [fit|]; rewrite !bind_Ok; [|by eexists].
  destruct (fit (morocco_analysis.fillna_empty _)); by eexists.
Qed.

(** What follows the two filters: nothing for a collection without posts,
    else the metrics of the collection. *)
Lemma metrics_of_posts (vectorizer : option (list pd.cell → result (list string)))
    (posts : pd.DataFrame) (res : option morocco_analysis.Metrics) :
  "title" ∈ pd.columns posts →
  (if pd.empty posts then Ok None
   else
     top_keywords ← morocco_analysis.best_top_keywords lib vectorizer posts;
     compound ← pd.getitem posts "sentiment_compound";
     avg ← pd.series_mean compound;
     sample ← pd.records ["title"; "sentiment_compound"] (pd.head 3 posts);
     Ok (Some (morocco_analysis.mkMetrics posts avg (pd.len posts) top_keywords sample)))
  = Ok res →
  match res with
  | None => pd.rows posts = []
  | Some m => pd.rows posts ≠ [] ∧ spec.metrics_over lib vectorizer posts m
  end.
Proof.
  intros Htitle. destruct posts as [cols rows]. cbn [pd.columns] in Htitle.
  rewrite nonempty_frame_not_empty by done.
  destruct rows as [|p0 ps]; [by intros [= <-]|].
  destruct (morocco_analysis.best_top_keywords _ _ _) as [names|e] eqn:Hnames; [|done].
  step_ok.
  destruct (pd.getitem _ "sentiment_compound") as [compound|e] eqn:Hget; [|done]. step_ok.
  destruct (pd.series_mean compound) as [mean|e] eqn:Hmean; [|done]. step_ok.
  destruct (pd.records _ _) as [sample|e] eqn:Hsample; [|done]. step_ok.
  intros [= <-]. split; [done|]. unfold spec.metrics_over.
  cbn [morocco_analysis.morocco_posts morocco_analysis.post_count
       morocco_analysis.sample_posts morocco_analysis.avg_sentiment
       morocco_analysis.top_keywords].
  split; [done|]. split; [done|]. split; [by rewrite Hget, bind_Ok|]. split; [done|].
  apply records_Ok_inv in Hsample as [_ ->]. cbn [pd.head pd.rows].
  apply list_fmap_ext. intros i r _. cbn. by rewrite insert_empty.
Qed.

Lemma metrics_of_posts_Ok (vectorizer : option (list pd.cell → result (list string)))
    (posts : pd.DataFrame) :
  spec.analysable posts = true → pd.rows posts ≠ [] →
  ∃ m,
    (if pd.empty posts then Ok None
     else
       top_keywords ← morocco_analysis.best_top_keywords lib vectorizer posts;
       compound ← pd.getitem posts "sentiment_compound";
       avg ← pd.series_mean compound;
       sample ← pd.records ["title"; "sentiment_compound"] (pd.head 3 posts);
       Ok (Some (morocco_analysis.mkMetrics posts avg (pd.len posts) top_keywords
                   sample)))
    = Ok (Some m).
Proof.
  unfold spec.analysable. rewrite !andb_true_iff, !bool_decide_eq_true, forallb_forall.
  intros [[Htitle Hcompound] Hcells] Hrows.
  assert (pd.empty posts = false) as ->.
  { destruct posts as [cols rows]. cbn in Htitle, Hrows.
    rewrite nonempty_frame_not_empty by done. by destruct rows. }
  destruct (best_top_keywords_Ok vectorizer posts Htitle) as [names ->]. step_ok.
  rewrite (getitem_Ok posts "sentiment_compound") by done. step_ok.
  destruct (series_mean_Ok ((λ r, default pd.VNone (r !! "sentiment_compound"))
                              <$> pd.rows posts)) as [mean ->].
  { apply Forall_fmap, Forall_forall. intros r Hr%list_elem_of_In%Hcells.
    apply andb_true_iff in Hr as [_ Hr]. cbn. by destruct (default pd.VNone _). }
  step_ok.
  destruct (sample_records_Ok posts Htitle Hcompound) as [sample ->]. step_ok.
  by eexists.
Qed.

Lemma get_morocco_metrics_inv
    (vectorizer : option (list pd.cell → result (list string)))
    (frame : pd.DataFrame) (keywords : list string) (search_term : option string)
    (res : option morocco_analysis.Metrics) :
  "title" ∈ pd.columns frame →
  morocco_analysis.get_morocco_metrics lib vectorizer frame keywords search_term = Ok res →
  let selected := List.filter (spec.morocco_selects lib keywords search_term)
                    (pd.rows frame) in
  match res with
  | None => selected = []
  | Some m =>
      selected ≠ [] ∧
      spec.metrics_over lib vectorizer (pd.mkDataFrame (pd.columns frame) selected) m
  end.
Proof.
  intros Htitle. cbv zeta. unfold morocco_analysis.get_morocco_metrics.
  destruct (pd.empty frame) eqn:Hempty.
  { intros [= <-]. destruct frame as [cols rows]. cbn [pd.columns] in Htitle.
    rewrite nonempty_frame_not_empty in Hempty by done. by destruct rows. }
  rewrite search_stage by done.
  destruct (spec.searched lib search_term frame) as [posts|e] eqn:Hsearch; [|done].
  apply searched_inv in Hsearch as ->. step_ok.
  destruct keywords as [|k keywords].
  - step_ok. intros H. apply metrics_of_posts in H; [|done].
    cbn [pd.rows] in H.
    assert (Hsame : List.filter (spec.morocco_selects lib [] search_term) (pd.rows frame)
                    = List.filter (spec.passes_search lib search_term) (pd.rows frame)).
    { apply List.filter_ext. intros r. unfold spec.morocco_selects. apply andb_true_r. }
    by rewrite Hsame.
  - destruct (titles ← pd.getitem _ "title"; _) as [kept|e] eqn:Hkept; [|done].
    apply title_filter_inv in Hkept as [_ ->]. cbn [pd.rows pd.columns]. step_ok.
    rewrite stdlib_filter_filter.
    intros H. apply metrics_of_posts in H; [|done]. exact H.
Qed.

End taggers.

(** The dashboard's Morocco tab renders nothing for an empty keyword list:
    it returns before [get_morocco_metrics] is reached. *)
Lemma render_morocco_analysis_no_keywords (lib : py.Library)
    (vectorizer : option (list pd.cell → result (list string)))
    (frame : pd.DataFrame) (search_term : option string) :
  morocco_analysis.render_morocco_analysis lib vectorizer frame [] search_term
  = Ok morocco_analysis.NothingRendered.
Proof. reflexivity. Qed.

(** In ASCII text the empty pattern is found in every title. *)
Lemma ascii_empty_pattern :
  ∃ found, py.re_search_ignorecase ascii_text.library "" = Ok found ∧
           ∀ title, found title = true.
Proof. eexists. split; [reflexivity|]. intros title. cbn. by destruct title. Qed.

(** A category with an empty keyword list, and [get_morocco_metrics] with an
    empty keyword list, on the three sample posts: the category is in the
    output with all three posts, and the metrics are those of the three
    posts. *)
Lemma empty_keyword_set_is_present :
  (∃ avg,
     industry_analysis.analyze_industries_in ascii_text.library [("Misc", [])]
       sample.processed None
     = Ok (Some [industry_analysis.mkIndustryResult "Misc" 3 avg])) ∧
  (∃ m,
     morocco_analysis.get_morocco_metrics ascii_text.library None sample.processed [] None
       = Ok (Some m) ∧
     morocco_analysis.post_count m = 3%nat).
Proof.
  split; [eexists; vm_compute; reflexivity|].
  eexists. split; [vm_compute; reflexivity|reflexivity].
Qed.

(** C6, as the code has it.  For a collection with a title column and a
    mapping without a repeated category, whatever the text library: when
    [analyze_industries] returns its table, a category has an entry exactly
    when one post at least is selected for it, and [get_morocco_metrics],
    when it returns, returns metrics exactly when one post at least is
    selected.  A post is selected when its title is text in which the
    pattern of the terms is found, letter case ignored (the terms joined by
    a bar; for the Morocco keywords each one escaped first), and the search
    term too when one is given.  An empty term list is no reason for
    absence: it gives the empty pattern, and where the library finds the
    empty pattern in every text, it selects every post with a text title
    that passes the search term (in [get_morocco_metrics] no pattern is
    built and it selects every post that passes the search term). *)
Theorem tagging_presence (lib : py.Library)
    (vectorizer : option (list pd.cell → result (list string)))
    (industries : list (string * list string)) (keywords : list string)
    (frame : pd.DataFrame) (search_term : option string) :
  "title" ∈ pd.columns frame →
  NoDup (industries.*1) →
  (∀ results,
     industry_analysis.analyze_industries_in lib industries frame search_term
       = Ok (Some results) →
     ∀ industry terms, (industry, terms) ∈ industries →
       ((∃ res, res ∈ results ∧ industry_analysis.Industry res = industry) ↔
        (∃ r, r ∈ pd.rows frame ∧
              spec.industry_selects lib terms search_term r = true))) ∧
  (∀ res,
     morocco_analysis.get_morocco_metrics lib vectorizer frame keywords search_term
       = Ok res →
     (is_Some res ↔
      ∃ r, r ∈ pd.rows frame ∧
           spec.morocco_selects lib keywords search_term r = true)) ∧
  ((∃ found, py.re_search_ignorecase lib "" = Ok found ∧ ∀ title, found title = true) →
   ∀ r,
     spec.industry_selects lib [] search_term r
     = match spec.title_of r with Some _ => true | None => false end
       && spec.passes_search lib search_term r ∧
     spec.morocco_selects lib [] search_term r = spec.passes_search lib search_term r).
Proof.
  intros Htitle Hnodup. split; [|split].
  - intros results. unfold industry_analysis.analyze_industries_in.
    destruct (pd.empty frame); [done|].
    destruct (industry_analysis.analyze_loop _ _ _ _) as [results'|e] eqn:Hloop; [|done].
    intros [= <-] industry terms Hin.
    rewrite (analyze_loop_names _ _ _ _ _ Hloop industry).
    split.
    + intros (terms' & Hin' & Hr).
      by rewrite (NoDup_fst_unique _ _ _ _ Hnodup Hin Hin').
    + intros Hr. by exists terms.
  - intros res Hres.
    pose proof (get_morocco_metrics_inv lib vectorizer frame keywords search_term res
                  Htitle Hres) as Hinv.
    cbv zeta in Hinv. rewrite <- stdlib_filter_nonempty.
    destruct res as [m|].
    + destruct Hinv as [Hsome _]. split; [done|]. by intros _.
    + rewrite Hinv. split; [by intros [? [=]]|done].
  - intros (found & Hfound & Hall) r. split.
    + unfold spec.industry_selects, spec.matches. cbn [py.join]. rewrite Hfound.
      destruct (spec.title_of r); [by rewrite Hall|done].
    + unfold spec.morocco_selects. apply andb_true_r.
Qed.

Lemma tagging_presence_sample :
  ∃ results,
    industry_analysis.analyze_industries_in ascii_text.library
      [("Misc", []); ("Tech", ["AI"; "software"])] sample.processed None
      = Ok (Some results) ∧
    ((∃ res, res ∈ results ∧ industry_analysis.Industry res = "Misc") ↔
     (∃ r, r ∈ pd.rows sample.processed ∧
           spec.industry_selects ascii_text.library [] None r = true)) ∧
    ((∃ res, res ∈ results ∧ industry_analysis.Industry res = "Tech") ↔
     (∃ r, r ∈ pd.rows sample.processed ∧
           spec.industry_selects ascii_text.library ["AI"; "software"] None r = true)) ∧
    (∀ r, spec.industry_selects ascii_text.library [] None r
          = match spec.title_of r with Some _ => true | None => false end
            && spec.passes_search ascii_text.library None r).
Proof.
  assert (Hcols : "title" ∈ pd.columns sample.processed) by by_decide.
  assert (Hnodup : NoDup ([("Misc", @nil string); ("Tech", ["AI"; "software"])].*1))
    by by_decide.
  destruct (tagging_presence ascii_text.library None
              [("Misc", []); ("Tech", ["AI"; "software"])] []
              sample.processed None Hcols Hnodup) as (Hindustries & _ & Hempty).
  eexists. split; [vm_compute; reflexivity|].
  split; [|split].
  - apply Hindustries; [vm_compute; reflexivity|by_decide].
  - apply Hindustries; [vm_compute; reflexivity|by_decide].
  - intros r. apply (Hempty ascii_empty_pattern r).
Defined.

(** C10.  On a collection that has posts, text titles and a numeric compound
    column, [get_morocco_metrics] with an empty keyword list applies no
    keyword filter.  Without a search term the metrics are those of the
    whole collection.  With a search term they are those of the posts whose
    title matches it; the call returns nothing only when no title matches,
    and raises only what the search term raises as a pattern.  The metrics
    hold the collection they describe, its size, the mean of its compound
    scores, the keywords of its titles and its first three posts. *)
Theorem empty_keywords_select_every_post (lib : py.Library)
    (vectorizer : option (list pd.cell → result (list string)))
    (frame : pd.DataFrame) (search_term : option string) :
  spec.analysable frame = true → pd.rows frame ≠ [] →
  (py.truthy search_term = false →
   ∃ m, morocco_analysis.get_morocco_metrics lib vectorizer frame [] search_term
          = Ok (Some m) ∧
        spec.metrics_over lib vectorizer frame m) ∧
  match spec.searched lib search_term frame with
  | Raise e =>
      morocco_analysis.get_morocco_metrics lib vectorizer frame [] search_term = Raise e
  | Ok posts =>
      match pd.rows posts with
      | [] =>
          morocco_analysis.get_morocco_metrics lib vectorizer frame [] search_term
          = Ok None
      | _ :: _ =>
          ∃ m, morocco_analysis.get_morocco_metrics lib vectorizer frame [] search_term
                 = Ok (Some m) ∧
               spec.metrics_over lib vectorizer posts m
      end
  end.
Proof.
  intros Hok Hrows.
  assert (Htitle : "title" ∈ pd.columns frame).
  { unfold spec.analysable in Hok.
    rewrite !andb_true_iff, !bool_decide_eq_true in Hok. by destruct Hok as [[? _] _]. }
  assert (Hstages :
    morocco_analysis.get_morocco_metrics lib vectorizer frame [] search_term
    = (posts ← spec.searched lib search_term frame;
       if pd.empty posts then Ok None
       else
         top_keywords ← morocco_analysis.best_top_keywords lib vectorizer posts;
         compound ← pd.getitem posts "sentiment_compound";
         avg ← pd.series_mean compound;
         sample ← pd.records ["title"; "sentiment_compound"] (pd.head 3 posts);
         Ok (Some (morocco_analysis.mkMetrics posts avg (pd.len posts) top_keywords
                     sample)))).
  { unfold morocco_analysis.get_morocco_metrics.
    assert (pd.empty frame = false) as ->.
    { destruct frame as [cols rows]. cbn in Htitle, Hrows.
      rewrite nonempty_frame_not_empty by done. by destruct rows. }
    rewrite search_stage by done.
    by destruct (spec.searched lib search_term frame). }
  assert (Hcases :
    match spec.searched lib search_term frame with
    | Raise e =>
        morocco_analysis.get_morocco_metrics lib vectorizer frame [] search_term = Raise e
    | Ok posts =>
        match pd.rows posts with
        | [] =>
            morocco_analysis.get_morocco_metrics lib vectorizer frame [] search_term
            = Ok None
        | _ :: _ =>
            ∃ m, morocco_analysis.get_morocco_metrics lib vectorizer frame [] search_term
                   = Ok (Some m) ∧
                 spec.metrics_over lib vectorizer posts m
        end
    end).
  { rewrite Hstages.
    destruct (spec.searched lib search_term frame) as [posts|e] eqn:Hsearch; [|done].
    step_ok. pose proof (searched_inv lib _ _ _ Hsearch) as Hposts.
    assert (Hposts_ok : spec.analysable posts = true).
    { rewrite Hposts. by apply analysable_filter. }
    assert (Hposts_title : "title" ∈ pd.columns posts) by by rewrite Hposts.
    destruct (pd.rows posts) as [|p0 ps] eqn:Hkept.
    - assert (pd.empty posts = true) as ->; [|done].
      unfold pd.empty. by rewrite Hkept.
    - destruct (metrics_of_posts_Ok lib vectorizer posts Hposts_ok) as [m Hm].
      { by rewrite Hkept. }
      exists m. split; [done|].
      by apply metrics_of_posts in Hm as [_ Hm]. }
  split; [|exact Hcases].
  intros Htruthy. unfold spec.searched in Hcases. rewrite Htruthy in Hcases.
  by destruct (pd.rows frame).
Qed.

(** The three sample posts: all of them without a search term, the post
    about cats under the search term "like". *)
Lemma empty_keywords_select_every_post_sample :
  (∃ m, morocco_analysis.get_morocco_metrics ascii_text.library None sample.processed
          [] None = Ok (Some m) ∧
        spec.metrics_over ascii_text.library None sample.processed m ∧
        morocco_analysis.post_count m = 3%nat) ∧
  (∃ m, morocco_analysis.get_morocco_metrics ascii_text.library None sample.processed
          [] (Some "like") = Ok (Some m) ∧
        morocco_analysis.post_count m = 1%nat ∧
        morocco_analysis.top_keywords m = ["like"; "cats"]).
Proof.
  split.
  - destruct (empty_keywords_select_every_post ascii_text.library None
                sample.processed None) as [Hall _];
      [vm_compute; reflexivity|done|].
    destruct (Hall eq_refl) as (m & Hm & Hover).
    exists m. split; [done|]. split; [done|].
    destruct Hover as (_ & -> & _). reflexivity.
  - destruct (empty_keywords_select_every_post ascii_text.library None
                sample.processed (Some "like")) as [_ Hsearch];
      [vm_compute; reflexivity|done|].
    assert (Hposts : ∃ posts,
              spec.searched ascii_text.library (Some "like") sample.processed
              = Ok posts ∧ ∃ p, pd.rows posts = [p]).
    { eexists. split; [vm_compute; reflexivity|]. by eexists. }
    destruct Hposts as (posts & Hposts & p & Hrows).
    rewrite Hposts, Hrows in Hsearch. destruct Hsearch as (m & Hm & Hover).
    exists m. split; [done|].
    destruct Hover as (_ & Hcount & _ & Hkeywords & _).
    split.
    + rewrite Hcount. unfold pd.len. by rewrite Hrows.
    + assert (Hvalue : morocco_analysis.best_top_keywords ascii_text.library None posts
                       = Ok ["like"; "cats"]).
      { vm_compute in Hposts. injection Hposts as <-. vm_compute. reflexivity. }
      congruence.
Defined.

(** ** The taggers, post by post *)

(** X28 ([get_morocco_metrics]).  When metrics are returned, they describe
    the selected posts: the kept posts are those that pass the search term
    and match one of the keywords, in the order of the collection; their
    number is the post count, at least 1; the sample is title and compound
    score of the first three; the average is the mean of their compound
    scores and the keywords are computed from their titles.  Each keyword
    is escaped before the pattern is built. *)
Theorem morocco_metrics_describe_selection (lib : py.Library)
    (vectorizer : option (list pd.cell → result (list string)))
    (frame : pd.DataFrame) (keywords : list string) (search_term : option string)
    (m : morocco_analysis.Metrics) :
  "title" ∈ pd.columns frame →
  morocco_analysis.get_morocco_metrics lib vectorizer frame keywords search_term
    = Ok (Some m) →
  let selected := List.filter (spec.morocco_selects lib keywords search_term)
                    (pd.rows frame) in
  morocco_analysis.morocco_posts m = pd.mkDataFrame (pd.columns frame) selected ∧
  morocco_analysis.post_count m = length selected ∧
  (0 < morocco_analysis.post_count m)%nat ∧
  morocco_analysis.sample_posts m
  = (λ r, {[ "title" := spec.cell_of "title" r;
             "sentiment_compound" := spec.cell_of "sentiment_compound" r ]})
      <$> take 3 selected ∧
  (compound ← pd.getitem (morocco_analysis.morocco_posts m) "sentiment_compound";
   pd.series_mean compound) = Ok (morocco_analysis.avg_sentiment m) ∧
  morocco_analysis.best_top_keywords lib vectorizer (morocco_analysis.morocco_posts m)
  = Ok (morocco_analysis.top_keywords m).
Proof.
  intros Htitle Hm. cbv zeta.
  destruct (get_morocco_metrics_inv lib vectorizer frame keywords search_term (Some m)
              Htitle Hm) as (Hsome & Hposts & Hcount & Hmean & Hkeywords & Hsample).
  rewrite Hposts. split; [done|]. split; [done|]. split.
  { rewrite Hcount. unfold pd.len. cbn [pd.rows].
    destruct (List.filter _ _); [done|cbn; lia]. }
  by repeat split.
Qed.

Lemma morocco_metrics_describe_selection_sample :
  ∃ m,
    morocco_analysis.get_morocco_metrics ascii_text.library None sample.processed
      ["C++"; "cats"] (Some "like") = Ok (Some m) ∧
    let selected := List.filter
                      (spec.morocco_selects ascii_text.library ["C++"; "cats"]
                         (Some "like"))
                      (pd.rows sample.processed) in
    morocco_analysis.morocco_posts m
    = pd.mkDataFrame (pd.columns sample.processed) selected ∧
    morocco_analysis.post_count m = length selected ∧
    (0 < morocco_analysis.post_count m)%nat ∧
    morocco_analysis.sample_posts m
    = (λ r, {[ "title" := spec.cell_of "title" r;
               "sentiment_compound" := spec.cell_of "sentiment_compound" r ]})
        <$> take 3 selected ∧
    (compound ← pd.getitem (morocco_analysis.morocco_posts m) "sentiment_compound";
     pd.series_mean compound) = Ok (morocco_analysis.avg_sentiment m) ∧
    morocco_analysis.best_top_keywords ascii_text.library None
      (morocco_analysis.morocco_posts m)
    = Ok (morocco_analysis.top_keywords m).
Proof.
  eexists. split; [vm_compute; reflexivity|].
  apply (morocco_metrics_describe_selection ascii_text.library None sample.processed
           ["C++"; "cats"] (Some "like")).
  - by_decide.
  - vm_compute; reflexivity.
Defined.

(** ** The industries, category by category *)

(** X29 ([analyze_industries]).  The result lists, in the order of the
    mapping, exactly the categories for which a post is selected; for each
    of them the number of posts is the number of selected posts, between 1
    and the size of the collection, and the average is the mean of their
    compound scores. *)
Theorem analyze_industries_results (lib : py.Library)
    (industries : list (string * list string))
    (frame : pd.DataFrame) (search_term : option string)
    (results : list industry_analysis.IndustryResult) :
  industry_analysis.analyze_industries_in lib industries frame search_term
    = Ok (Some results) →
  Forall2
    (λ it res,
       let selected := List.filter (spec.industry_selects lib it.2 search_term)
                         (pd.rows frame) in
       industry_analysis.Industry res = it.1 ∧
       industry_analysis.Posts res = length selected ∧
       (0 < industry_analysis.Posts res ≤ pd.len frame)%nat ∧
       (compound ← pd.getitem (pd.mkDataFrame (pd.columns frame) selected)
                     "sentiment_compound";
        pd.series_mean compound) = Ok (industry_analysis.Avg_Sentiment res))
    (List.filter
       (λ it, existsb (spec.industry_selects lib it.2 search_term) (pd.rows frame))
       industries)
    results.
Proof.
  unfold industry_analysis.analyze_industries_in.
  destruct (pd.empty frame); [done|].
  destruct (industry_analysis.analyze_loop lib industries frame search_term)
    as [found|e] eqn:Hloop; [|done].
  cbn. intros [= <-]. by apply analyze_loop_results.
Qed.

Lemma analyze_industries_results_sample :
  ∃ results,
    industry_analysis.analyze_industries ascii_text.library sample.processed None
      = Ok (Some results) ∧
    Forall2
      (λ it res,
         let selected := List.filter
                           (spec.industry_selects ascii_text.library it.2 None)
                           (pd.rows sample.processed) in
         industry_analysis.Industry res = it.1 ∧
         industry_analysis.Posts res = length selected ∧
         (0 < industry_analysis.Posts res ≤ pd.len sample.processed)%nat ∧
         (compound ← pd.getitem (pd.mkDataFrame (pd.columns sample.processed) selected)
                       "sentiment_compound";
          pd.series_mean compound) = Ok (industry_analysis.Avg_Sentiment res))
      (List.filter (λ it, existsb (spec.industry_selects ascii_text.library it.2 None)
                            (pd.rows sample.processed))
         industry_analysis.GLOBAL_INDUSTRIES)
      results.
Proof.
  eexists. split; [vm_compute; reflexivity|].
  apply (analyze_industries_results ascii_text.library
           industry_analysis.GLOBAL_INDUSTRIES sample.processed None).
  vm_compute; reflexivity.
Defined.

(** * Further properties of the code *)

(** ** The fetch *)

Lemma retry_from_Ok {A} (more : nat) (call : nat → result A) (attempt : nat) (a : A) :
  call attempt = Ok a →
  reddit_fetch.retry_from more call attempt = (reddit_fetch.Returned a, attempt).
Proof. intros Hcall. destruct more; cbn; by rewrite Hcall. Qed.

Lemma fetch_attempt_Ok search polarity_scores fromtimestamp attempt keyword limit :
  ∃ frame,
    reddit_fetch.fetch_attempt search polarity_scores fromtimestamp attempt keyword limit
    = Ok frame.
Proof. unfold reddit_fetch.fetch_attempt. destruct (search _ _ _); eauto. Qed.

(** X1 ([fetch_posts_safely]).  The body of the fetch catches whatever is
    raised, so the retry decorator around it never sees an exception: the
    call returns at attempt 1, never with [RetryError], what Reddit would
    answer at a later attempt changes nothing, and a failed request gives the
    empty frame. *)
Theorem fetch_posts_safely_never_retries
    (search search' : nat → string → nat → result (list reddit_fetch.Submission))
    (polarity_scores : string → reddit_fetch.Scores) (fromtimestamp : Z → Z * Z)
    (keyword : string) (limit : nat) :
  (∃ frame,
     reddit_fetch.fetch_posts_safely search polarity_scores fromtimestamp keyword limit
     = (reddit_fetch.Returned frame, 1%nat)) ∧
  (search' 1%nat keyword limit = search 1%nat keyword limit →
   reddit_fetch.fetch_posts_safely search' polarity_scores fromtimestamp keyword limit
   = reddit_fetch.fetch_posts_safely search polarity_scores fromtimestamp keyword limit) ∧
  (∀ e, search 1%nat keyword limit = Raise e →
        reddit_fetch.fetch_posts_safely search polarity_scores fromtimestamp keyword limit
        = (reddit_fetch.Returned reddit_fetch.empty_frame, 1%nat)).
Proof.
  unfold reddit_fetch.fetch_posts_safely, reddit_fetch.retry.
  split; [|split].
  - destruct (fetch_attempt_Ok search polarity_scores fromtimestamp 1 keyword limit)
      as [frame Hframe].
    exists frame. by apply retry_from_Ok.
  - intros Hsame.
    destruct (fetch_attempt_Ok search polarity_scores fromtimestamp 1 keyword limit)
      as [frame Hframe].
    rewrite (retry_from_Ok _
               (λ attempt, reddit_fetch.fetch_attempt search polarity_scores fromtimestamp
                             attempt keyword limit) 1 frame Hframe).
    apply retry_from_Ok. unfold reddit_fetch.fetch_attempt in *. by rewrite Hsame.
  - intros e He. apply retry_from_Ok. unfold reddit_fetch.fetch_attempt. by rewrite He.
Qed.

Lemma fetch_posts_safely_Ok search polarity_scores fromtimestamp keyword limit posts :
  search 1%nat keyword limit = Ok posts →
  reddit_fetch.fetch_posts_safely search polarity_scores fromtimestamp keyword limit
  = (reddit_fetch.Returned
       (reddit_fetch.DataFrame_of reddit_fetch.fetched_columns
          (reddit_fetch.post_row polarity_scores fromtimestamp <$> posts)), 1%nat).
Proof.
  intros Hposts. apply retry_from_Ok. unfold reddit_fetch.fetch_attempt. by rewrite Hposts.
Qed.

(** X2 ([fetch_posts_safely], [validate_reddit_data]).  When Reddit answers,
    the frame has one row per post, in the order of the answer, and it passes
    the validation exactly when there is at least one post: an answer without
    posts gives a frame without columns. *)
Theorem fetched_frame_valid_iff_posts
    (search : nat → string → nat → result (list reddit_fetch.Submission))
    (polarity_scores : string → reddit_fetch.Scores) (fromtimestamp : Z → Z * Z)
    (keyword : string) (limit : nat) (posts : list reddit_fetch.Submission) :
  search 1%nat keyword limit = Ok posts →
  ∃ frame,
    reddit_fetch.fetch_posts_safely search polarity_scores fromtimestamp keyword limit
    = (reddit_fetch.Returned frame, 1%nat) ∧
    pd.rows frame = reddit_fetch.post_row polarity_scores fromtimestamp <$> posts ∧
    (reddit_fetch.validate_reddit_data frame = true ↔ posts ≠ []) ∧
    (posts ≠ [] → pd.columns frame = reddit_fetch.fetched_columns) ∧
    (posts = [] → frame = reddit_fetch.empty_frame).
Proof.
  intros Hposts. eexists. split; [by apply fetch_posts_safely_Ok|].
  destruct posts as [|post posts]; cbn [reddit_fetch.DataFrame_of fmap list_fmap].
  - split; [done|]. split; [|done]. split; [|done].
    unfold reddit_fetch.validate_reddit_data. cbn. by rewrite bool_decide_eq_false_2 by set_solver.
  - split; [done|]. split; [|done]. split; [|done]. by vm_compute.
Qed.

Lemma fetched_frame_valid_iff_posts_sample :
  sample.search_once 1%nat "python" 50%nat = Ok sample.submissions ∧
  ∃ frame,
    reddit_fetch.fetch_posts_safely sample.search_once sample.polarity sample.utc
      "python" 50%nat
    = (reddit_fetch.Returned frame, 1%nat) ∧
    pd.rows frame = reddit_fetch.post_row sample.polarity sample.utc <$> sample.submissions ∧
    (reddit_fetch.validate_reddit_data frame = true ↔ sample.submissions ≠ []) ∧
    (sample.submissions ≠ [] → pd.columns frame = reddit_fetch.fetched_columns) ∧
    (sample.submissions = [] → frame = reddit_fetch.empty_frame).
Proof.
  split; [reflexivity|].
  apply (fetched_frame_valid_iff_posts sample.search_once sample.polarity sample.utc
           "python" 50%nat sample.submissions).
  reflexivity.
Defined.

(** ** What the session holds *)

(** Validated data goes to [cached_processing], which raises: the handler
    reports the error and stores nothing. *)
Lemma ingest_validated (parse_datetime : string → option (Z * Z))
    (df : pd.DataFrame) (kw : string) (loaded : nat → app.Message)
    (invalid : app.Message) (s : app.SessionState) :
  reddit_fetch.validate_reddit_data df = true →
  app.ingest parse_datetime df kw loaded invalid s
  = (app.set_data_ready false s, [(app.error, app.ErrorOccurred TypeError)]).
Proof.
  intros Hvalid. unfold app.ingest. by rewrite Hvalid, cached_processing_Raise.
Qed.

Lemma ingest_stores_nothing (parse_datetime : string → option (Z * Z))
    (df : pd.DataFrame) (kw : string) (loaded : nat → app.Message)
    (invalid : app.Message) (s : app.SessionState) :
  (app.ingest parse_datetime df kw loaded invalid s).1 = app.set_data_ready false s.
Proof.
  unfold app.ingest. rewrite cached_processing_Raise.
  by destruct (reddit_fetch.validate_reddit_data df).
Qed.

Lemma fetch_button_stores_nothing (parse_datetime : string → option (Z * Z))
    (w : app.Widgets) (s : app.SessionState) :
  (app.fetch_button parse_datetime w s).1
  = app.set_data_ready false (app.set_fetch_clicked s).
Proof.
  unfold app.fetch_button.
  destruct (app.validate_inputs _); [|done].
  destruct (app.mode w); [apply ingest_stores_nothing|].
  destruct (app.uploaded_file w) as [[file|e]|]; [apply ingest_stores_nothing|done..].
Qed.

(** A run of the sidebar leaves the collection, its count and its keyword
    alone, and never switches the dashboard on. *)
Lemma sidebar_stores_nothing (parse_datetime : string → option (Z * Z))
    (w : app.Widgets) (s : app.SessionState) :
  let after := (app.sidebar parse_datetime w s).1 in
  app.original_df after = app.original_df s ∧
  app.raw_count after = app.raw_count s ∧
  app.current_keyword after = app.current_keyword s ∧
  (app.data_ready s = false → app.data_ready after = false).
Proof.
  cbv zeta. unfold app.sidebar.
  set (s1 := match app.event w with
             | app.ApplyPressed => app.apply_date_range s
             | app.SliderMoved value => app.set_min_score value s
             | _ => s
             end).
  assert (H1 : app.original_df s1 = app.original_df s ∧
               app.raw_count s1 = app.raw_count s ∧
               app.current_keyword s1 = app.current_keyword s ∧
               app.data_ready s1 = app.data_ready s).
  { subst s1. by destruct (app.event w). }
  set (s2 := match app.selected_dates w with
             | [d0; d1] => app.set_temp_dates (d0, d1) s1
             | _ => s1
             end).
  assert (H2 : app.original_df s2 = app.original_df s ∧
               app.raw_count s2 = app.raw_count s ∧
               app.current_keyword s2 = app.current_keyword s ∧
               app.data_ready s2 = app.data_ready s).
  { subst s2. by destruct (app.selected_dates w) as [|? [|? [|? ?]]]. }
  clearbody s2. clear s1 H1. destruct H2 as (Horiginal & Hcount & Hkeyword & Hready).
  destruct (app.event w); cbn [fst];
    try (repeat split; [done..|]; intros Hoff; congruence).
  rewrite fetch_button_stores_nothing. by repeat split.
Qed.

Lemma reachable_stores_nothing (parse_datetime : string → option (Z * Z)) (today : Z)
    (s : app.SessionState) :
  spec.reachable parse_datetime today s →
  app.original_df s = None ∧ app.raw_count s = 0%nat ∧
  app.current_keyword s = "" ∧ app.data_ready s = false.
Proof.
  induction 1 as [|w s _ (Horiginal & Hcount & Hkeyword & Hready)]; [done|].
  destruct (sidebar_stores_nothing parse_datetime w s) as (H1 & H2 & H3 & H4).
  rewrite H1, H2, H3. auto.
Qed.

(** X12 (the fetch handler, [cached_processing], the main content).  In every
    state the session can reach, no collection is loaded: the handler stores
    a collection only after [cached_processing], which raises on every
    frame.  The session holds no collection, the count 0 and no keyword, the
    dashboard is off, and every rendering is the welcome page, with nothing
    written to the file system. *)
Theorem no_collection_is_ever_loaded
    (parse_datetime : string → option (Z * Z)) (today : Z) (s : app.SessionState) :
  spec.reachable parse_datetime today s →
  app.original_df s = None ∧ app.raw_count s = 0%nat ∧
  app.current_keyword s = "" ∧ app.data_ready s = false ∧
  ∀ lib vectorizer fails now w world,
    app.main_content lib vectorizer fails now w s world = (app.Welcome, world).
Proof.
  intros (Horiginal & Hcount & Hkeyword & Hready)%reachable_stores_nothing.
  repeat split; try done.
  intros lib vectorizer fails now w world. unfold app.main_content.
  rewrite Hready, Horiginal. by destruct (app.fetch_clicked s).
Qed.

(** The session after a press of the fetch button that brought the three
    sample posts. *)
Lemma no_collection_is_ever_loaded_sample :
  let s := (app.sidebar sample.no_parser
              (sample.widgets app.FetchPressed [app.default_start; sample.today])
              (app.initial_state sample.today)).1 in
  spec.reachable sample.no_parser sample.today s ∧
  app.fetch_clicked s = true ∧
  app.original_df s = None ∧ app.raw_count s = 0%nat ∧
  app.current_keyword s = "" ∧ app.data_ready s = false ∧
  ∀ lib vectorizer fails now w world,
    app.main_content lib vectorizer fails now w s world = (app.Welcome, world).
Proof.
  intros s.
  assert (Hreach : spec.reachable sample.no_parser sample.today s)
    by apply spec.reachable_run, spec.reachable_initial.
  split; [exact Hreach|]. split; [reflexivity|].
  exact (no_collection_is_ever_loaded sample.no_parser sample.today s Hreach).
Defined.

(** ** The fetch handler *)

Lemma sidebar_fetch (parse_datetime : string → option (Z * Z))
    (w : app.Widgets) (s : app.SessionState) (d0 d1 : Z) :
  app.event w = app.FetchPressed → app.selected_dates w = [d0; d1] →
  app.sidebar parse_datetime w s
  = app.fetch_button parse_datetime w (app.set_temp_dates (d0, d1) s).
Proof. intros Hevent Hdates. unfold app.sidebar. by rewrite Hevent, Hdates. Qed.

Lemma fetch_button_valid (parse_datetime : string → option (Z * Z))
    (w : app.Widgets) (s : app.SessionState) :
  (app.temp_dates s).1 ≤ (app.temp_dates s).2 →
  app.fetch_button parse_datetime w s
  = match app.mode w, app.uploaded_file w with
    | app.FetchRedditData, _ =>
        app.ingest parse_datetime (app.reddit w) (app.keyword w) app.Fetched
          app.InvalidRedditFormat (app.set_fetch_clicked s)
    | app.UploadCSVFile, Some (Ok df) =>
        app.ingest parse_datetime df "uploaded" app.CsvLoaded app.CsvMissingColumns
          (app.set_fetch_clicked s)
    | app.UploadCSVFile, Some (Raise e) =>
        (app.set_data_ready false (app.set_fetch_clicked s),
         [(app.error, app.ErrorOccurred e)])
    | app.UploadCSVFile, None =>
        (app.set_data_ready false (app.set_fetch_clicked s),
         [(app.warning, app.UploadFirst)])
    end.
Proof.
  intros Hvalid. unfold app.fetch_button, app.validate_inputs. cbn [app.temp_dates app.set_fetch_clicked].
  destruct (_ <? _) eqn:Hlt; [apply Z.ltb_lt in Hlt; lia|done].
Qed.

(** X8 ([fetch_posts_safely], [validate_reddit_data], [cached_processing]).
    When Reddit answers with at least one post, the fetched frame holds the
    posts and passes the validation, but its normalization raises
    [TypeError]; the handler reports an error and switches the dashboard
    off instead of loading the posts. *)
Theorem fetched_posts_are_rejected (parse_datetime : string → option (Z * Z))
    (search : nat → string → nat → result (list reddit_fetch.Submission))
    (polarity_scores : string → reddit_fetch.Scores) (fromtimestamp : Z → Z * Z)
    (keyword : string) (limit : nat) (posts : list reddit_fetch.Submission) :
  search 1%nat keyword limit = Ok posts → posts ≠ [] →
  ∃ frame,
    reddit_fetch.fetch_posts_safely search polarity_scores fromtimestamp keyword limit
    = (reddit_fetch.Returned frame, 1%nat) ∧
    pd.len frame = length posts ∧
    reddit_fetch.validate_reddit_data frame = true ∧
    app.cached_processing parse_datetime frame = Raise TypeError ∧
    ∀ s, app.ingest parse_datetime frame keyword app.Fetched app.InvalidRedditFormat s
         = (app.set_data_ready false s, [(app.error, app.ErrorOccurred TypeError)]).
Proof.
  intros Hposts Hsome.
  exists (pd.mkDataFrame reddit_fetch.fetched_columns
            (reddit_fetch.post_row polarity_scores fromtimestamp <$> posts)).
  assert (Hvalid : reddit_fetch.validate_reddit_data
                     (pd.mkDataFrame reddit_fetch.fetched_columns
                        (reddit_fetch.post_row polarity_scores fromtimestamp <$> posts))
                   = true) by by vm_compute.
  split; [|split; [|split; [|split]]].
  - rewrite (fetch_posts_safely_Ok _ _ _ _ _ posts) by done. by destruct posts.
  - unfold pd.len. cbn [pd.rows]. by rewrite length_fmap.
  - exact Hvalid.
  - apply cached_processing_Raise.
  - intros s. by apply ingest_validated.
Qed.

Lemma fetched_posts_are_rejected_sample :
  sample.search_once 1%nat "python" 50%nat = Ok sample.submissions ∧
  sample.submissions ≠ [] ∧
  ∃ frame,
    reddit_fetch.fetch_posts_safely sample.search_once sample.polarity sample.utc
      "python" 50%nat
    = (reddit_fetch.Returned frame, 1%nat) ∧
    pd.len frame = length sample.submissions ∧
    reddit_fetch.validate_reddit_data frame = true ∧
    app.cached_processing sample.no_parser frame = Raise TypeError ∧
    ∀ s, app.ingest sample.no_parser frame "python" app.Fetched app.InvalidRedditFormat s
         = (app.set_data_ready false s, [(app.error, app.ErrorOccurred TypeError)]).
Proof.
  split; [reflexivity|]. split; [discriminate|].
  apply (fetched_posts_are_rejected sample.no_parser sample.search_once sample.polarity
           sample.utc "python" 50%nat sample.submissions).
  - reflexivity.
  - discriminate.
Defined.

(** X13 (the fetch handler, [validate_reddit_data], [cached_processing]).
    Data that passes the validation is never loaded, fetched or uploaded: the
    press of the button shows the error line with the [TypeError] of the
    normalizer and the welcome page; the dashboard is off, and the
    collection, count and keyword of the session are the ones from
    before. *)
Theorem validated_data_is_never_loaded (lib : py.Library)
    (parse_datetime : string → option (Z * Z))
    (vectorizer : option (list pd.cell → result (list string)))
    (fails : io_call → bool) (now : string)
    (w : app.Widgets) (s : app.SessionState) (world : World)
    (df : pd.DataFrame) (d0 d1 : Z) :
  app.event w = app.FetchPressed →
  app.selected_dates w = [d0; d1] → d0 ≤ d1 →
  (app.mode w = app.FetchRedditData ∧ app.reddit w = df) ∨
  (app.mode w = app.UploadCSVFile ∧ app.uploaded_file w = Some (Ok df)) →
  reddit_fetch.validate_reddit_data df = true →
  ∃ s',
    app.script lib parse_datetime vectorizer fails now w s world
    = (app.mkPage [(app.error, app.ErrorOccurred TypeError)] app.Welcome, s', world) ∧
    app.data_ready s' = false ∧
    app.original_df s' = app.original_df s ∧
    app.raw_count s' = app.raw_count s ∧
    app.current_keyword s' = app.current_keyword s.
Proof.
  intros Hevent Hdates Horder Hsource Hvalid.
  unfold app.script.
  rewrite (sidebar_fetch _ _ _ d0 d1 Hevent Hdates).
  rewrite fetch_button_valid by done.
  assert (Hstep :
    match app.mode w, app.uploaded_file w with
    | app.FetchRedditData, _ =>
        app.ingest parse_datetime (app.reddit w) (app.keyword w) app.Fetched
          app.InvalidRedditFormat (app.set_fetch_clicked (app.set_temp_dates (d0, d1) s))
    | app.UploadCSVFile, Some (Ok df) =>
        app.ingest parse_datetime df "uploaded" app.CsvLoaded app.CsvMissingColumns
          (app.set_fetch_clicked (app.set_temp_dates (d0, d1) s))
    | app.UploadCSVFile, Some (Raise e) =>
        (app.set_data_ready false (app.set_fetch_clicked (app.set_temp_dates (d0, d1) s)),
         [(app.error, app.ErrorOccurred e)])
    | app.UploadCSVFile, None =>
        (app.set_data_ready false (app.set_fetch_clicked (app.set_temp_dates (d0, d1) s)),
         [(app.warning, app.UploadFirst)])
    end
    = (app.set_data_ready false (app.set_fetch_clicked (app.set_temp_dates (d0, d1) s)),
       [(app.error, app.ErrorOccurred TypeError)])).
  { destruct Hsource as [[-> ->]|[-> ->]]; by apply ingest_validated. }
  rewrite Hstep. unfold app.main_content. cbn. by eexists.
Qed.

Lemma validated_data_is_never_loaded_sample :
  ∃ s',
    app.script ascii_text.library sample.no_parser None sample.no_faults "2024-01-01 00:00"
      (sample.upload sample.fetched) (app.initial_state sample.today)
      sample.fresh_world
    = (app.mkPage [(app.error, app.ErrorOccurred TypeError)] app.Welcome, s',
       sample.fresh_world) ∧
    app.data_ready s' = false ∧
    app.original_df s' = app.original_df (app.initial_state sample.today) ∧
    app.raw_count s' = app.raw_count (app.initial_state sample.today) ∧
    app.current_keyword s' = app.current_keyword (app.initial_state sample.today).
Proof.
  apply (validated_data_is_never_loaded ascii_text.library sample.no_parser None
           sample.no_faults "2024-01-01 00:00" (sample.upload sample.fetched)
           (app.initial_state sample.today) sample.fresh_world sample.fetched
           app.default_start sample.today); try reflexivity.
  - unfold app.default_start, sample.today. lia.
  - right. by split.
Defined.

(** X14 (the fetch handler).  Every press of the fetch button marks the
    button as clicked, leaves the date ranges and the minimum score alone and
    shows exactly one status line.  Either a validated collection was
    normalized and stored with its size, under a success line; or the line is
    an error or a warning, the dashboard is switched off, and the collection,
    count and keyword of the session are the ones from before. *)
Theorem fetch_button_outcomes (parse_datetime : string → option (Z * Z))
    (w : app.Widgets) (s : app.SessionState) :
  let after := (app.fetch_button parse_datetime w s).1 in
  let shown := (app.fetch_button parse_datetime w s).2 in
  app.fetch_clicked after = true ∧
  app.temp_dates after = app.temp_dates s ∧
  app.applied_dates after = app.applied_dates s ∧
  app.min_score after = app.min_score s ∧
  ((app.data_ready after = true ∧
    ∃ df processed m,
      reddit_fetch.validate_reddit_data df = true ∧
      app.cached_processing parse_datetime df = Ok processed ∧
      app.original_df after = Some processed ∧
      app.raw_count after = pd.len df ∧
      shown = [(app.success, m)]) ∨
   (app.data_ready after = false ∧
    app.original_df after = app.original_df s ∧
    app.raw_count after = app.raw_count s ∧
    app.current_keyword after = app.current_keyword s ∧
    ∃ level m, shown = [(level, m)] ∧ level ≠ app.success)).
Proof.
  cbv zeta.
  assert (Hingest : ∀ df kw loaded invalid,
    let r := app.ingest parse_datetime df kw loaded invalid (app.set_fetch_clicked s) in
    app.fetch_clicked r.1 = true ∧
    app.temp_dates r.1 = app.temp_dates s ∧
    app.applied_dates r.1 = app.applied_dates s ∧
    app.min_score r.1 = app.min_score s ∧
    ((app.data_ready r.1 = true ∧
      ∃ df processed m,
        reddit_fetch.validate_reddit_data df = true ∧
        app.cached_processing parse_datetime df = Ok processed ∧
        app.original_df r.1 = Some processed ∧
        app.raw_count r.1 = pd.len df ∧
        r.2 = [(app.success, m)]) ∨
     (app.data_ready r.1 = false ∧
      app.original_df r.1 = app.original_df s ∧
      app.raw_count r.1 = app.raw_count s ∧
      app.current_keyword r.1 = app.current_keyword s ∧
      ∃ level m, r.2 = [(level, m)] ∧ level ≠ app.success))).
  { intros df kw loaded invalid. cbv zeta. unfold app.ingest.
    destruct (reddit_fetch.validate_reddit_data df) eqn:Hvalid.
    - destruct (app.cached_processing parse_datetime df) as [processed|e] eqn:Hrun; cbn.
      + by rewrite cached_processing_Raise in Hrun.
      + repeat split; try done. right. repeat split; try done.
        by exists app.error, (app.ErrorOccurred e).
    - cbn. repeat split; try done. right. repeat split; try done.
      by exists app.error, invalid. }
  unfold app.fetch_button.
  destruct (app.validate_inputs (app.set_fetch_clicked s)) as [|m errors] eqn:Herrors.
  - destruct (app.mode w); [apply Hingest|].
    destruct (app.uploaded_file w) as [[file|e]|]; [apply Hingest|..]; cbn;
      repeat split; try done; right; repeat split; try done.
    + by exists app.error, (app.ErrorOccurred e).
    + by exists app.warning, app.UploadFirst.
  - unfold app.validate_inputs in Herrors.
    destruct (_ <? _); [|done]. injection Herrors as <- <-. cbn.
    repeat split; try done. right. repeat split; try done.
    by exists app.error, app.StartBeforeEnd.
Qed.

(** X15 ([fetch_posts_safely], the fetch handler).  A search that finds no
    post and a request that fails look the same to the dashboard: both are
    reported as an invalid data format, the welcome page is shown, and the
    collection of the session is the one from before. *)
Theorem empty_answer_reported_as_invalid_format (lib : py.Library)
    (parse_datetime : string → option (Z * Z))
    (vectorizer : option (list pd.cell → result (list string)))
    (fails : io_call → bool) (now : string)
    (search : nat → string → nat → result (list reddit_fetch.Submission))
    (polarity_scores : string → reddit_fetch.Scores) (fromtimestamp : Z → Z * Z)
    (limit : nat) (w : app.Widgets) (s : app.SessionState) (world : World) (d0 d1 : Z) :
  app.event w = app.FetchPressed → app.mode w = app.FetchRedditData →
  app.selected_dates w = [d0; d1] → d0 ≤ d1 →
  (reddit_fetch.fetch_posts_safely search polarity_scores fromtimestamp
     (app.keyword w) limit).1 = reddit_fetch.Returned (app.reddit w) →
  (search 1%nat (app.keyword w) limit = Ok [] ∨
   ∃ e, search 1%nat (app.keyword w) limit = Raise e) →
  ∃ s',
    app.script lib parse_datetime vectorizer fails now w s world
    = (app.mkPage [(app.error, app.InvalidRedditFormat)] app.Welcome, s', world) ∧
    app.data_ready s' = false ∧
    app.original_df s' = app.original_df s.
Proof.
  intros Hevent Hmode Hdates Horder Hfetch Hanswer.
  assert (Hempty : app.reddit w = reddit_fetch.empty_frame).
  { destruct Hanswer as [Hnone|[e He]].
    - rewrite (fetch_posts_safely_Ok _ _ _ _ _ [] Hnone) in Hfetch. by injection Hfetch.
    - unfold reddit_fetch.fetch_posts_safely, reddit_fetch.retry in Hfetch.
      rewrite (retry_from_Ok _ _ _ reddit_fetch.empty_frame) in Hfetch.
      + by injection Hfetch.
      + unfold reddit_fetch.fetch_attempt. by rewrite He. }
  unfold app.script.
  rewrite (sidebar_fetch _ _ _ d0 d1 Hevent Hdates).
  rewrite fetch_button_valid by done. rewrite Hmode, Hempty.
  unfold app.ingest.
  change (reddit_fetch.validate_reddit_data reddit_fetch.empty_frame) with false.
  cbn. by eexists.
Qed.

Lemma empty_answer_reported_as_invalid_format_sample :
  ∃ s',
    app.script ascii_text.library sample.no_parser None sample.no_faults "2024-01-01 00:00"
      (app.mkWidgets app.FetchRedditData "python" reddit_fetch.empty_frame None
         [app.default_start; sample.today] [] app.HighestScore 10 app.FetchPressed)
      (sample.loaded (1, 800000) 0) sample.fresh_world
    = (app.mkPage [(app.error, app.InvalidRedditFormat)] app.Welcome, s',
       sample.fresh_world) ∧
    app.data_ready s' = false ∧
    app.original_df s' = app.original_df (sample.loaded (1, 800000) 0).
Proof.
  apply (empty_answer_reported_as_invalid_format ascii_text.library sample.no_parser None sample.no_faults
           "2024-01-01 00:00" sample.search_down sample.polarity sample.utc 50%nat
           (app.mkWidgets app.FetchRedditData "python" reddit_fetch.empty_frame None
              [app.default_start; sample.today] [] app.HighestScore 10 app.FetchPressed)
           (sample.loaded (1, 800000) 0) sample.fresh_world
           app.default_start sample.today); try reflexivity.
  - unfold app.default_start, sample.today. lia.
  - right. exists OSError. reflexivity.
Defined.

(** ** Sorting, for every collection *)

Lemma stdlib_filter_split {A} (f : A → bool) (l : list A) :
  List.filter (λ x, negb (f x)) l ++ List.filter f l ≡ₚ l.
Proof.
  induction l as [|x l IH]; [done|]. cbn. destruct (f x); cbn.
  - by rewrite <- Permutation_middle, IH.
  - by rewrite IH.
Qed.

Lemma stdlib_filter_fmap {A B} (f : B → bool) (g : A → B) (l : list A) :
  List.filter f (g <$> l) = g <$> List.filter (f ∘ g) l.
Proof.
  induction l as [|x l IH]; [done|]. cbn. unfold compose at 1.
  destruct (f (g x)); cbn; by rewrite IH.
Qed.

Lemma StronglySorted_app {A} (R : A → A → Prop) (l1 l2 : list A) :
  StronglySorted R l1 → StronglySorted R l2 →
  (∀ x y, x ∈ l1 → y ∈ l2 → R x y) → StronglySorted R (l1 ++ l2).
Proof.
  intros H1 H2 Hcross. induction H1 as [|x l1 H1 IH Hx]; [done|]. cbn.
  constructor.
  - apply IH. intros a b Ha. apply Hcross. by right.
  - apply Forall_app. split; [done|].
    apply Forall_forall. intros y Hy. apply Hcross; [left|done].
Qed.

Lemma StronglySorted_rev {A} (R : A → A → Prop) (l : list A) :
  StronglySorted R l → StronglySorted (λ a b, R b a) (rev l).
Proof.
  induction 1 as [|x l Hsorted IH Hx]; [constructor|]. cbn.
  apply StronglySorted_app; [done|repeat constructor|].
  intros a b Ha%list_elem_of_In%in_rev ->%list_elem_of_singleton.
  rewrite Forall_forall in Hx. by apply Hx, list_elem_of_In.
Qed.

Lemma StronglySorted_impl {A} (R R' : A → A → Prop) (l : list A) :
  StronglySorted R l → (∀ x y, x ∈ l → y ∈ l → R x y → R' x y) → StronglySorted R' l.
Proof.
  induction 1 as [|x l Hsorted IH Hx]; intros Himpl; [constructor|].
  constructor.
  - apply IH. intros a b Ha Hb. apply Himpl; by right.
  - rewrite Forall_forall in *. intros y Hy. apply Himpl; [left|by right|by apply Hx].
Qed.

Lemma nargsort_rearranges (ascending : bool) (keyed : list (pd.cell * gmap string pd.cell))
    (sorted : list (gmap string pd.cell)) :
  pd.nargsort ascending keyed = Ok sorted →
  ∃ present,
    present ≡ₚ List.filter (λ kr, negb (pd.isna kr.1)) keyed ∧
    sorted = (snd <$> present) ++ (snd <$> List.filter (λ kr, pd.isna kr.1) keyed).
Proof.
  unfold pd.nargsort.
  destruct (List.filter (λ kr, negb (pd.isna kr.1)) keyed) as [|[k r] rest] eqn:Hpresent.
  { intros [= <-]. by exists []. }
  destruct (forallb _ rest); [|done]. intros [= <-].
  eexists. split; [|by rewrite fmap_app].
  set (leb := λ a b : pd.cell * gmap string pd.cell, pd.key_leb a.1 b.1).
  destruct ascending.
  - exact (stable_sort_perm leb ((k, r) :: rest)).
  - etrans; [symmetry; apply Permutation_rev|].
    etrans; [exact (stable_sort_perm leb (rev ((k, r) :: rest)))|].
    symmetry. apply Permutation_rev.
Qed.

Lemma sort_values_Ok_inv (df sorted : pd.DataFrame) (col : string) (ascending : bool) :
  pd.sort_values df col ascending = Ok sorted →
  pd.columns sorted = pd.columns df ∧
  pd.rows sorted ≡ₚ pd.rows df ∧
  ∃ present,
    pd.rows sorted = present ++ List.filter (spec.missing col) (pd.rows df) ∧
    Forall (λ r, spec.missing col r = false) present.
Proof.
  unfold pd.sort_values.
  destruct (pd.getitem df col) as [keys|e] eqn:Hkeys; [|done].
  apply getitem_inv in Hkeys as [Hcol ->]. step_ok. rewrite zip_fmap_self.
  destruct (pd.nargsort _ _) as [rows|e] eqn:Hsort; [|done]. step_ok. intros [= <-].
  apply nargsort_rearranges in Hsort as (present & Hpresent & ->).
  cbn [pd.columns pd.rows]. split; [done|].
  rewrite !stdlib_filter_fmap in *. rewrite <- list_fmap_compose.
  assert (Hid : (snd ∘ (λ r : gmap string pd.cell, (default pd.VNone (r !! col), r))) <$>
                  List.filter (spec.missing col) (pd.rows df)
                = List.filter (spec.missing col) (pd.rows df)).
  { apply list_fmap_id. }
  change ((λ kr : pd.cell * gmap string pd.cell, pd.isna kr.1)
          ∘ (λ r : gmap string pd.cell, (default pd.VNone (r !! col), r)))
    with (spec.missing col).
  rewrite Hid. split.
  - rewrite Hpresent, <- list_fmap_compose.
    rewrite (list_fmap_id (List.filter _ (pd.rows df))).
    apply (stdlib_filter_split (spec.missing col)).
  - exists (snd <$> present). split; [done|].
    rewrite Hpresent, <- list_fmap_compose.
    rewrite (list_fmap_id (List.filter _ (pd.rows df))).
    apply Forall_forall. intros r [_ Hr]%list_elem_of_In%filter_In.
    unfold compose in Hr. cbn in Hr. unfold spec.missing, spec.cell_of.
    by destruct (pd.isna _).
Qed.

(** X16 ([sort_values], as the top posts and the structured report call it).
    Sorting a collection never loses, repeats or alters a post, whatever the
    column and the direction; the posts without a value in the sort column
    come last, in the order they had. *)
Theorem sort_values_rearranges (df sorted : pd.DataFrame) (col : string) (ascending : bool) :
  pd.sort_values df col ascending = Ok sorted →
  pd.columns sorted = pd.columns df ∧
  pd.rows sorted ≡ₚ pd.rows df ∧
  ∃ present,
    pd.rows sorted = present ++ List.filter (spec.missing col) (pd.rows df) ∧
    Forall (λ r, spec.missing col r = false) present.
Proof. apply sort_values_Ok_inv. Qed.

Lemma sort_values_rearranges_sample :
  ∃ sorted,
    pd.sort_values sample.processed "score" false = Ok sorted ∧
    pd.columns sorted = pd.columns sample.processed ∧
    pd.rows sorted ≡ₚ pd.rows sample.processed ∧
    ∃ present,
      pd.rows sorted
      = present ++ List.filter (spec.missing "score") (pd.rows sample.processed) ∧
      Forall (λ r, spec.missing "score" r = false) present.
Proof.
  eexists. split; [vm_compute; reflexivity|].
  apply (sort_values_rearranges sample.processed _ "score" false).
  vm_compute; reflexivity.
Defined.

Lemma float_le_total (x y : pyfloat) :
  float_is_nan x = false → float_is_nan y = false →
  float_le x y = true ∨ float_le y x = true.
Proof.
  destruct x as [a| | |], y as [b| | |]; cbn; try done; auto.
  intros _ _. unfold Qle_bool. rewrite !Z.leb_le. lia.
Qed.

Lemma float_le_trans (x y z : pyfloat) :
  float_le x y = true → float_le y z = true → float_le x z = true.
Proof.
  destruct x as [a| | |], y as [b| | |], z as [c| | |]; cbn; try done.
  rewrite !Qle_bool_iff. apply Qle_trans.
Qed.

Lemma StronglySorted_fmap {A B} (f : A → B) (R : B → B → Prop) (l : list A) :
  StronglySorted (λ a b, R (f a) (f b)) l → StronglySorted R (f <$> l).
Proof.
  induction 1 as [|x l Hsorted IH Hx]; cbn; constructor; [done|].
  by apply Forall_fmap.
Qed.

Lemma StronglySorted_trivial {A} (R : A → A → Prop) (l : list A) :
  (∀ x y, y ∈ l → R x y) → StronglySorted R l.
Proof.
  induction l as [|x l IH]; intros HR; constructor.
  - apply IH. intros a b Hb. apply HR. by right.
  - apply Forall_forall. intros y Hy. apply HR. by right.
Qed.

Lemma key_leb_float (k k' : pd.cell) (x x' : pyfloat) :
  pd.as_float k = Some x → pd.as_float k' = Some x' →
  pd.key_leb k k' = float_le x x'.
Proof.
  unfold pd.key_leb, pd.py_le.
  destruct k, k'; cbn -[float_le]; try done; by intros [= <-] [= <-].
Qed.

(** A descending sort on a column of numbers succeeds and ranks the posts. *)
Lemma sort_values_descending (df : pd.DataFrame) (col : string) :
  spec.numeric col df = true →
  ∃ sorted,
    pd.sort_values df col false = Ok sorted ∧
    StronglySorted (spec.ranks_before col) (pd.rows sorted).
Proof.
  unfold spec.numeric. rewrite andb_true_iff, bool_decide_eq_true, forallb_forall.
  intros [Hcol Hrows]. unfold pd.sort_values.
  rewrite getitem_Ok by done. step_ok. rewrite zip_fmap_self.
  set (keyed := (λ r, (default pd.VNone (r !! col), r)) <$> pd.rows df).
  set (leb := λ a b : pd.cell * gmap string pd.cell, pd.key_leb a.1 b.1).
  set (P := λ kr : pd.cell * gmap string pd.cell,
              kr.1 = spec.cell_of col kr.2 ∧
              ∃ x, pd.as_float kr.1 = Some x ∧ float_is_nan x = false).
  set (present := List.filter (λ kr, negb (pd.isna kr.1)) keyed).
  set (missing := List.filter (λ kr, pd.isna kr.1) keyed).
  assert (Hpresent : Forall P present).
  { apply Forall_forall. intros [k r] [Hin Hk]%list_elem_of_In%filter_In.
    apply list_elem_of_In, list_elem_of_fmap in Hin as (r' & [= -> ->] & Hr').
    apply list_elem_of_In, Hrows in Hr'. split; [done|]. cbn in *.
    unfold spec.cell_of in Hr'.
    destruct (default pd.VNone (r' !! col)) as [| |[]| | |]; try done; by eexists. }
  assert (Hmissing : Forall (λ kr, spec.missing col kr.2 = true) missing).
  { apply Forall_forall. intros [k r] [Hin Hk]%list_elem_of_In%filter_In.
    by apply list_elem_of_In, list_elem_of_fmap in Hin as (r' & [= -> ->] & Hr'). }
  assert (Htotal : ∀ x y, P x → P y → leb x y = true ∨ leb y x = true).
  { intros [k r] [k' r'] (_ & x & Hx & Hnan) (_ & x' & Hx' & Hnan'). cbn in *.
    unfold leb. cbn [fst]. rewrite (key_leb_float _ _ _ _ Hx Hx'), (key_leb_float _ _ _ _ Hx' Hx).
    by apply float_le_total. }
  assert (Htrans : ∀ x y z, P x → P y → P z →
            leb x y = true → leb y z = true → leb x z = true).
  { intros [k1 r1] [k2 r2] [k3 r3] (_ & x1 & H1 & _) (_ & x2 & H2 & _) (_ & x3 & H3 & _).
    cbn in *. unfold leb. cbn [fst].
    rewrite (key_leb_float _ _ _ _ H1 H2), (key_leb_float _ _ _ _ H2 H3),
      (key_leb_float _ _ _ _ H1 H3).
    apply float_le_trans. }
  set (ranked := rev (pd.stable_sort leb (rev present))).
  assert (Hsorted : pd.nargsort false keyed = Ok (snd <$> (ranked ++ missing))).
  { unfold pd.nargsort. fold present missing leb.
    destruct present as [|[k r] rest] eqn:Hshape.
    { done. }
    assert (forallb (λ kr, pd.same_kind k kr.1) rest = true) as ->; [|done].
    apply Forall_cons in Hpresent as [(_ & x & Hx & _) Hrest]. cbn in Hx.
    apply forallb_forall. intros [k' r'] Hin%list_elem_of_In.
    rewrite Forall_forall in Hrest. destruct (Hrest _ Hin) as (_ & x' & Hx' & _). cbn in *.
    by destruct k as [| |[]| | |], k' as [| |[]| | |]. }
  rewrite Hsorted. step_ok. eexists. split; [done|]. cbn [pd.rows].
  apply StronglySorted_fmap.
  assert (Hranked : Forall P ranked).
  { unfold ranked. rewrite <- Permutation_rev, (stable_sort_perm leb), <- Permutation_rev.
    done. }
  apply StronglySorted_app.
  - eapply StronglySorted_impl.
    + apply StronglySorted_rev.
      apply (stable_sort_sorted leb P Htotal Htrans).
      by rewrite <- Permutation_rev.
    + cbn. rewrite Forall_forall in Hranked.
      intros [k r] [k' r'] Hin Hin' Hle _.
      destruct (Hranked _ Hin) as (Hk & x & Hx & Hnan).
      destruct (Hranked _ Hin') as (Hk' & x' & Hx' & Hnan'). cbn in *. subst k k'.
      unfold leb in Hle. cbn [fst] in Hle.
      rewrite (key_leb_float _ _ _ _ Hx' Hx) in Hle.
      unfold spec.missing, spec.key_float. rewrite Hx, Hx'. cbn [default].
      split; [|done].
      destruct (spec.cell_of col r) as [| |[]| | |]; try done.
      cbn in Hx. by injection Hx as <-.
  - apply StronglySorted_trivial. rewrite Forall_forall in Hmissing.
    intros x y Hy%Hmissing Hno. congruence.
  - rewrite Forall_forall in Hmissing. intros x y _ Hy%Hmissing Hno. congruence.
Qed.

Lemma top_posts_descending (frame : pd.DataFrame) (sort_by : app.SortBy) (show_count : nat) :
  sort_by ≠ app.MostRecent →
  app.top_posts frame sort_by show_count
  = (sorted ← pd.sort_values frame (app.sort_options sort_by) false;
     Ok (pd.head show_count sorted)).
Proof. by destruct sort_by. Qed.

(** X17 (the top posts).  By score, by comments or by positivity, on a
    column of numbers, the top posts are the largest ones: every post is
    either shown or left out, and no post left out ranks above a post that
    is shown.  A post without a value is shown only when no post with a
    value is left out. *)
Theorem top_posts_are_the_largest (frame : pd.DataFrame) (sort_by : app.SortBy)
    (show_count : nat) :
  sort_by ≠ app.MostRecent →
  spec.numeric (app.sort_options sort_by) frame = true →
  ∃ top left_out,
    app.top_posts frame sort_by show_count = Ok top ∧
    pd.rows top ++ left_out ≡ₚ pd.rows frame ∧
    ∀ r r', r ∈ pd.rows top → r' ∈ left_out →
            spec.ranks_before (app.sort_options sort_by) r r'.
Proof.
  intros Hby Hnumeric. rewrite top_posts_descending by done.
  destruct (sort_values_descending _ _ Hnumeric) as (sorted & Hsort & Hranked).
  rewrite Hsort. step_ok.
  exists (pd.head show_count sorted), (drop show_count (pd.rows sorted)).
  split; [done|]. cbn [pd.head pd.rows]. rewrite take_drop.
  split; [by apply sort_values_Ok_inv in Hsort as (_ & ? & _)|].
  intros r r'. apply StronglySorted_app_order. by rewrite take_drop.
Qed.

Lemma top_posts_are_the_largest_sample :
  ∃ top left_out,
    app.top_posts sample.six_days app.HighestScore 5 = Ok top ∧
    pd.rows top ++ left_out ≡ₚ pd.rows sample.six_days ∧
    ∀ r r', r ∈ pd.rows top → r' ∈ left_out →
            spec.ranks_before (app.sort_options app.HighestScore) r r'.
Proof.
  apply (top_posts_are_the_largest sample.six_days app.HighestScore 5).
  - discriminate.
  - vm_compute; reflexivity.
Defined.

(** X18 (the top posts).  Whatever the criterion, the tab shows
    [min(show_count, size)] posts, all of them posts of the collection with
    their cells unchanged; with a count that is not below the size it shows
    every post. *)
Theorem top_posts_size (frame top : pd.DataFrame) (sort_by : app.SortBy)
    (show_count : nat) :
  app.top_posts frame sort_by show_count = Ok top →
  pd.columns top = pd.columns frame ∧
  pd.len top = (show_count `min` pd.len frame)%nat ∧
  pd.rows top ⊆+ pd.rows frame ∧
  ((pd.len frame ≤ show_count)%nat → pd.rows top ≡ₚ pd.rows frame).
Proof.
  unfold app.top_posts.
  destruct (pd.sort_values frame _ _) as [sorted|e] eqn:Hsort; [|done].
  step_ok. intros [= <-]. apply sort_values_Ok_inv in Hsort as (Hcols & Hperm & _).
  unfold pd.len. cbn [pd.head pd.columns pd.rows].
  split; [done|]. split; [|split].
  - by rewrite length_take, Hperm.
  - rewrite <- Hperm. apply sublist_submseteq, sublist_take.
  - intros Hall. rewrite take_ge; [done|]. by rewrite Hperm.
Qed.

Lemma top_posts_size_sample :
  ∃ top,
    app.top_posts sample.six_days app.MostComments 10 = Ok top ∧
    pd.columns top = pd.columns sample.six_days ∧
    pd.len top = (10 `min` pd.len sample.six_days)%nat ∧
    pd.rows top ⊆+ pd.rows sample.six_days ∧
    ((pd.len sample.six_days ≤ 10)%nat → pd.rows top ≡ₚ pd.rows sample.six_days).
Proof.
  eexists. split; [vm_compute; reflexivity|].
  apply (top_posts_size sample.six_days _ app.MostComments 10).
  vm_compute; reflexivity.
Defined.

(** ** The structured report *)

Lemma nlargest_Ok_inv (df largest : pd.DataFrame) (n : nat) (col : string) :
  pd.nlargest n col df = Ok largest →
  spec.numeric col df = true ∧
  ∃ sorted, pd.sort_values df col false = Ok sorted ∧ largest = pd.head n sorted.
Proof.
  unfold pd.nlargest.
  destruct (pd.getitem df col) as [keys|e] eqn:Hkeys; [|done].
  apply getitem_inv in Hkeys as [Hcol ->]. step_ok.
  destruct (forallb _ _) eqn:Hnumeric; [|done].
  destruct (pd.sort_values df col false) as [sorted|e]; [|done]. step_ok.
  intros [= <-]. split; [|by exists sorted].
  unfold spec.numeric. rewrite andb_true_iff, bool_decide_eq_true. split; [done|].
  rewrite forallb_forall in Hnumeric. apply forallb_forall. intros r Hr.
  specialize (Hnumeric (spec.cell_of col r)).
  unfold spec.cell_of in *.
  assert (Hin : In (default pd.VNone (r !! col))
                  ((λ r, default pd.VNone (r !! col)) <$> pd.rows df)).
  { apply list_elem_of_In, list_elem_of_fmap. exists r. by rewrite list_elem_of_In. }
  apply Hnumeric in Hin. by destruct (default pd.VNone (r !! col)) as [| |[]| | |].
Qed.

Lemma generate_json_top_posts (self : Generator) (report : Report) :
  generate_json self = Ok report →
  ∃ largest,
    pd.nlargest 5 "score" (df self) = Ok largest ∧
    Forall (λ c, c ∈ pd.columns (df self)) spec.json_fields ∧
    top_posts report = spec.json_record <$> pd.rows largest.
Proof.
  unfold generate_json.
  destruct (count_label (df self) "Positive") as [pos|e]; [|done]. step_ok.
  destruct (count_label (df self) "Negative") as [neg|e]; [|done]. step_ok.
  destruct (count_label (df self) "Neutral") as [neu|e]; [|done]. step_ok.
  destruct (pd.getitem (df self) "sentiment_compound") as [compound|e]; [|done]. step_ok.
  destruct (pd.series_mean compound) as [mean|e]; [|done]. step_ok.
  destruct (pd.nlargest 5 "score" (df self)) as [largest|e] eqn:Hlargest; [|done]. step_ok.
  destruct (pd.records _ largest) as [top|e] eqn:Htop; [|done]. step_ok.
  intros [= <-]. exists largest. split; [done|].
  apply records_Ok_inv in Htop as [Hcols ->]. split; [|done].
  apply nlargest_Ok_inv in Hlargest as (_ & sorted & Hsort & ->).
  apply sort_values_Ok_inv in Hsort as (<- & _). done.
Qed.

(** X19 ([generate_json]).  The structured report lists
    [min(5, size)] top posts, each with exactly the four fields title,
    label, score and number of comments, read from the posts with the
    highest scores: no post left out has a higher score than a listed one. *)
Theorem json_top_posts_are_the_highest_scores (self : Generator) (report : Report) :
  generate_json self = Ok report →
  length (top_posts report) = (5 `min` pd.len (df self))%nat ∧
  Forall (λ record, dom record = list_to_set spec.json_fields) (top_posts report) ∧
  ∃ largest left_out,
    top_posts report = spec.json_record <$> largest ∧
    largest ++ left_out ≡ₚ pd.rows (df self) ∧
    ∀ r r', r ∈ largest → r' ∈ left_out → spec.ranks_before "score" r r'.
Proof.
  intros (largest & Hlargest & _ & Htop)%generate_json_top_posts.
  apply nlargest_Ok_inv in Hlargest as (Hnumeric & sorted & Hsort & ->).
  destruct (sort_values_descending _ _ Hnumeric) as (sorted' & Hsort' & Hranked).
  rewrite Hsort in Hsort'. injection Hsort' as <-.
  apply sort_values_Ok_inv in Hsort as (_ & Hperm & _).
  cbn [pd.head pd.rows] in Htop. rewrite Htop. split; [|split].
  - by rewrite length_fmap, length_take, Hperm.
  - apply Forall_fmap, Forall_forall. intros r _. unfold compose, spec.json_record.
    rewrite dom_list_to_map_L, <- list_fmap_compose. done.
  - exists (take 5 (pd.rows sorted)), (drop 5 (pd.rows sorted)).
    rewrite take_drop. split; [done|]. split; [done|].
    intros r r'. apply StronglySorted_app_order. by rewrite take_drop.
Qed.

Lemma json_top_posts_are_the_highest_scores_sample :
  ∃ report,
    generate_json sample.generator = Ok report ∧
    length (top_posts report) = (5 `min` pd.len (df sample.generator))%nat ∧
    Forall (λ record, dom record = list_to_set spec.json_fields) (top_posts report) ∧
    ∃ largest left_out,
      top_posts report = spec.json_record <$> largest ∧
      largest ++ left_out ≡ₚ pd.rows (df sample.generator) ∧
      ∀ r r', r ∈ largest → r' ∈ left_out → spec.ranks_before "score" r r'.
Proof.
  eexists. split; [vm_compute; reflexivity|].
  apply (json_top_posts_are_the_highest_scores sample.generator).
  vm_compute; reflexivity.
Defined.

Lemma count_label_Ok (frame : pd.DataFrame) (label : string) :
  "Sentiment" ∈ pd.columns frame →
  count_label frame label
  = Ok (length (List.filter
                  (λ r, if pd.isna (spec.cell_of "Sentiment" r) then false
                        else pd.py_eq (spec.cell_of "Sentiment" r) (pd.VStr label))
                  (pd.rows frame))).
Proof.
  intros Hcol. unfold count_label. rewrite getitem_Ok by done. step_ok.
  unfold pd.series_eq, pd.len, pd.loc. cbn [pd.rows].
  rewrite <- list_fmap_compose. by rewrite compress_fmap.
Qed.

Lemma partition_lengths {A} (f g h : A → bool) (l : list A) :
  Forall (λ x, (f x, g x, h x) = (true, false, false) ∨
               (f x, g x, h x) = (false, true, false) ∨
               (f x, g x, h x) = (false, false, true)) l →
  (length (List.filter f l) + length (List.filter g l) + length (List.filter h l))%nat
  = length l.
Proof.
  induction 1 as [|x l Hx _ IH]; [done|]. cbn.
  destruct Hx as [[= -> -> ->]|[[= -> -> ->]|[= -> -> ->]]]; cbn; lia.
Qed.

Lemma labelled_counts (frame : pd.DataFrame) :
  spec.labelled frame = true →
  ∃ pos neg neu,
    count_label frame "Positive" = Ok pos ∧
    count_label frame "Negative" = Ok neg ∧
    count_label frame "Neutral" = Ok neu ∧
    (pos + neg + neu)%nat = pd.len frame.
Proof.
  unfold spec.labelled. rewrite andb_true_iff, bool_decide_eq_true, forallb_forall.
  intros [Hcol Hrows]. rewrite !count_label_Ok by done.
  do 3 eexists. do 3 (split; [done|]).
  apply partition_lengths, Forall_forall. intros r Hr%list_elem_of_In%Hrows.
  destruct (spec.cell_of "Sentiment" r) as [label| | | | |]; try done.
  apply bool_decide_eq_true in Hr. unfold spec.labels in Hr.
  repeat (apply elem_of_cons in Hr as [->|Hr]; [cbn; auto|]).
  by apply elem_of_nil in Hr.
Qed.

(** X20 (the filter, [generate_json]).  For a collection in which every post
    carries one of the three labels, filtered as the dashboard does, the
    three label counts of the structured report add up to its total: every
    post is counted under exactly one label. *)
Theorem label_counts_add_up (original filtered : pd.DataFrame) (range : Z * Z)
    (threshold : Z) (self : Generator) (report : Report) :
  spec.labelled original = true →
  app.filtered_df original range threshold = Ok filtered →
  df self = filtered →
  generate_json self = Ok report →
  (distribution_positive report + distribution_negative report
   + distribution_neutral report)%nat = total_posts report.
Proof.
  intros Hlabelled Hfilter Hdf Hjson.
  destruct range as [start end_].
  apply filtered_df_Ok_inv in Hfilter as [_ ->].
  assert (Hfiltered : spec.labelled (df self) = true).
  { rewrite Hdf. unfold spec.labelled in *.
    rewrite andb_true_iff, forallb_forall in *. cbn.
    destruct Hlabelled as [Hcol Hrows]. split; [done|].
    intros r [Hr _]%filter_In. auto. }
  destruct (labelled_counts _ Hfiltered) as (pos & neg & neu & Hpos & Hneg & Hneu & Hsum).
  apply generate_json_Ok in Hjson
    as (pos' & neg' & neu' & compound & mean & top & Hpos' & Hneg' & Hneu' & _ & _ & ->).
  cbn. congruence.
Qed.

Lemma label_counts_add_up_sample :
  ∃ report,
    generate_json
      (mkGenerator
         (pd.mkDataFrame sample.normalized_columns
            (List.filter (spec.kept 1 800000 6) (pd.rows sample.processed)))
         "python" "2024-01-01 00:00" 0) = Ok report ∧
    (distribution_positive report + distribution_negative report
     + distribution_neutral report)%nat = total_posts report.
Proof.
  eexists. split; [vm_compute; reflexivity|].
  apply (label_counts_add_up sample.processed
           (pd.mkDataFrame sample.normalized_columns
              (List.filter (spec.kept 1 800000 6) (pd.rows sample.processed)))
           (1, 800000) 6
           (mkGenerator
              (pd.mkDataFrame sample.normalized_columns
                 (List.filter (spec.kept 1 800000 6) (pd.rows sample.processed)))
              "python" "2024-01-01 00:00" 0)).
  - vm_compute; reflexivity.
  - vm_compute; reflexivity.
  - reflexivity.
  - vm_compute; reflexivity.
Defined.

(** ** The rendered report *)

Lemma run_emit_lines (lines : list string) (s : State) :
  run (emit_lines lines) s
  = (Ok (), mkState (world s)
              (page s ++ ((λ line, MultiCell [Lit "- "; Lit line]) <$> lines))).
Proof.
  revert s. induction lines as [|line lines IH]; intros s.
  - cbn. rewrite app_nil_r. by destruct s.
  - cbn [emit_lines]. rewrite run_bind. cbn [emit run].
    rewrite IH. cbn. by rewrite <- !app_assoc.
Qed.

Lemma charted_refl self s : spec.charted self [] s s.
Proof. unfold spec.charted. cbn. by rewrite app_nil_r. Qed.

Lemma charted_app self files files' s1 s2 s3 :
  spec.charted self files s1 s2 → spec.charted self files' s2 s3 →
  spec.charted self (files ++ files') s1 s3.
Proof.
  intros (Hp & Hn & Hd) (Hp' & Hn' & Hd'). unfold spec.charted.
  rewrite Hp', Hp, Hn', Hn, Hd', Hd, fmap_app, app_assoc. done.
Qed.

Lemma run_chart_Ok fails self filename s s' :
  run (chart_path ← _save_chart fails self filename; image fails self chart_path) s
  = (Ok (), s') →
  spec.charted self [filename] s s'.
Proof.
  intros H. apply run_bind_Ok_inv in H as (path & s1 & Hsave & Himage).
  unfold _save_chart in Hsave.
  apply run_bind_Ok_inv in Hsave as ([] & s0 & Hfig & [= <- <-]).
  unfold savefig in Hfig. cbn in Hfig. destruct (fails (Savefig filename)); [done|].
  injection Hfig as <-.
  unfold image in Himage. destruct (fails (EmbedImage filename)); [done|].
  injection Himage as <-. unfold spec.charted. cbn.
  split; [done|]. split; [done|]. by rewrite delete_insert_eq.
Qed.

Lemma run_data_chart_Ok fails self filename s s' :
  run (_ ← lift (pd.getitem (df self) "sentiment_compound");
       chart_path ← _save_chart fails self filename;
       image fails self chart_path) s
  = (Ok (), s') →
  spec.charted self [filename] s s'.
Proof.
  intros H. apply run_bind_Ok_inv in H as (compound & s1 & Hget & Hchart).
  unfold lift in Hget. cbn in Hget. injection Hget as _ <-.
  by apply run_chart_Ok in Hchart.
Qed.

Lemma run_visuals_Ok fails self s s' :
  run (_add_visuals_section fails self) s = (Ok (), s') →
  spec.charted self (spec.chart_files (df self)) s s'.
Proof.
  unfold _add_visuals_section, spec.chart_files. intros H.
  apply run_bind_Ok_inv in H as ([] & s1 & H1 & H).
  apply run_bind_Ok_inv in H as ([] & s2 & H2 & H3).
  apply (charted_app _ _ _ _ s1); [|apply (charted_app _ _ _ _ s2)].
  - destruct (bool_decide ("Sentiment" ∈ _)).
    + by apply run_chart_Ok in H1.
    + injection H1 as <-. apply charted_refl.
  - destruct (bool_decide ("date" ∈ _)).
    + by apply run_data_chart_Ok in H2.
    + injection H2 as <-. apply charted_refl.
  - destruct (bool_decide ("industry" ∈ _)).
    + by apply run_data_chart_Ok in H3.
    + injection H3 as <-. apply charted_refl.
Qed.

Lemma generate_pdf_Ok_inv (fails : io_call → bool) (self : Generator)
    (s s' : State) (doc : list item) :
  run (generate_pdf fails self) s = (Ok doc, s') →
  ∃ ms,
    metrics self = Ok ms ∧
    doc = page s ++ spec.document_head self ++ spec.metric_cells ms
            ++ (Image (temp_dir self) <$> spec.chart_files (df self))
            ++ spec.closing_items ∧
    page s' = doc ∧
    next_dir (world s') = next_dir (world s) ∧
    dirs (world s') = delete (temp_dir self) (dirs (world s)).
Proof.
  unfold generate_pdf. intros H.
  apply run_bind_Ok_inv in H as ([] & s1 & Hbuild & H).
  apply run_bind_Ok_inv in H as (bytes & s2 & Hout & H).
  apply run_bind_Ok_inv in H as ([] & s3 & Hclean & [= <- <-]).
  assert (bytes = page s1 ∧ s2 = s1) as [-> ->].
  { unfold output in Hout. cbn in Hout. destruct (fails Output); [done|].
    by injection Hout as <- <-. }
  clear Hout. injection Hclean as <-.
  unfold _build_pdf_content in Hbuild.
  apply run_bind_Ok_inv in Hbuild as ([] & sa & Hhead & Hbuild).
  apply run_bind_Ok_inv in Hbuild as ([] & sb & Hmetrics & Hbuild).
  apply run_bind_Ok_inv in Hbuild as ([] & sc & Hvis & Hbuild).
  apply run_bind_Ok_inv in Hbuild as ([] & sd & Hrec & Hfoot).
  injection Hhead as <-.
  unfold _add_metrics_section in Hmetrics.
  apply run_bind_Ok_inv in Hmetrics as ([] & sa' & [= <-] & Hmetrics).
  apply run_bind_Ok_inv in Hmetrics as (ms & sa'' & Hms & Hmetrics).
  unfold lift in Hms. cbn in Hms. injection Hms as Hms <-.
  rewrite run_emit_metrics in Hmetrics. injection Hmetrics as <-.
  apply run_visuals_Ok in Hvis as (Hpage & Hnext & Hdirs). cbn in Hpage, Hnext, Hdirs.
  unfold _add_recommendations in Hrec.
  apply run_bind_Ok_inv in Hrec as ([] & sr & [= <-] & Hrec).
  rewrite run_emit_lines in Hrec. injection Hrec as <-.
  injection Hfoot as <-. cbn.
  exists ms. split; [done|]. rewrite Hpage, Hnext, Hdirs.
  split; [|done]. unfold spec.closing_items. by rewrite <- !app_assoc.
Qed.

(** X21 ([generate_pdf] and the methods it calls).  A report that is
    returned has one shape: the head, the six metrics, one image for each
    chart that the columns of the collection allow (sentiment, trend,
    industry, in this order), the recommendations and the footer.  The
    generator's directory is gone afterwards and no other directory was
    touched. *)
Theorem generate_pdf_document (fails : io_call → bool) (self : Generator)
    (s s' : State) (doc : list item) :
  run (generate_pdf fails self) s = (Ok doc, s') →
  ∃ ms,
    metrics self = Ok ms ∧
    doc = page s ++ spec.document_head self ++ spec.metric_cells ms
            ++ (Image (temp_dir self) <$> spec.chart_files (df self))
            ++ spec.closing_items ∧
    page s' = doc ∧
    next_dir (world s') = next_dir (world s) ∧
    dirs (world s') = delete (temp_dir self) (dirs (world s)).
Proof. apply generate_pdf_Ok_inv. Qed.

Lemma generate_pdf_document_sample :
  ∃ doc s',
    run (generate_pdf sample.no_faults sample.generator) sample.blank_document
      = (Ok doc, s') ∧
    ∃ ms,
      metrics sample.generator = Ok ms ∧
      doc = page sample.blank_document ++ spec.document_head sample.generator
              ++ spec.metric_cells ms
              ++ (Image (temp_dir sample.generator)
                    <$> spec.chart_files (df sample.generator))
              ++ spec.closing_items ∧
      page s' = doc ∧
      next_dir (world s') = next_dir (world sample.blank_document) ∧
      dirs (world s')
      = delete (temp_dir sample.generator) (dirs (world sample.blank_document)).
Proof.
  do 2 eexists. split; [vm_compute; reflexivity|].
  apply (generate_pdf_document sample.no_faults sample.generator sample.blank_document).
  vm_compute; reflexivity.
Defined.

(** An error exit of [generate_pdf] removes no directory and no file,
    keeps the pages written so far and makes no directory. *)
Lemma generate_pdf_Raise_inv (fails : io_call → bool) (self : Generator)
    (s s' : State) (e : exn) :
  run (generate_pdf fails self) s = (Raise e, s') →
  (∀ d, spec.keeps d s s') ∧
  spec.extends s s' ∧
  next_dir (world s') = next_dir (world s).
Proof.
  intros H. split; [|split].
  - intros d.
    refine (proj1 (generate_pdf_Raise (keeps d) (λ _, True)
                     _ _ _ _ _ _ fails self s e s' _ H));
      first [ exact (keeps_refl _) | exact (keeps_trans _) | exact (keeps_emit _)
            | exact (keeps_save _) | done ].
  - refine (proj1 (generate_pdf_Raise extends (λ _, True)
                     _ _ _ _ _ _ fails self s e s' _ H)); extends_side.
  - refine (proj1 (generate_pdf_Raise
                     (λ s s', next_dir (world s') = next_dir (world s)) (λ _, True)
                     _ _ _ _ _ _ fails self s e s' _ H)); try done.
    intros s1 s2 s3 H12 H23. by rewrite H23.
Qed.

(** X24 (the export section; [EnhancedPDFGenerator.__init__],
    [generate_pdf], [generate_json]).  Every run of the export section makes
    two temporary directories and leaves at least one behind: the directory
    of the generator used for the structured report is never removed, and
    the directory of the generator used for the rendered report is removed
    only when the rendering succeeds. *)
Theorem export_section_leaves_directories (fails : io_call → bool) (now : string)
    (filtered : pd.DataFrame) (kw : string) (world : World) :
  let exports := (app.export_section fails now filtered kw world).1 in
  let world' := (app.export_section fails now filtered kw world).2 in
  next_dir world' = S (S (next_dir world)) ∧
  dirs world' !! S (next_dir world) = Some ∅ ∧
  match app.pdf exports with
  | Ok _ => dirs world' !! next_dir world = None
  | Raise _ => is_Some (dirs world' !! next_dir world)
  end.
Proof.
  cbv zeta. unfold app.export_section, init, mkdtemp. cbv beta iota zeta.
  set (self := mkGenerator filtered kw now (next_dir world)).
  set (s0 := mkState (mkWorld (S (next_dir world)) (<[next_dir world := ∅]> (dirs world))) []).
  destruct (run (generate_pdf fails self) s0) as [[doc|e] s1] eqn:Hrun; cbn.
  - apply generate_pdf_Ok_inv in Hrun as (_ & _ & _ & _ & Hnext & Hdirs).
    cbn in Hnext, Hdirs. rewrite Hnext, Hdirs, lookup_insert_eq.
    split; [done|]. split; [done|].
    rewrite lookup_insert_ne by lia. apply lookup_delete_eq.
  - apply generate_pdf_Raise_inv in Hrun as (Hkeeps & _ & Hnext).
    cbn in Hnext. rewrite Hnext, lookup_insert_eq.
    split; [done|]. split; [done|].
    rewrite lookup_insert_ne by lia.
    destruct (Hkeeps (next_dir world) ∅) as (files & -> & _); [|done].
    cbn. apply lookup_insert_eq.
Qed.

(** ** Keywords *)

Lemma tally_count_word (w v : string) (counts : list (string * nat)) :
  spec.tally (morocco_analysis.count_word w counts) v
  = (spec.tally counts v + if String.eqb w v then 1 else 0)%nat.
Proof.
  unfold spec.tally. induction counts as [|[u n] counts IH]; cbn.
  - rewrite String.eqb_sym. destruct (String.eqb v w); done.
  - destruct (String.eqb u w) eqn:Huw; cbn.
    + apply String.eqb_eq in Huw as ->.
      destruct (String.eqb w v); cbn; lia.
    + destruct (String.eqb u v) eqn:Huv; cbn.
      * apply String.eqb_eq in Huv as ->. rewrite String.eqb_sym, Huw. lia.
      * apply IH.
Qed.

Lemma keys_count_word (w v : string) (counts : list (string * nat)) :
  v ∈ (morocco_analysis.count_word w counts).*1 ↔ v = w ∨ v ∈ counts.*1.
Proof.
  induction counts as [|[u n] counts IH]; cbn.
  - rewrite list_elem_of_singleton, elem_of_nil. tauto.
  - destruct (String.eqb u w) eqn:Huw; cbn.
    + apply String.eqb_eq in Huw as ->. rewrite !elem_of_cons. tauto.
    + rewrite !elem_of_cons, IH. tauto.
Qed.

Lemma NoDup_count_word (w : string) (counts : list (string * nat)) :
  NoDup (counts.*1) → NoDup ((morocco_analysis.count_word w counts).*1).
Proof.
  induction counts as [|[u n] counts IH]; cbn.
  - intros _. apply NoDup_singleton.
  - intros [Hu Hrest]%NoDup_cons. destruct (String.eqb u w) eqn:Huw; cbn.
    + by apply NoDup_cons.
    + apply NoDup_cons. split; [|by apply IH].
      rewrite keys_count_word. intros [->|?]; [|done].
      by rewrite String.eqb_refl in Huw.
Qed.

Lemma Counter_from (words : list string) (counts : list (string * nat)) (v : string) :
  NoDup (counts.*1) →
  let counted := foldl (λ counts w, morocco_analysis.count_word w counts) counts words in
  NoDup (counted.*1) ∧
  spec.tally counted v = (spec.tally counts v + spec.occurrences v words)%nat ∧
  (v ∈ counted.*1 ↔ v ∈ counts.*1 ∨ v ∈ words).
Proof.
  revert counts. induction words as [|w words IH]; intros counts Hnodup; cbn.
  - split; [done|]. split; [unfold spec.occurrences; cbn; lia|].
    rewrite elem_of_nil. tauto.
  - destruct (IH (morocco_analysis.count_word w counts) (NoDup_count_word _ _ Hnodup))
      as (Hkeys & Htally & Hin).
    cbv zeta in Hkeys, Htally, Hin.
    split; [done|]. split.
    + rewrite Htally, tally_count_word. unfold spec.occurrences. cbn.
      rewrite (String.eqb_sym v w). destruct (String.eqb w v); cbn; lia.
    + rewrite Hin, keys_count_word, elem_of_cons. tauto.
Qed.

Lemma tally_elem (counts : list (string * nat)) (v : string) (c : nat) :
  NoDup (counts.*1) → (v, c) ∈ counts → spec.tally counts v = c.
Proof.
  unfold spec.tally. induction counts as [|[u n] counts IH]; cbn.
  - by intros _ ?%elem_of_nil.
  - intros [Hu Hrest]%NoDup_cons [[= -> ->]|Hin]%elem_of_cons.
    + by rewrite String.eqb_refl.
    + destruct (String.eqb u v) eqn:Huv; [|by apply IH].
      apply String.eqb_eq in Huv as ->. exfalso. apply Hu.
      apply list_elem_of_fmap. by exists (v, c).
Qed.

(** [most_common] of a [Counter]: the most frequent words. *)
Lemma most_common_Counter (n : nat) (words : list string) :
  spec.most_frequent n words
    (morocco_analysis.most_common n (morocco_analysis.Counter words)).
Proof.
  unfold morocco_analysis.most_common, morocco_analysis.Counter.
  set (counts := foldl (λ counts w, morocco_analysis.count_word w counts) [] words).
  set (leb := λ a b : string * nat, (b.2 <=? a.2)%nat).
  assert (Hcounts : ∀ v, NoDup (counts.*1) ∧
                         spec.tally counts v = spec.occurrences v words ∧
                         (v ∈ counts.*1 ↔ v ∈ words)).
  { intros v. destruct (Counter_from words [] v (NoDup_nil_2 : NoDup ([] : list (string * nat)).*1))
      as (H1 & H2 & H3).
    cbv zeta in H1, H2, H3. fold counts in H1, H2, H3.
    split; [done|]. split; [done|]. rewrite H3. cbn. rewrite elem_of_nil. tauto. }
  assert (Hperm : pd.stable_sort leb counts ≡ₚ counts) by apply stable_sort_perm.
  assert (Hsorted : StronglySorted (λ a b, leb a b = true) (pd.stable_sort leb counts)).
  { apply (stable_sort_sorted leb (λ _, True)).
    - intros x y _ _. unfold leb. rewrite !Nat.leb_le. lia.
    - intros x y z _ _ _. unfold leb. rewrite !Nat.leb_le. lia.
    - by apply Forall_true. }
  assert (Hnodup : NoDup ((pd.stable_sort leb counts).*1)).
  { rewrite Hperm. apply (Hcounts ""). }
  revert Hperm Hsorted Hnodup. generalize (pd.stable_sort leb counts). intros sorted Hperm Hsorted Hnodup.
  assert (Hsplit : sorted = take n sorted ++ drop n sorted) by by rewrite take_drop.
  unfold spec.most_frequent. split; [|split; [|split]].
  - rewrite Hsplit, fmap_app in Hnodup. by apply NoDup_app in Hnodup as (? & _).
  - rewrite length_take. lia.
  - apply Forall_forall. intros [v c] Hin. cbn.
    assert (Hv : (v, c) ∈ counts).
    { rewrite <- Hperm, Hsplit. apply elem_of_app. by left. }
    destruct (Hcounts v) as (Hkeys & Htally & Hwords).
    split.
    + apply Hwords, list_elem_of_fmap. by exists (v, c).
    + by rewrite <- Htally, (tally_elem _ _ _ Hkeys Hv).
  - intros word Hword Hout.
    destruct (Hcounts word) as (Hkeys & Htally & Hwords).
    apply Hwords, list_elem_of_fmap in Hword as ([w c] & -> & Hin). cbn in *.
    assert (Hc : c = spec.occurrences w words).
    { by rewrite <- Htally, (tally_elem _ _ _ Hkeys Hin). }
    rewrite <- Hperm, Hsplit in Hin. apply elem_of_app in Hin as [Hin|Hin].
    { exfalso. apply Hout, list_elem_of_fmap. by exists (w, c). }
    split.
    + rewrite length_take. apply Nat.min_l.
      destruct (decide (n ≤ length sorted)%nat) as [|Hfew]; [done|].
      rewrite drop_ge in Hin by lia. by apply elem_of_nil in Hin.
    + apply Forall_forall. intros a Ha.
      rewrite Hsplit in Hsorted.
      pose proof (StronglySorted_app_order _ _ _ _ _ Hsorted Ha Hin) as Hle.
      unfold leb in Hle. cbn in Hle. apply Nat.leb_le in Hle. by rewrite <- Hc.
Qed.

(** X25 ([get_top_keywords] of [morocco_analysis]).  The keywords are the
    [n] most frequent words of the titles, lower-cased and stripped of
    punctuation: each keyword once, no word left out occurs more often than
    a keyword, and no keyword is a stop word or shorter than three
    characters.  Posts that are not text are skipped. *)
Theorem top_keywords_most_frequent (lib : py.Library) (posts : list pd.cell) (n : nat) :
  ∃ top,
    morocco_analysis.get_top_keywords lib posts n = top.*1 ∧
    spec.most_frequent n (spec.content_words lib posts) top ∧
    Forall (λ word, (word ∉ morocco_analysis.STOP_WORDS) ∧
                    (2 < py.str_len lib word)%nat ∧
                    ∃ text, pd.VStr text ∈ posts ∧
                            word ∈ py.str_split lib
                                     (py.re_sub_punctuation lib (py.str_lower lib text)))
      (top.*1).
Proof.
  exists (morocco_analysis.most_common n
            (morocco_analysis.Counter (spec.content_words lib posts))).
  split; [done|].
  pose proof (most_common_Counter n (spec.content_words lib posts)) as Hmost.
  split; [done|].
  destruct Hmost as (_ & _ & Htop & _).
  apply Forall_fmap. eapply Forall_impl; [exact Htop|]. cbn.
  intros [w c] [Hw _]. cbn in *.
  unfold spec.content_words in Hw.
  apply list_elem_of_In, in_flat_map in Hw as (post & Hpost%list_elem_of_In & Hw).
  destruct post as [text| | | | |]; try done.
  apply filter_In in Hw as [Hw Hkeep].
  apply andb_true_iff in Hkeep as [Hstop%negb_true_iff%bool_decide_eq_false Hlong%Nat.ltb_lt].
  split; [done|]. split; [done|]. exists text. split; [done|]. by apply list_elem_of_In.
Qed.

(** Two titles in ASCII: the stop words, the short words and the
    punctuation are gone, "cat" comes first with its two occurrences. *)
Example top_keywords_of_two_titles :
  morocco_analysis.get_top_keywords ascii_text.library
    [pd.VStr "The cat and the hat: a CAT!"; pd.VNone; pd.VStr "It is a dog"] 10
  = ["cat"; "hat"; "dog"].
Proof. vm_compute. reflexivity. Qed.

(** X26 ([get_top_keywords] of [industry_analysis]).  The fallback keywords
    are the [n] most frequent words of the posts, a word being the
    lower-case form of a run of word characters of more than three
    characters: each keyword once, and no word left out occurs more often
    than a keyword. *)
Theorem fallback_keywords_most_frequent (lib : py.Library) (posts : list pd.cell)
    (n : nat) :
  ∃ top,
    industry_keywords.get_top_keywords lib posts n = top.*1 ∧
    spec.most_frequent n (spec.long_words lib posts) top ∧
    Forall (λ word, ∃ text run, pd.VStr text ∈ posts ∧
                                run ∈ py.re_findall_words lib text ∧
                                (3 < py.str_len lib run)%nat ∧
                                word = py.str_lower lib run)
      (top.*1).
Proof.
  exists (morocco_analysis.most_common n
            (morocco_analysis.Counter (spec.long_words lib posts))).
  split; [done|].
  pose proof (most_common_Counter n (spec.long_words lib posts)) as Hmost.
  split; [done|].
  destruct Hmost as (_ & _ & Htop & _).
  apply Forall_fmap. eapply Forall_impl; [exact Htop|]. cbn.
  intros [w c] [Hw _]. cbn in *.
  unfold spec.long_words in Hw.
  apply list_elem_of_In, in_flat_map in Hw as (post & Hpost%list_elem_of_In & Hw).
  destruct post as [text| | | | |]; try done.
  apply list_elem_of_In, list_elem_of_fmap in Hw as (run & -> & Hrun).
  apply list_elem_of_In, filter_In in Hrun as [Hrun Hlong%Nat.ltb_lt].
  exists text, run. split; [done|]. split; [by apply list_elem_of_In|]. by split.
Qed.

(** The apostrophe and the dash end a run: "It" and "s" are too short. *)
Example fallback_keywords_of_a_title :
  industry_keywords.get_top_keywords ascii_text.library
    [pd.VStr "It's great - great News"; pd.VInt 3] 5
  = ["great"; "news"].
Proof. vm_compute. reflexivity. Qed.
